(** * Accident detection and alert backend: identifier resolution,
      event ingestion, registry upsert, the in-memory SSE hub, the
      listings, the three [init_db] and the accounts.

    Shallow embedding of [User_app.py], [Dev_app.py] and the schema of
    [db_init.py].

    Conventions of the model.
    - A Python [str] is a Rocq [string] whose characters are the code
      points 0..255.  On that range [str.strip] removes U+0009..U+000D,
      U+001C..U+001F, U+0020, U+0085 and U+00A0, and the only decimal
      digits [int] accepts are the ASCII ones.  No limit on the number of
      digits [int] parses is modelled.
    - A JSON object is a [gmap string Py.value]; a JSON [null] and a
      missing key are both seen by [dict.get(k)] as [None].  Only scalar
      JSON values that are not floats are modelled.
    - [json.dumps] is injective on the values it is applied to, so a
      serialised payload is represented by the value it serialises.
    - The SQLite file is a [Sqlite.database]: the column names of the two
      tables, their rows in rowid order and the AUTOINCREMENT counters.
      A table that does not exist yet has no columns.  A statement naming
      a column the table lacks raises [OperationalError], as SQLite does
      when it prepares the statement; a Python int outside the 64-bit
      range cannot be bound as a parameter and raises [OverflowError].
    - The body of a request is a JSON object.  The [users] table is a
      state of its own ([Auth.table]), apart from [Sqlite.database]: the
      vehicle and event handlers never touch it, and the three [init_db]
      are modelled on the two other tables.
    - The environment of a request ([Runtime.env]) holds the clocks, the
      API key and which statements the storage engine fails. *)

From Stdlib Require Import ZArith String Ascii List Lia.
From Stdlib Require Import Decimal DecimalString DecimalZ DecimalPos.
From stdpp Require Import base list gmap strings.

Open Scope string_scope.
Open Scope list_scope.
Open Scope Z_scope.

(* ===================================================================== *)
(** ** Python values and the string functions the code calls *)
(* ===================================================================== *)

Module Py.

Inductive value :=
  | VNone
  | VBool (b : bool)
  | VInt (z : Z)
  | VStr (s : string).

#[global] Instance value_eq_dec : EqDecision value.
Proof. solve_decision. Defined.

(** Truth value testing: [None], [False], [0] and [''] are false. *)
Definition truthy (v : value) : bool :=
  match v with
  | VNone => false
  | VBool b => b
  | VInt z => negb (z =? 0)
  | VStr s => negb (bool_decide (s = ""))
  end.

(** [a or b] *)
Definition or_ (a b : value) : value := if truthy a then a else b.

(** [d.get(k)] and [d.get(k, dflt)] on a JSON object. *)
Definition get (d : gmap string value) (k : string) : value :=
  default VNone (d !! k).

Definition get_or (d : gmap string value) (k : string) (dflt : value) : value :=
  default dflt (d !! k).

(** [str(v)] *)
Definition str (v : value) : string :=
  match v with
  | VNone => "None"
  | VBool true => "True"
  | VBool false => "False"
  | VInt z => NilZero.string_of_int (Z.to_int z)
  | VStr s => s
  end.

(** Characters [str.strip()] removes, among the code points 0..255. *)
Definition isspace (c : ascii) : bool :=
  let n := N_of_ascii c in
  (((9 <=? n) && (n <=? 13)) || ((28 <=? n) && (n <=? 32))
   || (n =? 133) || (n =? 160))%N.

Fixpoint lstrip (s : string) : string :=
  match s with
  | EmptyString => EmptyString
  | String c r => if isspace c then lstrip r else s
  end.

Fixpoint rstrip (s : string) : string :=
  match s with
  | EmptyString => EmptyString
  | String c r =>
      match rstrip r with
      | EmptyString => if isspace c then EmptyString else String c EmptyString
      | r' => String c r'
      end
  end.

(** [s.strip()] *)
Definition strip (s : string) : string := rstrip (lstrip s).

(** No character of [s] is one that [strip] removes. *)
Fixpoint spaceless (s : string) : bool :=
  match s with
  | EmptyString => true
  | String c r => negb (isspace c) && spaceless r
  end.

(** One decimal digit, as the constructor of [Decimal.uint] it stands for. *)
Definition digit (c : ascii) : option (uint -> uint) :=
  match c with
  | "0"%char => Some D0
  | "1"%char => Some D1
  | "2"%char => Some D2
  | "3"%char => Some D3
  | "4"%char => Some D4
  | "5"%char => Some D5
  | "6"%char => Some D6
  | "7"%char => Some D7
  | "8"%char => Some D8
  | "9"%char => Some D9
  | _ => None
  end.

(** The digits after the first one: a single underscore may stand between
    two digits, nowhere else. *)
Fixpoint digits_tail (s : string) : option uint :=
  match s with
  | EmptyString => Some Nil
  | String c r =>
      if Ascii.eqb c "_"%char then
        match r with
        | EmptyString => None
        | String c' r' =>
            match digit c', digits_tail r' with
            | Some d, Some u => Some (d u)
            | _, _ => None
            end
        end
      else
        match digit c, digits_tail r with
        | Some d, Some u => Some (d u)
        | _, _ => None
        end
  end.

Definition digits (s : string) : option uint :=
  match s with
  | EmptyString => None
  | String c r =>
      match digit c, digits_tail r with
      | Some d, Some u => Some (d u)
      | _, _ => None
      end
  end.

(** [int(s)] on a string without surrounding whitespace: [None] stands for
    the [ValueError] the callers catch. *)
Definition int (s : string) : option Z :=
  match s with
  | String "+"%char r => (fun u => Z.of_int (Pos u)) <$> digits r
  | String "-"%char r => (fun u => Z.of_int (Neg u)) <$> digits r
  | _ => (fun u => Z.of_int (Pos u)) <$> digits s
  end.

End Py.

(* ===================================================================== *)
(** ** The SQLite file: two tables, their columns and their rows *)
(* ===================================================================== *)

Module Sqlite.

Inductive exn :=
  | OperationalError   (* no such column, disk full, nested BEGIN, I/O fault *)
  | IntegrityError     (* UNIQUE constraint failed *)
  | OverflowError      (* Python int too large to convert to SQLite INTEGER *)
  | AttributeError     (* a method called on a value that lacks it *)
  | RuntimeError.      (* a failure of the fan-out step *)

(** A row of [vehicles].  [v_created_at] and [v_updated_at] are only
    meaningful when the table has the column. *)
Record vehicle := mk_vehicle {
  v_id : Z;
  v_vehicle_id : string;
  v_model : option string;
  v_owner : option string;
  v_registration : option string;
  v_accident_details : option string;
  v_created_at : option string;
  v_updated_at : option string
}.

(** A row of [accident_events]: the columns of [User_app.init_db] and the
    ones [Dev_app.init_db] adds. *)
Record event := mk_event {
  e_id : Z;
  e_vehicle_id : string;
  e_intensity : Py.value;
  e_lat : Py.value;
  e_lng : Py.value;
  e_timestamp : option string;
  e_raw_payload : option (gmap string Py.value);
  e_created_at : option string;
  e_details : option string;
  e_meta_json : option Py.value;
  e_event_time : option string
}.

Record database := mk_database {
  vehicles_columns : list string;
  events_columns : list string;
  vehicles : list vehicle;
  vehicles_seq : Z;
  accident_events : list event;
  events_seq : Z
}.

#[global] Instance exn_eq_dec : EqDecision exn.
Proof. solve_decision. Defined.
#[global] Instance vehicle_eq_dec : EqDecision vehicle.
Proof. solve_decision. Defined.
#[global] Instance event_eq_dec : EqDecision event.
Proof. solve_decision. Defined.
#[global] Instance database_eq_dec : EqDecision database.
Proof. solve_decision. Defined.

Definition max_int64 : Z := 9223372036854775807.
Definition min_int64 : Z := -9223372036854775808.

(** A Python int is bound as a 64-bit SQLite INTEGER or not at all. *)
Definition fits_int64 (z : Z) : bool := (min_int64 <=? z) && (z <=? max_int64).

Definition bindable (v : Py.value) : bool :=
  match v with
  | Py.VInt z => fits_int64 z
  | _ => true
  end.

(** What a column of TEXT affinity stores for a bound Python value. *)
Definition bind_text (v : Py.value) : option string :=
  match v with
  | Py.VNone => None
  | Py.VBool true => Some "1"
  | Py.VBool false => Some "0"
  | Py.VInt z => Some (Py.str (Py.VInt z))
  | Py.VStr s => Some s
  end.

(** Truth value of what a TEXT column returns. *)
Definition text_truthy (t : option string) : bool :=
  match t with
  | Some s => negb (bool_decide (s = ""))
  | None => false
  end.

(** The value a column declared DEFAULT CURRENT_TIMESTAMP takes when the
    INSERT does not name it; NULL when the table has no such column. *)
Definition default_now (column : string) (table : list string) (now : string)
    : option string :=
  if bool_decide (column ∈ table) then Some now else None.

(** A file without tables has empty column lists. *)
Definition empty_file : database := mk_database [] [] [] 0 [] 0.

Definition has_columns (needed table : list string) : bool :=
  forallb (fun c => bool_decide (c ∈ table)) needed.

(** AUTOINCREMENT: one more than the largest rowid ever used. *)
Definition next_rowid (seq : Z) (ids : list Z) : Z :=
  Z.max seq (foldr Z.max 0 ids) + 1.

(** [SELECT * FROM vehicles WHERE vehicle_id = ?], first row. *)
Definition vehicle_by_vehicle_id (vid : string) (d : database) : option vehicle :=
  find (fun r => bool_decide (v_vehicle_id r = vid)) (vehicles d).

(** [SELECT * FROM vehicles WHERE id = ?], first row. *)
Definition vehicle_by_id (iid : Z) (d : database) : exn + option vehicle :=
  if fits_int64 iid
  then inr (find (fun r => bool_decide (v_id r = iid)) (vehicles d))
  else inl OverflowError.

Definition set_vehicles (d : database) (rows : list vehicle) (seq : Z) : database :=
  mk_database (vehicles_columns d) (events_columns d) rows seq
              (accident_events d) (events_seq d).

Definition set_events (d : database) (rows : list event) (seq : Z) : database :=
  mk_database (vehicles_columns d) (events_columns d) (vehicles d) (vehicles_seq d)
              rows seq.

(** [UPDATE vehicles SET ... WHERE ...]: the new table and [rowcount]. *)
Definition update_vehicles (used : list string) (hit : vehicle -> bool)
    (set : vehicle -> vehicle) (d : database) : exn + (database * Z) :=
  if has_columns used (vehicles_columns d) then
    inr (set_vehicles d (map (fun r => if hit r then set r else r) (vehicles d))
                      (vehicles_seq d),
         Z.of_nat (length (filter (fun r => hit r = true) (vehicles d))))
  else inl OperationalError.

(** What a conflicting row does to an INSERT. *)
Inductive on_conflict :=
  | Abort                                   (* plain INSERT *)
  | Ignore                                  (* INSERT OR IGNORE *)
  | DoUpdate (set : vehicle -> vehicle).    (* ON CONFLICT(vehicle_id) DO UPDATE *)

(** [INSERT INTO vehicles (...)]: [row] receives the new rowid.  The
    rowid is drawn before the UNIQUE check, so OR IGNORE and DO UPDATE
    advance the counter even when no row is added. *)
Definition insert_vehicle (used : list string) (oc : on_conflict)
    (row : Z -> vehicle) (d : database) : exn + (database * Z) :=
  if has_columns used (vehicles_columns d) then
    let rowid := next_rowid (vehicles_seq d) (map v_id (vehicles d)) in
    let alias := v_vehicle_id (row rowid) in
    if max_int64 <? rowid then inl OperationalError
    else if existsb (fun r => bool_decide (v_vehicle_id r = alias)) (vehicles d) then
      match oc with
      | Abort => inl IntegrityError
      | Ignore => inr (set_vehicles d (vehicles d) rowid, 0)
      | DoUpdate set =>
          inr (set_vehicles d
                 (map (fun r => if bool_decide (v_vehicle_id r = alias) then set r else r)
                      (vehicles d))
                 rowid, 1)
      end
    else inr (set_vehicles d (vehicles d ++ [row rowid]) rowid, 1)
  else inl OperationalError.

(** [INSERT INTO accident_events (...)] *)
Definition insert_event (used : list string) (row : Z -> event)
    (d : database) : exn + (database * Z) :=
  if has_columns used (events_columns d) then
    let rowid := next_rowid (events_seq d) (map e_id (accident_events d)) in
    if max_int64 <? rowid then inl OperationalError
    else inr (set_events d (accident_events d ++ [row rowid]) rowid, 1)
  else inl OperationalError.

(** [CREATE TABLE IF NOT EXISTS]: a table that exists keeps the columns it
    has. *)
Definition create_table_if_not_exists (columns existing : list string) : list string :=
  match existing with
  | [] => columns
  | _ => existing
  end.

(** A connection: the file, the changes of the open transaction if there
    is one, and how many statements it has been given. *)
Record connection := mk_connection {
  disk : database;
  txn : option database;
  executed : nat
}.

Definition connect (d : database) : connection := mk_connection d None 0.

(** What a statement on the connection sees. *)
Definition view (c : connection) : database := default (disk c) (txn c).

(** Closing drops whatever was not committed. *)
Definition close (c : connection) : connection := mk_connection (disk c) None (executed c).

End Sqlite.

(* ===================================================================== *)
(** ** Requests, responses and the state a request handler runs in *)
(* ===================================================================== *)

Module Runtime.
Import Sqlite.

(** The JSON text [hardware_event] publishes, by its fields; the [type]
    field is always [accident_event]. *)
Record payload := mk_payload {
  p_vehicleID : string;
  p_intensity : Py.value;
  p_lat : Py.value;
  p_lng : Py.value;
  p_timestamp : Py.value;
  p_notes : Py.value
}.

#[global] Instance payload_eq_dec : EqDecision payload.
Proof. solve_decision. Defined.

(** [_sse_subscribers] and the queue objects it refers to.  A queue is a
    Python list, so a handle is the address of that list: the dictionary
    and the stream generator hold the same object. *)
Record hub := mk_hub {
  subscribers : gmap string (list nat);
  queues : gmap nat (list payload);
  next_queue : nat
}.

Inductive effect :=
  | Commit
  | Rollback
  | Publish (vehicle_id : string).

Record world := mk_world {
  conn : connection;
  sse : hub;
  trace : list effect
}.

(** What the process receives from outside. *)
Record env := mk_env {
  HW_API_KEY : string;
  utcnow_isoformat : string;         (* datetime.utcnow().isoformat() *)
  CURRENT_TIMESTAMP : string;        (* SQLite's clock *)
  faults : nat -> bool;              (* statements the storage engine fails *)
  publish_fault : bool;              (* the fan-out step raises *)
  order_by_created_at_desc : list event -> list event  (* SQLite's sorter *)
}.

Definition io (A : Type) : Type := world -> (exn + A) * world.

Definition ret {A} (a : A) : io A := fun w => (inr a, w).

Definition raise {A} (e : exn) : io A := fun w => (inl e, w).

Definition bind {A B} (m : io A) (k : A -> io B) : io B :=
  fun w =>
    match m w with
    | (inl e, w') => (inl e, w')
    | (inr a, w') => k a w'
    end.

(** [try: m  except Exception: h; raise] *)
Definition on_exception {A} (m : io A) (h : io unit) : io A :=
  fun w =>
    match m w with
    | (inl e, w') =>
        match h w' with
        | (inl e', w'') => (inl e', w'')
        | (inr _, w'') => (inl e, w'')
        end
    | r => r
    end.

(** [try: m  finally: h] *)
Definition finally {A} (m : io A) (h : io unit) : io A :=
  fun w =>
    match m w with
    | (r, w') =>
        match h w' with
        | (inl e', w'') => (inl e', w'')
        | (inr _, w'') => (r, w'')
        end
    end.

(** [try: m  except Exception: return a] *)
Definition except {A} (m : io A) (a : A) : io A :=
  fun w =>
    match m w with
    | (inl _, w') => (inr a, w')
    | r => r
    end.

Definition with_conn (w : world) (c : connection) : world :=
  mk_world c (sse w) (trace w).

Definition stepped (c : connection) (t : option database) : connection :=
  mk_connection (disk c) t (S (executed c)).

(** [cursor.execute(sql, params)] for INSERT and UPDATE: returns
    [cursor.rowcount].  The sqlite3 module opens a transaction before the
    first of them if none is open. *)
Definition execute (E : env) (params : list Py.value)
    (stmt : database -> exn + (database * Z)) : io Z :=
  fun w =>
    let c := conn w in
    if faults E (executed c) then (inl OperationalError, with_conn w (stepped c (txn c)))
    else if negb (forallb bindable params)
    then (inl OverflowError, with_conn w (stepped c (txn c)))
    else
      match stmt (view c) with
      | inl e => (inl e, with_conn w (stepped c (txn c)))
      | inr (d, rowcount) => (inr rowcount, with_conn w (stepped c (Some d)))
      end.

(** [cursor.execute(sql, params)] for a SELECT. *)
Definition query {A} (E : env) (q : database -> exn + A) : io A :=
  fun w =>
    let c := conn w in
    if faults E (executed c) then (inl OperationalError, with_conn w (stepped c (txn c)))
    else
      match q (view c) with
      | inl e => (inl e, with_conn w (stepped c (txn c)))
      | inr a => (inr a, with_conn w (stepped c (txn c)))
      end.

(** [cursor.execute("BEGIN")] *)
Definition begin (E : env) : io unit :=
  fun w =>
    let c := conn w in
    if faults E (executed c) then (inl OperationalError, with_conn w (stepped c (txn c)))
    else
      match txn c with
      | Some _ => (inl OperationalError, with_conn w (stepped c (txn c)))
      | None => (inr tt, with_conn w (stepped c (Some (disk c))))
      end.

(** [db.commit()] *)
Definition commit (E : env) : io unit :=
  fun w =>
    let c := conn w in
    if faults E (executed c) then (inl OperationalError, with_conn w (stepped c (txn c)))
    else (inr tt, mk_world (mk_connection (view c) None (S (executed c)))
                           (sse w) (trace w ++ [Commit])).

(** [db.rollback()] *)
Definition rollback : io unit :=
  fun w =>
    (inr tt, mk_world (mk_connection (disk (conn w)) None (executed (conn w)))
                      (sse w) (trace w ++ [Rollback])).

(** [db.close()] *)
Definition close_db : io unit :=
  fun w => (inr tt, with_conn w (close (conn w))).

Inductive body :=
  | JSuccess (success : bool)
  | JMessage (success : bool) (message : string)
  | JUpserted (message : string) (vehicle_id : string)
  | JAction (message : string) (action : string) (vehicle_id : string)
  | JFound (vehicle : Sqlite.vehicle)
  | JNotFound (message : string)
  | JInvalid (message : string)
  | JValid (vehicle : Z * string * option string * option string * option string * string)
           (events : list (Z * string * Py.value * Py.value * Py.value * option string))
  | JServerError.

Record response := mk_response { status : Z; json_body : body }.

(** One request against the file [db] and the hub [h]: the handler runs on
    a fresh connection, an exception that escapes it becomes a 500, and
    the connection is closed when the request ends. *)
Definition serve (m : io response) (db : database) (h : hub)
    : response * database * hub * list effect :=
  match m (mk_world (connect db) h []) with
  | (r, w) =>
      (match r with
       | inr resp => resp
       | inl _ => mk_response 500 JServerError
       end,
       disk (close (conn w)), sse w, trace w)
  end.

End Runtime.

Notation "'let*' x ':=' m 'in' k" := (Runtime.bind m (fun x => k))
  (at level 10, x name, m at level 100, k at level 200).

(* ===================================================================== *)
(** ** User_app.py *)
(* ===================================================================== *)

Module User_app.
Import Sqlite Runtime.

(** *** [init_db]: the tables of User_app.py and the index on the event
    log (the [users] table is not part of the model) *)

(** The outcome of [init_db] and the file it leaves.  The CREATE TABLE IF
    NOT EXISTS statements are not run in a transaction, so the tables they
    made are in the file also when the statement after them, CREATE INDEX
    IF NOT EXISTS idx_events_vehicle_time ON accident_events(vehicle_id,
    timestamp DESC), raises; it raises when the table lacks one of the two
    columns.  [init_db] is called when the module is loaded: when it
    raises, User_app.py does not start and serves no request. *)
Definition init_db (d : database) : (exn + unit) * database :=
  let d' :=
    mk_database
      (create_table_if_not_exists
         ["id"; "vehicle_id"; "model"; "owner"; "registration"; "accident_details"]
         (vehicles_columns d))
      (create_table_if_not_exists
         ["id"; "vehicle_id"; "intensity"; "lat"; "lng"; "timestamp"; "raw_payload";
          "created_at"]
         (events_columns d))
      (vehicles d) (vehicles_seq d) (accident_events d) (events_seq d) in
  if has_columns ["vehicle_id"; "timestamp"] (events_columns d')
  then (inr tt, d')
  else (inl OperationalError, d').

(** *** Identifier resolution *)

(** [find_vehicle_by_identifier(ident)]: the row and the column that
    matched, or [None] for the pair [(None, None)]. *)
Definition find_vehicle_by_identifier (E : env) (ident : Py.value)
    : io (option (vehicle * string)) :=
  match ident with
  | Py.VNone => ret None
  | _ =>
      let ident_str := Py.strip (Py.str ident) in
      if bool_decide (ident_str = "") then ret None
      else
        let* row := query E (fun d => inr (vehicle_by_vehicle_id ident_str d)) in
        match row with
        | Some r => ret (Some (r, "vehicle_id"))
        | None =>
            match Py.int ident_str with
            | None => ret None
            | Some iid =>
                let* row := query E (vehicle_by_id iid) in
                match row with
                | Some r => ret (Some (r, "id"))
                | None => ret None
                end
            end
        end
  end.

(** *** The in-memory publish and subscribe hub *)

(** [sse_subscribe(vehicle_id)]: a new empty list is allocated and appended
    to the list registered under the key; its address is returned. *)
Definition sse_subscribe (vehicle_id : string) (h : hub) : nat * hub :=
  let q := next_queue h in
  (q, mk_hub (<[vehicle_id := default [] (subscribers h !! vehicle_id) ++ [q]]> (subscribers h))
             (<[q := []]> (queues h))
             (S q)).

(** [x == q or x is q] for two queue objects: Python compares lists by
    their contents. *)
Definition same_queue (h : hub) (q x : nat) : bool :=
  bool_decide (x = q) || bool_decide (queues h !! x = queues h !! q).

(** [arr.remove(q)]: the first element equal to [q] goes. *)
Fixpoint remove_first (same : nat -> bool) (arr : list nat) : list nat :=
  match arr with
  | [] => []
  | x :: rest => if same x then rest else x :: remove_first same rest
  end.

(** [sse_unsubscribe(vehicle_id, q)] *)
Definition sse_unsubscribe (vehicle_id : string) (q : nat) (h : hub) : hub :=
  match subscribers h !! vehicle_id with
  | None => h
  | Some arr =>
      if negb (bool_decide (arr = [])) && existsb (same_queue h q) arr
      then mk_hub (<[vehicle_id := remove_first (same_queue h q) arr]> (subscribers h))
                  (queues h) (next_queue h)
      else h
  end.

(** [q.append(payload)] on the object at address [q]. *)
Definition append_to (payload : Runtime.payload) (qs : gmap nat (list Runtime.payload))
    (q : nat) : gmap nat (list Runtime.payload) :=
  <[q := default [] (qs !! q) ++ [payload]]> qs.

(** [sse_publish(vehicle_id, payload)] *)
Definition sse_publish (vehicle_id : string) (payload : Runtime.payload) (h : hub) : hub :=
  let arr := default [] (subscribers h !! vehicle_id) in
  mk_hub (subscribers h) (foldl (append_to payload) (queues h) arr) (next_queue h).

(** *** /add_vehicle *)

Definition add_vehicle (E : env) (data : gmap string Py.value) : io response :=
  let vid_raw :=
    match Py.get data "vehicle_id" with
    | Py.VNone => Py.get data "id"
    | v => v
    end in
  let vid :=
    match vid_raw with
    | Py.VNone => ""
    | v => Py.strip (Py.str v)
    end in
  if bool_decide (vid = "") then ret (mk_response 400 (JMessage false "vehicle id required"))
  else
    let model := Py.get_or data "model" (Py.VStr "") in
    let owner := Py.get_or data "owner" (Py.VStr "") in
    let registration := Py.get_or data "registration" (Py.VStr "") in
    let* _ :=
      execute E [Py.VStr vid; model; owner; registration; Py.VNone]
        (fun d =>
           insert_vehicle ["vehicle_id"; "model"; "owner"; "registration"; "accident_details"]
             (DoUpdate (fun r =>
                mk_vehicle (v_id r) (v_vehicle_id r) (bind_text model) (bind_text owner)
                           (bind_text registration) (v_accident_details r)
                           (v_created_at r) (v_updated_at r)))
             (fun rowid =>
                mk_vehicle rowid vid (bind_text model) (bind_text owner)
                           (bind_text registration) None
                           (default_now "created_at" (vehicles_columns d)
                                        (CURRENT_TIMESTAMP E))
                           None)
             d) in
    let* _ := commit E in
    ret (mk_response 201 (JUpserted "vehicle added/updated" vid)).

(** *** /vehicle/<vid> *)

Definition get_vehicle (E : env) (vid : string) : io response :=
  let* found := find_vehicle_by_identifier E (Py.VStr vid) in
  match found with
  | None => ret (mk_response 404 (JNotFound "Vehicle not found"))
  | Some (row, _) => ret (mk_response 200 (JFound row))
  end.

(** *** /validateID *)

(** [list(dict.fromkeys(candidates))] *)
Fixpoint dedupe (l : list string) : list string :=
  match l with
  | [] => []
  | x :: rest => x :: filter (fun y => y ≠ x) (dedupe rest)
  end.

Definition validate_id (E : env) (data : gmap string Py.value) : io response :=
  let vid_raw := Py.or_ (Py.or_ (Py.get data "vehicleID") (Py.get data "vehicle_id"))
                        (Py.VStr "") in
  let vid := Py.strip (Py.str vid_raw) in
  if bool_decide (vid = "") then ret (mk_response 400 (JInvalid "vehicleID required"))
  else
    let* found := find_vehicle_by_identifier E (Py.VStr vid) in
    match found with
    | None => ret (mk_response 200 (JInvalid "vehicle not found"))
    | Some (vehicle, _) =>
        let accidentDetails :=
          if text_truthy (v_accident_details vehicle)
          then default "" (v_accident_details vehicle)
          else "No recent accidents reported." in
        let vehicle_out :=
          (v_id vehicle, v_vehicle_id vehicle, v_model vehicle, v_owner vehicle,
           v_registration vehicle, accidentDetails) in
        let candidates :=
          dedupe ((if bool_decide (v_vehicle_id vehicle = "") then [] else [v_vehicle_id vehicle])
                  ++ [Py.str (Py.VInt (v_id vehicle))]) in
        let* events :=
          match candidates with
          | [] => ret []
          | _ =>
              query E (fun d =>
                if has_columns ["id"; "vehicle_id"; "intensity"; "lat"; "lng"; "timestamp";
                                "created_at"] (events_columns d)
                then inr (take 50 (order_by_created_at_desc E
                            (filter (fun e => e_vehicle_id e ∈ candidates)
                                    (accident_events d))))
                else inl OperationalError)
          end in
        let events_out :=
          map (fun e =>
                 (e_id e, e_vehicle_id e, e_intensity e, e_lat e, e_lng e,
                  if negb (text_truthy (e_timestamp e)) && text_truthy (e_created_at e)
                  then e_created_at e else e_timestamp e))
              events in
        ret (mk_response 200 (JValid vehicle_out events_out))
    end.

(** *** /hardware/event *)

Record request := mk_request {
  header_x_api_key : option string;
  arg_api_key : option string;
  json : gmap string Py.value
}.

(** [request.headers.get("X-API-Key") or request.args.get("api_key")] *)
Definition api_key (req : request) : option string :=
  match header_x_api_key req with
  | Some k => if bool_decide (k = "") then arg_api_key req else Some k
  | None => arg_api_key req
  end.

(** The fields [hardware_event] reads from the request. *)
Definition vid_raw (req : request) : Py.value :=
  match Py.get (json req) "vehicleID" with
  | Py.VNone => Py.get (json req) "vehicle_id"
  | v => v
  end.

Definition timestamp (E : env) (req : request) : Py.value :=
  Py.or_ (Py.get (json req) "timestamp") (Py.VStr (utcnow_isoformat E)).

Definition notes (req : request) : Py.value :=
  Py.or_ (Py.or_ (Py.get (json req) "notes") (Py.get (json req) "accidentDetails"))
         (Py.VStr "").

(** [SET accident_details=?, updated_at=CURRENT_TIMESTAMP] *)
Definition summarise (E : env) (notes : Py.value) (r : vehicle) : vehicle :=
  mk_vehicle (v_id r) (v_vehicle_id r) (v_model r) (v_owner r) (v_registration r)
             (bind_text notes) (v_created_at r) (Some (CURRENT_TIMESTAMP E)).

(** The fan-out step of [hardware_event]. *)
Definition publish (E : env) (vehicle_id : string) (payload : Runtime.payload) : io unit :=
  fun w =>
    if publish_fault E then (inl RuntimeError, w)
    else (inr tt, mk_world (conn w) (sse_publish vehicle_id payload (sse w))
                           (trace w ++ [Publish vehicle_id])).

Definition hardware_event (E : env) (req : request) : io response :=
  if negb (bool_decide (api_key req = Some (HW_API_KEY E)))
  then ret (mk_response 401 (JMessage false "unauthorized"))
  else
    let data := json req in
    if bool_decide (vid_raw req = Py.VNone)
    then ret (mk_response 400 (JMessage false "vehicleID required"))
    else
      let vid := Py.strip (Py.str (vid_raw req)) in
      let intensity := Py.get data "intensity" in
      let lat := Py.get data "lat" in
      let lng := Py.get data "lng" in
      let ts := timestamp E req in
      let notes := notes req in
      let raw := data in
      let* _ := begin E in
      let* _ :=
        execute E [Py.VStr vid; intensity; lat; lng; ts]
          (fun d =>
             insert_event ["vehicle_id"; "intensity"; "lat"; "lng"; "timestamp"; "raw_payload"]
               (fun rowid =>
                  mk_event rowid vid intensity lat lng (bind_text ts) (Some raw)
                           (default_now "created_at" (events_columns d)
                                        (CURRENT_TIMESTAMP E))
                           None None
                           (default_now "event_time" (events_columns d)
                                        (CURRENT_TIMESTAMP E)))
               d) in
      let* rowcount :=
        execute E [notes; Py.VStr vid]
          (update_vehicles ["accident_details"; "updated_at"; "vehicle_id"]
             (fun r => bool_decide (v_vehicle_id r = vid))
             (summarise E notes)) in
      let* rowcount :=
        if rowcount =? 0 then
          match Py.int vid with
          | Some iid =>
              execute E [notes; Py.VInt iid]
                (update_vehicles ["accident_details"; "updated_at"; "id"]
                   (fun r => bool_decide (v_id r = iid))
                   (summarise E notes))
          | None => ret rowcount
          end
        else ret rowcount in
      let* _ :=
        if rowcount =? 0 then
          execute E [Py.VStr vid; notes]
            (insert_vehicle ["vehicle_id"; "accident_details"; "created_at"] Abort
               (fun rowid =>
                  mk_vehicle rowid vid None None None (bind_text notes)
                             (Some (CURRENT_TIMESTAMP E)) None))
        else ret rowcount in
      let* _ := commit E in
      let payload := mk_payload vid intensity lat lng ts notes in
      let* _ := publish E vid payload in
      ret (mk_response 201 (JSuccess true)).

(** *** /stream/vehicle/<vid> *)

Inductive frame :=
  | Connected (vehicleID : string)     (* data: {type: connected, vehicleID: vid} *)
  | Data (item : payload)              (* data: <item> *)
  | Heartbeat.                         (* data: {} *)

(** Where the generator [event_stream(q)] stands. *)
Inductive generator :=
  | Created                         (* not started: the body has not been entered *)
  | AtYield (idle_counter : nat)    (* suspended at a [yield] inside the [try] *)
  | Sleeping (idle_counter : nat)   (* in [time.sleep(1)] between two polls *)
  | Finished.

Record session := mk_session {
  s_vid : string;
  s_q : nat;
  s_gen : generator;
  s_sent : list frame
}.

(** [stream_vehicle(vid)]: subscribes, then hands the generator to the
    server. *)
Definition stream_vehicle (vid : string) (h : hub) : session * hub :=
  let '(q, h') := sse_subscribe vid h in
  (mk_session vid q Created [], h').

(** One turn of the [while True] loop. *)
Definition poll (s : session) (idle_counter : nat) (h : hub) : session * hub :=
  match default [] (queues h !! s_q s) with
  | item :: rest =>
      (mk_session (s_vid s) (s_q s) (AtYield idle_counter) (s_sent s ++ [Data item]),
       mk_hub (subscribers h) (<[s_q s := rest]> (queues h)) (next_queue h))
  | [] =>
      if (10 <=? S idle_counter)%nat
      then (mk_session (s_vid s) (s_q s) (AtYield 0) (s_sent s ++ [Heartbeat]), h)
      else (mk_session (s_vid s) (s_q s) (Sleeping (S idle_counter)) (s_sent s), h)
  end.

(** The generator runs until its next [yield] or its next sleep. *)
Definition advance (s : session) (h : hub) : session * hub :=
  match s_gen s with
  | Created =>
      (mk_session (s_vid s) (s_q s) (AtYield 0) (s_sent s ++ [Connected (s_vid s)]), h)
  | AtYield n => poll s n h
  | Sleeping n => poll s n h
  | Finished => (s, h)
  end.

(** The server closes the generator (client gone, write failed): inside
    the [try] the [finally] clause runs; a generator that was never
    started has no clause to run. *)
Definition close_stream (s : session) (h : hub) : session * hub :=
  match s_gen s with
  | Created => (mk_session (s_vid s) (s_q s) Finished (s_sent s), h)
  | AtYield _ =>
      (mk_session (s_vid s) (s_q s) Finished (s_sent s), sse_unsubscribe (s_vid s) (s_q s) h)
  | Sleeping _ => (s, h)
  | Finished => (s, h)
  end.

(** *** /vehicle/<vid>/events *)

(** [get_vehicle_events(vid)]: the events of the answer.  When the
    resolver returns a row, the handler calls [row.get], a method a
    [sqlite3.Row] does not have.  [order_by_timestamp_desc] is SQLite's
    sorter for ORDER BY timestamp DESC. *)
Definition get_vehicle_events (E : env)
    (order_by_timestamp_desc : list event -> list event) (vid : string)
    : io (list event) :=
  let* found := find_vehicle_by_identifier E (Py.VStr vid) in
  match found with
  | Some _ => raise AttributeError
  | None =>
      let candidates := [vid] in
      query E (fun d =>
        if has_columns ["vehicle_id"; "timestamp"] (events_columns d)
        then inr (take 100 (order_by_timestamp_desc
                    (filter (fun e => e_vehicle_id e ∈ candidates) (accident_events d))))
        else inl OperationalError)
  end.

End User_app.

(* ===================================================================== *)
(** ** Dev_app.py *)
(* ===================================================================== *)

Module Dev_app.
Import Sqlite Runtime.

Inductive http_method := POST | OPTIONS.

Record request := mk_request {
  method : http_method;
  is_json : bool;
  json : gmap string Py.value
}.

(** [ALTER TABLE t ADD COLUMN c ...] when [c] is not among the columns. *)
Definition add_if_missing (column : string) (columns : list string) : list string :=
  if bool_decide (column ∈ columns) then columns else columns ++ [column].

(** [init_db]: the base tables, then the columns added when missing.
    SQLite refuses to add a column whose default is CURRENT_TIMESTAMP to
    a table that has rows. *)
Definition init_db (d : database) : exn + database :=
  let vehicles_cols :=
    create_table_if_not_exists
      ["id"; "vehicle_id"; "model"; "owner"; "registration"; "accident_details"]
      (vehicles_columns d) in
  let events_cols :=
    create_table_if_not_exists ["id"; "vehicle_id"; "event_time"] (events_columns d) in
  if negb (bool_decide ("created_at" ∈ vehicles_cols))
     && negb (bool_decide (vehicles d = []))
  then inl OperationalError
  else
    inr (mk_database
           (add_if_missing "created_at" vehicles_cols)
           (add_if_missing "meta_json" (add_if_missing "details" events_cols))
           (vehicles d) (vehicles_seq d) (accident_events d) (events_seq d)).

(** [(data.get(key) or "").strip()]: only a [str] has [strip]. *)
Definition stripped (data : gmap string Py.value) (key : string) : io string :=
  match Py.or_ (Py.get data key) (Py.VStr "") with
  | Py.VStr s => ret (Py.strip s)
  | _ => raise AttributeError
  end.

(** [bool(row)] for a [sqlite3.Row]: a row is a sequence of its columns. *)
Definition row_truthy (selected : list string) : bool :=
  negb (length selected =? 0)%nat.

(** [SET model=?, owner=?, registration=?, accident_details=?,
    created_at=CURRENT_TIMESTAMP] *)
Definition overwrite (E : env) (model owner registration accident_details : string)
    (r : vehicle) : vehicle :=
  mk_vehicle (v_id r) (v_vehicle_id r) (Some model) (Some owner) (Some registration)
             (Some accident_details) (Some (CURRENT_TIMESTAMP E)) (v_updated_at r).

(** The columns the SELECT of [add_vehicle] names. *)
Definition selected : list string :=
  ["id"; "model"; "owner"; "registration"; "accident_details"; "created_at"].

(** The inner [try] block of [add_vehicle], from the INSERT OR IGNORE to
    the commit: returns [action]. *)
Definition add_vehicle_transaction (E : env)
    (vehicle_id model owner registration accident_details : string) (meta : Py.value)
    : io string :=
  let* _ :=
    execute E [Py.VStr vehicle_id; Py.VStr model; Py.VStr owner;
               Py.VStr registration; Py.VStr accident_details]
      (fun d =>
         insert_vehicle
           ["vehicle_id"; "model"; "owner"; "registration"; "accident_details"]
           Ignore
           (fun rowid =>
              mk_vehicle rowid vehicle_id (Some model) (Some owner)
                         (Some registration) (Some accident_details)
                         (default_now "created_at" (vehicles_columns d)
                                      (CURRENT_TIMESTAMP E))
                         None)
           d) in
  let* existing :=
    query E (fun d =>
      if has_columns ("vehicle_id" :: selected) (vehicles_columns d)
      then inr (vehicle_by_vehicle_id vehicle_id d)
      else inl OperationalError) in
  let* action :=
    match existing with
    | None => ret "created"
    | Some _ =>
        let* _ :=
          execute E [Py.VStr model; Py.VStr owner; Py.VStr registration;
                     Py.VStr accident_details; Py.VStr vehicle_id]
            (update_vehicles
               ["model"; "owner"; "registration"; "accident_details";
                "created_at"; "vehicle_id"]
               (fun r => bool_decide (v_vehicle_id r = vehicle_id))
               (overwrite E model owner registration accident_details)) in
        ret (if row_truthy selected then "updated" else "created")
    end in
  let meta_json :=
    match meta with
    | Py.VNone => None
    | m => Some m
    end in
  let* _ :=
    execute E [Py.VStr vehicle_id; Py.VStr accident_details]
      (fun d =>
         insert_event ["vehicle_id"; "details"; "meta_json"]
           (fun rowid =>
              mk_event rowid vehicle_id Py.VNone Py.VNone Py.VNone None None
                       (default_now "created_at" (events_columns d)
                                    (CURRENT_TIMESTAMP E))
                       (Some accident_details) meta_json
                       (default_now "event_time" (events_columns d)
                                    (CURRENT_TIMESTAMP E)))
           d) in
  let* _ := commit E in
  ret action.

Definition add_vehicle (E : env) (req : request) : io response :=
  match method req with
  | OPTIONS => ret (mk_response 200 (JMessage true "ok (preflight)"))
  | POST =>
      except
        (if negb (is_json req)
         then ret (mk_response 400 (JMessage false "Expected application/json"))
         else
           let data := json req in
           let* vehicle_id := stripped data "vehicle_id" in
           let* model := stripped data "model" in
           let* owner := stripped data "owner" in
           let* registration := stripped data "registration" in
           let* accident_details := stripped data "accident_details" in
           let meta := Py.get data "meta" in
           if bool_decide (vehicle_id = "")
           then ret (mk_response 400 (JMessage false "vehicle_id is required"))
           else
             let* action :=
               finally
                 (on_exception
                    (add_vehicle_transaction E vehicle_id model owner registration
                                             accident_details meta)
                    rollback)
                 close_db in
             let status_code := if bool_decide (action = "created") then 201 else 200 in
             ret (mk_response status_code
                    (JAction ("Vehicle " ++ action)%string action vehicle_id)))
        (mk_response 500 JServerError)
  end.

(** [list_events()]: the rows of the answer; [vehicle_id] is the query
    parameter of that name.  [order_by_event_time_desc] is SQLite's sorter
    for ORDER BY event_time DESC. *)
Definition list_events (E : env)
    (order_by_event_time_desc : list event -> list event) (vehicle_id : option string)
    : io (list event) :=
  let read := ["id"; "vehicle_id"; "event_time"; "details"; "meta_json"] in
  finally
    (match vehicle_id with
     | Some v =>
         if bool_decide (v = "")
         then query E (fun d =>
                if has_columns read (events_columns d)
                then inr (take 500 (order_by_event_time_desc (accident_events d)))
                else inl OperationalError)
         else query E (fun d =>
                if has_columns read (events_columns d)
                then inr (order_by_event_time_desc
                            (filter (fun e => e_vehicle_id e = v) (accident_events d)))
                else inl OperationalError)
     | None =>
         query E (fun d =>
           if has_columns read (events_columns d)
           then inr (take 500 (order_by_event_time_desc (accident_events d)))
           else inl OperationalError)
     end)
    close_db.

End Dev_app.

(* ===================================================================== *)
(** ** db_init.py *)
(* ===================================================================== *)

Module Db_init.
Import Sqlite Runtime.

(** [init_db]: the tables, and the demo vehicle when [vehicles] is empty
    (the [users] table is not part of the model). *)
Definition init_db (E : env) (d : database) : database :=
  let vehicles_cols :=
    create_table_if_not_exists
      ["id"; "vehicle_id"; "model"; "owner"; "registration"; "accident_details";
       "created_at"]
      (vehicles_columns d) in
  let events_cols :=
    create_table_if_not_exists
      ["id"; "vehicle_id"; "intensity"; "lat"; "lng"; "timestamp"; "raw_payload";
       "created_at"]
      (events_columns d) in
  let rowid := next_rowid (vehicles_seq d) (map v_id (vehicles d)) in
  match vehicles d with
  | [] =>
      mk_database vehicles_cols events_cols
        [mk_vehicle rowid "VHL2023" (Some "Audi A3") (Some "Aravindhan")
                    (Some "TN-09-AB-0009") (Some "No recent accidents reported.")
                    (default_now "created_at" vehicles_cols (CURRENT_TIMESTAMP E))
                    None]
        rowid (accident_events d) (events_seq d)
  | _ =>
      mk_database vehicles_cols events_cols (vehicles d) (vehicles_seq d)
                  (accident_events d) (events_seq d)
  end.

End Db_init.

(* ===================================================================== *)
(** ** User_app.py: accounts and sessions *)
(* ===================================================================== *)

(** The [users] table is read and written by the handlers below (and
    seeded with a demo account by [db_init.py]); no vehicle or event
    handler touches it, so it is kept apart from [Sqlite.database].  The
    two functions of [werkzeug.security] are taken as given. *)
Module Auth.
Import Sqlite.

Record user := mk_user {
  u_id : Z;
  u_fullname : string;
  u_username : string;
  u_email : string;
  u_password_hash : string;
  u_created_at : string
}.

Record table := mk_table {
  users : list user;
  users_seq : Z
}.

(** Both functions encode the password they are given, so they raise on a
    password that is not a [str]; the handlers below have that case. *)
Record werkzeug := mk_werkzeug {
  generate_password_hash : string -> string;
  check_password_hash : string -> string -> bool
}.

(** The session cookie: empty, or the three keys [login] sets. *)
Record identity := mk_identity {
  user_id : Z;
  username : string;
  fullname : string
}.

Inductive answer :=
  | Message (status : Z) (success : bool) (message : string)
  | User (status : Z) (user : identity)       (* success=True, user={...} *)
  | Session (logged_in : option identity)     (* /session *)
  | Success                                   (* /logout *)
  | ServerError.                              (* an exception escaped: 500 *)

(** [(data.get(key) or "").strip()]; [None] when the value has no [strip]. *)
Definition stripped (data : gmap string Py.value) (key : string) : option string :=
  match Py.or_ (Py.get data key) (Py.VStr "") with
  | Py.VStr s => Some (Py.strip s)
  | _ => None
  end.

(** [data.get("password") or ""] *)
Definition password_of (data : gmap string Py.value) : Py.value :=
  Py.or_ (Py.get data "password") (Py.VStr "").

(** [INSERT INTO users (fullname, username, email, password_hash)] *)
Definition insert_user (now : string) (fullname username email pw_hash : string)
    (t : table) : exn + table :=
  let rowid := next_rowid (users_seq t) (map u_id (users t)) in
  if max_int64 <? rowid then inl OperationalError
  else if existsb (fun u => bool_decide (u_username u = username)
                            || bool_decide (u_email u = email)) (users t)
  then inl IntegrityError
  else inr (mk_table (users t ++ [mk_user rowid fullname username email pw_hash now])
                     rowid).

(** [signup()].  [faults 0] fails the INSERT and [faults 1] the commit for
    a reason other than a constraint. *)
Definition signup (W : werkzeug) (faults : nat -> bool) (now : string)
    (data : gmap string Py.value) (t : table) : answer * table :=
  match stripped data "fullname", stripped data "username", stripped data "email" with
  | Some fullname, Some username, Some email =>
      let password := password_of data in
      if bool_decide (fullname = "") || bool_decide (username = "")
         || bool_decide (email = "") || negb (Py.truthy password)
      then (Message 400 false "All fields are required", t)
      else
        match password with
        | Py.VStr pw =>
            let pw_hash := generate_password_hash W pw in
            if faults 0%nat then (ServerError, t)
            else
              match insert_user now fullname username email pw_hash t with
              | inl IntegrityError =>
                  (Message 400 false "Username or email already exists", t)
              | inl _ => (ServerError, t)
              | inr t' =>
                  if faults 1%nat then (ServerError, t)
                  else (Message 201 true "Account created", t')
              end
        | _ => (ServerError, t)
        end
  | _, _, _ => (ServerError, t)
  end.

(** [login()]: the answer and the session cookie it leaves. *)
Definition login (W : werkzeug) (faults : nat -> bool)
    (data : gmap string Py.value) (t : table) (session : option identity)
    : answer * option identity :=
  match stripped data "username" with
  | None => (ServerError, session)
  | Some username =>
      let password := password_of data in
      if bool_decide (username = "") || negb (Py.truthy password)
      then (Message 400 false "Username and password required", session)
      else if faults 0%nat then (ServerError, session)
      else
        match find (fun u => bool_decide (u_username u = username)) (users t) with
        | None => (Message 401 false "Invalid username or password", session)
        | Some user =>
            match password with
            | Py.VStr pw =>
                if check_password_hash W (u_password_hash user) pw
                then
                  let who := mk_identity (u_id user) (u_username user) (u_fullname user) in
                  (User 200 who, Some who)
                else (Message 401 false "Invalid username or password", session)
            | _ => (ServerError, session)
            end
        end
  end.

(** [check_session()] *)
Definition check_session (session : option identity) : answer := Session session.

(** [logout()] *)
Definition logout (session : option identity) : answer * option identity :=
  (Success, None).

End Auth.

(* ===================================================================== *)
(** ** Vocabulary of the statements, and sample data *)
(* ===================================================================== *)

Module Props.
Import Sqlite Runtime.

(** The storage engine fails no statement and the fan-out step does not
    raise. *)
Definition quiet (E : env) : Prop :=
  (forall n, faults E n = false) /\ publish_fault E = false.

(** Between [w] and [w'] nothing changed but the count of statements the
    connection was given. *)
Definition only_counted (w w' : world) : Prop :=
  disk (conn w') = disk (conn w) /\ txn (conn w') = txn (conn w) /\
  sse w' = sse w /\ trace w' = trace w.

(** What [find_vehicle_by_identifier] returns on the data [d] when the
    storage engine fails nothing (lemma [find_vehicle_by_identifier_quiet]). *)
Definition resolution (ident : Py.value) (d : database)
    : exn + option (vehicle * string) :=
  if bool_decide (ident = Py.VNone) then inr None
  else if bool_decide (Py.strip (Py.str ident) = "") then inr None
  else
    match vehicle_by_vehicle_id (Py.strip (Py.str ident)) d with
    | Some r => inr (Some (r, "vehicle_id"))
    | None =>
        match Py.int (Py.strip (Py.str ident)) with
        | None => inr None
        | Some iid =>
            match vehicle_by_id iid d with
            | inl e => inl e
            | inr (Some r) => inr (Some (r, "id"))
            | inr None => inr None
            end
        end
    end.

(** What the storage engine guarantees about [vehicles]: [id] is the
    primary key, a 64-bit integer, and [vehicle_id] is UNIQUE. *)
Definition integrity (d : database) : Prop :=
  NoDup (map v_id (vehicles d)) /\
  NoDup (map v_vehicle_id (vehicles d)) /\
  Forall (fun r => fits_int64 (v_id r) = true) (vehicles d).

(** Resolving the alias of [row] and resolving its key written in decimal
    both return [row]. *)
Definition round_trip (E : env) (w : world) (row : vehicle) : Prop :=
  (exists used w',
     User_app.find_vehicle_by_identifier E (Py.VStr (v_vehicle_id row)) w
     = (inr (Some (row, used)), w')) /\
  (exists used w',
     User_app.find_vehicle_by_identifier E (Py.VStr (Py.str (Py.VInt (v_id row)))) w
     = (inr (Some (row, used)), w')).

(** No other vehicle's alias is the decimal form of the key of [row]. *)
Definition key_form_free (d : database) (row : vehicle) : Prop :=
  forall other, other ∈ vehicles d -> other <> row ->
                v_vehicle_id other <> Py.str (Py.VInt (v_id row)).

(** Nothing was committed and nothing was published between [w] and [w']. *)
Definition untouched (w w' : world) : Prop :=
  disk (conn w') = disk (conn w) /\ sse w' = sse w /\ trace w' = trace w.

(** A call to /hardware/event that passes the key check and carries a
    vehicle identifier. *)
Definition passes_validation (E : env) (req : User_app.request) : Prop :=
  User_app.api_key req = Some (HW_API_KEY E) /\ User_app.vid_raw req <> Py.VNone.

(** The identifier [hardware_event] works with. *)
Definition vid (req : User_app.request) : string :=
  Py.strip (Py.str (User_app.vid_raw req)).

(** The row a successful ingestion appends to [accident_events]. *)
Definition logged_event (E : env) (req : User_app.request) (d : database) : event :=
  mk_event (next_rowid (events_seq d) (map e_id (accident_events d)))
           (vid req)
           (Py.get (User_app.json req) "intensity")
           (Py.get (User_app.json req) "lat")
           (Py.get (User_app.json req) "lng")
           (bind_text (User_app.timestamp E req))
           (Some (User_app.json req))
           (default_now "created_at" (events_columns d) (CURRENT_TIMESTAMP E))
           None None
           (default_now "event_time" (events_columns d) (CURRENT_TIMESTAMP E)).

(** The text [hardware_event] publishes. *)
Definition published (E : env) (req : User_app.request) : payload :=
  mk_payload (vid req)
             (Py.get (User_app.json req) "intensity")
             (Py.get (User_app.json req) "lat")
             (Py.get (User_app.json req) "lng")
             (User_app.timestamp E req) (User_app.notes req).

(** The registry a successful ingestion leaves: the rows whose alias is the
    identifier are summarised; if there is none and the identifier reads
    as an integer, the rows with that key are; if there is none either, a
    row is added under the identifier. *)
Definition registry_after (E : env) (req : User_app.request)
    (rows : list vehicle) (seq : Z) : list vehicle :=
  let by_alias := fun r => bool_decide (v_vehicle_id r = vid req) in
  let fresh :=
    mk_vehicle (next_rowid seq (map v_id rows)) (vid req) None None None
               (bind_text (User_app.notes req)) (Some (CURRENT_TIMESTAMP E)) None in
  let set := User_app.summarise E (User_app.notes req) in
  if existsb by_alias rows
  then map (fun r => if by_alias r then set r else r) rows
  else
    match Py.int (vid req) with
    | Some iid =>
        let by_id := fun r => bool_decide (v_id r = iid) in
        if existsb by_id rows
        then map (fun r => if by_id r then set r else r) rows
        else rows ++ [fresh]
    | None => rows ++ [fresh]
    end.

(** Both halves of an ingestion are in the file [d'] that was [d]. *)
Definition ingested (E : env) (req : User_app.request) (d d' : database) : Prop :=
  vehicles_columns d' = vehicles_columns d /\
  events_columns d' = events_columns d /\
  accident_events d' = accident_events d ++ [logged_event E req d] /\
  vehicles d' = registry_after E req (vehicles d) (vehicles_seq d).

(** In the registry [d], the identifier [vid] addresses the vehicle whose
    key is [k]: a row with that key carries [vid] as its alias, or no row
    has the alias [vid] and [vid] reads as the integer [k]. *)
Definition answers_to (d : database) (vid : string) (k : Z) : Prop :=
  (exists row, row ∈ vehicles d /\ v_id row = k /\ v_vehicle_id row = vid) \/
  ((forall row, row ∈ vehicles d -> v_vehicle_id row <> vid) /\
   Py.int vid = Some k /\ exists row, row ∈ vehicles d /\ v_id row = k).

(** [ingestions k db h calls db' h']: the calls, one after the other from
    the file [db] and the hub [h], were all answered 201 and each left a
    registry in which its identifier addresses vehicle [k]; [db'] and [h']
    are what the last one left. *)
Inductive ingestions (k : Z) :
    database -> hub -> list (env * User_app.request) -> database -> hub -> Prop :=
  | ingestions_one E req db h resp db' h' tr :
      serve (User_app.hardware_event E req) db h = (resp, db', h', tr) ->
      status resp = 201 ->
      answers_to db' (vid req) k ->
      ingestions k db h [(E, req)] db' h'
  | ingestions_more E req calls db h db1 h1 resp db' h' tr :
      ingestions k db h calls db1 h1 ->
      serve (User_app.hardware_event E req) db1 h1 = (resp, db', h', tr) ->
      status resp = 201 ->
      answers_to db' (vid req) k ->
      ingestions k db h (calls ++ [(E, req)]) db' h'.

(** What [(data.get(key) or "").strip()] is when it does not raise. *)
Definition dev_field (data : gmap string Py.value) (key : string) : option string :=
  match Py.or_ (Py.get data key) (Py.VStr "") with
  | Py.VStr s => Some (Py.strip s)
  | _ => None
  end.

(** The registry before the UPDATE of Dev_app's [add_vehicle]: the row is
    added by INSERT OR IGNORE when no row has the alias. *)
Definition ensured (E : env) (vehicle_id model owner registration accident_details : string)
    (d : database) : list vehicle :=
  if existsb (fun r => bool_decide (v_vehicle_id r = vehicle_id)) (vehicles d)
  then vehicles d
  else vehicles d ++
       [mk_vehicle (next_rowid (vehicles_seq d) (map v_id (vehicles d))) vehicle_id
                   (Some model) (Some owner) (Some registration) (Some accident_details)
                   (default_now "created_at" (vehicles_columns d) (CURRENT_TIMESTAMP E))
                   None].

(** The handle [q] is in the list registered under exactly the key [vid]. *)
Definition registered (h : hub) (vid : string) (q : nat) : Prop :=
  q ∈ default [] (subscribers h !! vid).

(** The hubs the process can be in: it starts empty and is changed by the
    three hub functions and by a stream session taking an item. *)
Inductive reachable : hub -> Prop :=
  | reach_start : reachable (mk_hub ∅ ∅ 0)
  | reach_subscribe vid h :
      reachable h -> reachable (User_app.sse_subscribe vid h).2
  | reach_unsubscribe vid q h :
      reachable h -> reachable (User_app.sse_unsubscribe vid q h)
  | reach_publish vid p h :
      reachable h -> reachable (User_app.sse_publish vid p h)
  | reach_advance s h :
      reachable h -> reachable (User_app.advance s h).2.

(** Every registered handle is an allocated queue, no list holds a handle
    twice, and no handle is in the lists of two keys. *)
Definition hub_wf (h : hub) : Prop :=
  (forall vid arr q, subscribers h !! vid = Some arr -> q ∈ arr ->
     (q < next_queue h)%nat /\ is_Some (queues h !! q)) /\
  (forall vid arr, subscribers h !! vid = Some arr -> NoDup arr) /\
  (forall vid1 vid2 arr1 arr2 q,
     subscribers h !! vid1 = Some arr1 -> subscribers h !! vid2 = Some arr2 ->
     q ∈ arr1 -> q ∈ arr2 -> vid1 = vid2).

End Props.

Module Sample.
Import Sqlite Runtime.

Definition E : env :=
  mk_env "k3y" "2025-12-09T14:30:00" "2025-12-09 14:30:00" (fun _ => false) false
         (fun l => l).

(** The columns [db_init.py] creates, and an [updated_at] column on
    [vehicles] added from outside the repository. *)
Definition vehicles_columns : list string :=
  ["id"; "vehicle_id"; "model"; "owner"; "registration"; "accident_details";
   "created_at"; "updated_at"].

Definition events_columns : list string :=
  ["id"; "vehicle_id"; "intensity"; "lat"; "lng"; "timestamp"; "raw_payload";
   "created_at"; "details"; "meta_json"].

Definition demo : vehicle :=
  mk_vehicle 1 "VHL2023" (Some "Audi A3") (Some "Aravindhan") (Some "TN-09-AB-0009")
             (Some "No recent accidents reported.") (Some "2025-01-01 00:00:00") None.

Definition second : vehicle :=
  mk_vehicle 2 "TRK7" (Some "Volvo FH") None None None (Some "2025-02-01 00:00:00") None.

Definition db : database :=
  mk_database vehicles_columns events_columns [demo; second] 2 [] 0.

Definition hub0 : hub := mk_hub ∅ ∅ 0.

Definition w0 : world := mk_world (connect db) hub0 [].

(** The storage engine fails the third statement of every connection. *)
Definition E_third_fails : env :=
  mk_env "k3y" "2025-12-09T14:30:00" "2025-12-09 14:30:00" (fun n => (n =? 2)%nat) false
         (fun l => l).

(** The fan-out step raises. *)
Definition E_publish_fails : env :=
  mk_env "k3y" "2025-12-09T14:30:00" "2025-12-09 14:30:00" (fun _ => false) true
         (fun l => l).

Definition collision (vehicleID : string) (notes : string) : User_app.request :=
  User_app.mk_request (Some "k3y") None
    (<["vehicleID" := Py.VStr vehicleID]>
       (<["intensity" := Py.VInt 4]> (<["notes" := Py.VStr notes]> ∅))).

(** A JSON POST to Dev_app's /add_vehicle. *)
Definition register (vehicle_id model accident_details : string) : Dev_app.request :=
  Dev_app.mk_request Dev_app.POST true
    (<["vehicle_id" := Py.VStr vehicle_id]>
       (<["model" := Py.VStr model]>
          (<["accident_details" := Py.VStr accident_details]> ∅))).

(** What [hardware_event] publishes for [collision vehicleID notes]. *)
Definition alert (vehicleID notes : string) : payload :=
  mk_payload vehicleID (Py.VInt 4) Py.VNone Py.VNone (Py.VStr "2025-12-09T14:30:00")
             (Py.VStr notes).

End Sample.

(* ===================================================================== *)
(** ** Vocabulary of the statements about whole requests *)
(* ===================================================================== *)

Module Invariants.
Import Sqlite Runtime.

(** The file a served request leaves. *)
Definition file_after {A} (out : A * database * hub * list effect) : database :=
  out.1.1.2.

(** One request to one of the three handlers that write to the file. *)
Inductive request_writes : database -> database -> Prop :=
  | by_hardware_event E req db h :
      request_writes db (file_after (serve (User_app.hardware_event E req) db h))
  | by_user_add_vehicle E data db h :
      request_writes db (file_after (serve (User_app.add_vehicle E data) db h))
  | by_dev_add_vehicle E req db h :
      request_writes db (file_after (serve (Dev_app.add_vehicle E req) db h)).

(** The files the code of the repository makes: from no file at all, by
    the three [init_db] and by requests.  A start of User_app.py leaves
    its tables in the file whether or not it goes on to raise. *)
Inductive repository_file : database -> Prop :=
  | file_absent : repository_file empty_file
  | file_user_init d : repository_file d -> repository_file (User_app.init_db d).2
  | file_db_init E d : repository_file d -> repository_file (Db_init.init_db E d)
  | file_dev_init d d' :
      repository_file d -> Dev_app.init_db d = inr d' -> repository_file d'
  | file_request d d' :
      repository_file d -> request_writes d d' -> repository_file d'.

(** One thing the code of the repository does to a file: a start of one
    of the three programs, or a request.  For User_app.py the step is the
    file its [init_db] leaves, whether the start succeeds or raises. *)
Inductive step : database -> database -> Prop :=
  | step_user_init d : step d (User_app.init_db d).2
  | step_db_init E d : step d (Db_init.init_db E d)
  | step_dev_init d d' : Dev_app.init_db d = inr d' -> step d d'
  | step_request d d' : request_writes d d' -> step d d'.

(** The key and the alias of every row of [vehicles], in table order. *)
Definition keys (d : database) : list (Z * string) :=
  map (fun r => (v_id r, v_vehicle_id r)) (vehicles d).

(** [d'] has the tables of [d], with rows added at the end at most; no
    vehicle changed its key or its alias. *)
Definition grown (d d' : database) : Prop :=
  vehicles_columns d' = vehicles_columns d /\
  events_columns d' = events_columns d /\
  keys d `prefix_of` keys d' /\
  accident_events d `prefix_of` accident_events d'.

(** The constraints on both tables: those of [vehicles], and [id] as the
    primary key of [accident_events]. *)
Definition sound (d : database) : Prop :=
  Props.integrity d /\ NoDup (map e_id (accident_events d)).

(** [d'] is [d] grown, and sound if [d] is. *)
Definition safe (d d' : database) : Prop :=
  grown d d' /\ (sound d -> sound d').

(** The three ways the handlers insert into [vehicles]: a conflicting row
    keeps its key and its alias. *)
Definition gentle (oc : on_conflict) : Prop :=
  match oc with
  | DoUpdate set => forall r, v_id (set r) = v_id r /\ v_vehicle_id (set r) = v_vehicle_id r
  | _ => True
  end.

(** A computation that neither commits nor publishes, whatever it
    returns; one that does neither when it raises. *)
Definition clean {A} (m : io A) : Prop :=
  forall w r w', m w = (r, w') -> Props.untouched w w'.

Definition fails_clean {A} (m : io A) : Prop :=
  forall w e w', m w = (inl e, w') -> Props.untouched w w'.

(** A computation under which a relation [R] between the file at the
    start of the request and the data of the connection is kept. *)
Definition keeps (R : database -> database -> Prop) {A} (m : io A) : Prop :=
  forall d0 w r w',
    m w = (r, w') ->
    R d0 (disk (conn w)) -> R d0 (view (conn w)) ->
    R d0 (disk (conn w')) /\ R d0 (view (conn w')).

(** The generator of a session resumed [n] times. *)
Fixpoint advances (n : nat) (s : User_app.session) (h : hub) : User_app.session * hub :=
  match n with
  | O => (s, h)
  | S n' => let '(s', h') := User_app.advance s h in advances n' s' h'
  end.

(** The generator is inside its [try] block. *)
Definition running (s : User_app.session) : Prop :=
  exists n, User_app.s_gen s = User_app.AtYield n \/ User_app.s_gen s = User_app.Sleeping n.

(** What the UNIQUE and PRIMARY KEY constraints of [users] promise. *)
Definition accounts_unique (t : Auth.table) : Prop :=
  NoDup (map Auth.u_id (Auth.users t)) /\
  NoDup (map Auth.u_username (Auth.users t)) /\
  NoDup (map Auth.u_email (Auth.users t)).

End Invariants.

(* ===================================================================== *)
(** ** Facts about the Python string functions *)
(* ===================================================================== *)

Example int_underscores : Py.int "1_000" = Some 1000.
Proof. reflexivity. Qed.

Example int_sign_and_zeros : Py.int "-007" = Some (-7) /\ Py.int "+5" = Some 5.
Proof. split; reflexivity. Qed.

Example int_rejects :
  Py.int "1__0" = None /\ Py.int "_1" = None /\ Py.int "1_" = None /\
  Py.int "" = None /\ Py.int "-" = None /\ Py.int "+ 5" = None /\ Py.int "VHL2023" = None.
Proof. repeat split. Qed.

Example strip_inner_space_kept : Py.strip "  VHL 2023 " = "VHL 2023".
Proof. reflexivity. Qed.

Example str_of_int :
  Py.str (Py.VInt (-5)) = "-5" /\ Py.str (Py.VInt 0) = "0" /\ Py.str (Py.VInt 120) = "120".
Proof. repeat split. Qed.

Section StringFacts.

Lemma rstrip_idem s : Py.rstrip (Py.rstrip s) = Py.rstrip s.
Proof.
  induction s as [|c r IH]; simpl; [reflexivity|].
  destruct (Py.rstrip r) as [|c' r'] eqn:Hr.
  - destruct (Py.isspace c) eqn:Hc; simpl; [reflexivity|]. now rewrite Hc.
  - simpl in *. now rewrite IH.
Qed.

Lemma lstrip_head s :
  Py.lstrip s = "" \/ exists c r, Py.lstrip s = String c r /\ Py.isspace c = false.
Proof.
  induction s as [|c r IH]; simpl; [now left|].
  destruct (Py.isspace c) eqn:Hc; [exact IH|]. right. eauto.
Qed.

Lemma rstrip_head c r :
  Py.isspace c = false -> exists r', Py.rstrip (String c r) = String c r'.
Proof.
  intros Hc. simpl. destruct (Py.rstrip r); [rewrite Hc|]; eauto.
Qed.

Lemma strip_idem s : Py.strip (Py.strip s) = Py.strip s.
Proof.
  unfold Py.strip.
  destruct (lstrip_head s) as [->|(c & r & -> & Hc)]; [reflexivity|].
  destruct (rstrip_head c r Hc) as [r' Hr'].
  assert (Hl : Py.lstrip (Py.rstrip (String c r)) = Py.rstrip (String c r)).
  { rewrite Hr'. simpl. now rewrite Hc. }
  rewrite Hl. apply rstrip_idem.
Qed.

Lemma strip_spaceless s : Py.spaceless s = true -> Py.strip s = s.
Proof.
  unfold Py.strip. intros H.
  assert (Hl : Py.lstrip s = s).
  { destruct s as [|c r]; simpl in *; [reflexivity|].
    apply andb_prop in H as [Hc _]. apply negb_true_iff in Hc. now rewrite Hc. }
  rewrite Hl. clear Hl. induction s as [|c r IH]; simpl in *; [reflexivity|].
  apply andb_prop in H as [Hc Hr]. apply negb_true_iff in Hc.
  rewrite (IH Hr). destruct r; [now rewrite Hc|reflexivity].
Qed.

Lemma uint_string_spaceless u : Py.spaceless (NilEmpty.string_of_uint u) = true.
Proof. induction u; simpl; auto. Qed.

Lemma uint_string_digits_tail u : Py.digits_tail (NilEmpty.string_of_uint u) = Some u.
Proof. induction u; simpl; try rewrite IHu; reflexivity. Qed.

Lemma uint_string_digits u :
  u <> Nil -> Py.digits (NilEmpty.string_of_uint u) = Some u.
Proof.
  destruct u; intros H; try congruence; simpl;
    now rewrite uint_string_digits_tail.
Qed.

Lemma uint_string_int u :
  u <> Nil -> Py.int (NilEmpty.string_of_uint u) = Some (Z.of_int (Pos u)).
Proof.
  intros H. pose proof (uint_string_digits u H) as Hd.
  destruct u; try congruence; simpl in *;
    rewrite uint_string_digits_tail in *; reflexivity.
Qed.

Lemma pos_to_uint_nonnil p : Pos.to_uint p <> Nil.
Proof.
  intros H. pose proof (DecimalPos.Unsigned.of_to p) as Hp.
  rewrite H in Hp. discriminate.
Qed.

(** [int(str(z)) == z] *)
Lemma int_str z : Py.int (Py.str (Py.VInt z)) = Some z.
Proof.
  unfold Py.str. rewrite <- (DecimalZ.of_to z) at 2.
  destruct z as [|p|p]; simpl.
  - reflexivity.
  - pose proof (pos_to_uint_nonnil p) as Hn.
    unfold NilZero.string_of_uint.
    destruct (Pos.to_uint p) eqn:Hp; try congruence;
      rewrite <- Hp in *; rewrite uint_string_int by assumption; rewrite Hp; reflexivity.
  - pose proof (pos_to_uint_nonnil p) as Hn.
    unfold NilZero.string_of_uint.
    change (Py.int (String "-" ?s)) with ((fun u => Z.of_int (Neg u)) <$> Py.digits s).
    destruct (Pos.to_uint p) eqn:Hp; try congruence;
      rewrite <- Hp in *; rewrite uint_string_digits by assumption; rewrite Hp; reflexivity.
Qed.

Lemma str_int_spaceless z : Py.spaceless (Py.str (Py.VInt z)) = true.
Proof.
  unfold Py.str, NilZero.string_of_int, NilZero.string_of_uint.
  destruct (Z.to_int z) as [u|u]; destruct u; simpl; try reflexivity;
    apply uint_string_spaceless.
Qed.

Lemma strip_str_int z : Py.strip (Py.str (Py.VInt z)) = Py.str (Py.VInt z).
Proof. apply strip_spaceless, str_int_spaceless. Qed.

Lemma str_int_nonempty z : Py.str (Py.VInt z) <> "".
Proof.
  intros H. pose proof (int_str z) as Hi. rewrite H in Hi. discriminate.
Qed.

End StringFacts.

(* ===================================================================== *)
(** ** The request monad *)
(* ===================================================================== *)

Section MonadFacts.
Import Sqlite Runtime Props.

Lemma query_quiet {A} E (q : database -> exn + A) w :
  quiet E ->
  query E q w = (q (view (conn w)), with_conn w (stepped (conn w) (txn (conn w)))).
Proof.
  intros [Hq _]. unfold query. rewrite Hq. destruct (q (view (conn w))); reflexivity.
Qed.

Lemma only_counted_refl w : only_counted w w.
Proof. repeat split. Qed.

Lemma only_counted_stepped w :
  only_counted w (with_conn w (stepped (conn w) (txn (conn w)))).
Proof. repeat split. Qed.

Lemma only_counted_trans w1 w2 w3 :
  only_counted w1 w2 -> only_counted w2 w3 -> only_counted w1 w3.
Proof.
  intros (a1 & a2 & a3 & a4) (b1 & b2 & b3 & b4).
  repeat split; congruence.
Qed.

Lemma only_counted_view w w' : only_counted w w' -> view (conn w') = view (conn w).
Proof. intros (a1 & a2 & _). unfold view. now rewrite a1, a2. Qed.

End MonadFacts.

(* ===================================================================== *)
(** ** Identifier resolution *)
(* ===================================================================== *)

Section Resolver.
Import Sqlite Runtime Props User_app.

Lemma by_vehicle_id_some vid d :
  (exists row, row ∈ vehicles d /\ v_vehicle_id row = vid) ->
  exists row, vehicle_by_vehicle_id vid d = Some row /\
              row ∈ vehicles d /\ v_vehicle_id row = vid.
Proof.
  unfold vehicle_by_vehicle_id. intros (row & Hin & Hv).
  destruct (find _ (vehicles d)) as [r|] eqn:Hf.
  - apply find_some in Hf as [Hi Hb]. apply bool_decide_eq_true in Hb.
    exists r. split; [reflexivity|]. split; [now apply list_elem_of_In|assumption].
  - exfalso. apply list_elem_of_In in Hin.
    pose proof (find_none _ _ Hf _ Hin) as Hb. simpl in Hb.
    apply bool_decide_eq_false in Hb. contradiction.
Qed.

Lemma by_vehicle_id_none vid d :
  (forall row, row ∈ vehicles d -> v_vehicle_id row <> vid) ->
  vehicle_by_vehicle_id vid d = None.
Proof.
  unfold vehicle_by_vehicle_id. intros H.
  destruct (find _ (vehicles d)) as [r|] eqn:Hf; [|reflexivity].
  apply find_some in Hf as [Hi Hb]. apply bool_decide_eq_true in Hb.
  apply list_elem_of_In in Hi. now apply H in Hi.
Qed.

Lemma by_id_some iid d :
  fits_int64 iid = true ->
  (exists row, row ∈ vehicles d /\ v_id row = iid) ->
  exists row, vehicle_by_id iid d = inr (Some row) /\ row ∈ vehicles d /\ v_id row = iid.
Proof.
  unfold vehicle_by_id. intros -> (row & Hin & Hv).
  destruct (find _ (vehicles d)) as [r|] eqn:Hf.
  - apply find_some in Hf as [Hi Hb]. apply bool_decide_eq_true in Hb.
    exists r. split; [reflexivity|]. split; [now apply list_elem_of_In|assumption].
  - exfalso. apply list_elem_of_In in Hin.
    pose proof (find_none _ _ Hf _ Hin) as Hb. simpl in Hb.
    apply bool_decide_eq_false in Hb. contradiction.
Qed.

Lemma by_id_none iid d :
  fits_int64 iid = true ->
  (forall row, row ∈ vehicles d -> v_id row <> iid) ->
  vehicle_by_id iid d = inr None.
Proof.
  unfold vehicle_by_id. intros -> H.
  destruct (find _ (vehicles d)) as [r|] eqn:Hf; [|reflexivity].
  apply find_some in Hf as [Hi Hb]. apply bool_decide_eq_true in Hb.
  apply list_elem_of_In in Hi. now apply H in Hi.
Qed.

(** The resolver as one equation, when the storage engine fails nothing. *)
Lemma find_vehicle_by_identifier_quiet E ident w :
  quiet E ->
  exists w', only_counted w w' /\
    find_vehicle_by_identifier E ident w = (resolution ident (view (conn w)), w').
Proof.
  intros Hq. unfold find_vehicle_by_identifier, resolution.
  destruct (bool_decide (ident = Py.VNone)) eqn:Hn.
  { apply bool_decide_eq_true in Hn as ->.
    exists w. split; [apply only_counted_refl|reflexivity]. }
  apply bool_decide_eq_false in Hn.
  set (s := Py.strip (Py.str ident)).
  assert (Hgen :
    exists w', only_counted w w' /\
      (if bool_decide (s = "") then ret None
       else let* row := query E (fun d => inr (vehicle_by_vehicle_id s d)) in
            match row with
            | Some r => ret (Some (r, "vehicle_id"))
            | None =>
                match Py.int s with
                | None => ret None
                | Some iid =>
                    let* row := query E (vehicle_by_id iid) in
                    match row with
                    | Some r => ret (Some (r, "id"))
                    | None => ret None
                    end
                end
            end) w =
      (if bool_decide (s = "") then inr None
       else match vehicle_by_vehicle_id s (view (conn w)) with
            | Some r => inr (Some (r, "vehicle_id"))
            | None =>
                match Py.int s with
                | None => inr None
                | Some iid =>
                    match vehicle_by_id iid (view (conn w)) with
                    | inl e => inl e
                    | inr (Some r) => inr (Some (r, "id"))
                    | inr None => inr None
                    end
                end
            end, w')).
  { destruct (bool_decide (s = "")).
    { exists w. split; [apply only_counted_refl|reflexivity]. }
    unfold bind. rewrite (query_quiet _ _ _ Hq).
    set (w1 := with_conn w (stepped (conn w) (txn (conn w)))).
    assert (H1 : only_counted w w1) by apply only_counted_stepped.
    destruct (vehicle_by_vehicle_id s (view (conn w))) as [r|].
    { exists w1. split; [assumption|reflexivity]. }
    destruct (Py.int s) as [iid|].
    2:{ exists w1. split; [assumption|reflexivity]. }
    rewrite (query_quiet _ _ _ Hq).
    change (view (conn w1)) with (view (conn w)).
    exists (with_conn w1 (stepped (conn w1) (txn (conn w1)))).
    split; [eapply only_counted_trans; [exact H1|apply only_counted_stepped]|].
    destruct (vehicle_by_id iid (view (conn w))) as [e|[r|]]; reflexivity. }
  destruct ident; [congruence|exact Hgen..].
Qed.

(** The order of the resolver.  It answers not-found for [None] and for
    input that is empty once trimmed; otherwise a row whose [vehicle_id]
    equals the trimmed input exactly wins, whatever the [id] column holds;
    only when no such row exists and the trimmed input reads as an integer
    is the [id] column consulted, and for an integer of 64 bits the answer
    is the row with that key or not-found; input that is no integer and
    matches no alias is not found.  The call leaves the file, the open
    transaction, the hub and the trace as they were. *)
Theorem find_vehicle_by_identifier_order E ident w :
  quiet E ->
  let s := Py.strip (Py.str ident) in
  let d := view (conn w) in
  exists r w',
    find_vehicle_by_identifier E ident w = (r, w') /\
    only_counted w w' /\
    (ident = Py.VNone \/ s = "" -> r = inr None) /\
    (ident <> Py.VNone -> s <> "" ->
       (exists row, row ∈ vehicles d /\ v_vehicle_id row = s) ->
       exists row, r = inr (Some (row, "vehicle_id")) /\
                   row ∈ vehicles d /\ v_vehicle_id row = s) /\
    (ident <> Py.VNone -> s <> "" ->
       (forall row, row ∈ vehicles d -> v_vehicle_id row <> s) ->
       forall iid, Py.int s = Some iid -> fits_int64 iid = true ->
       (exists row, row ∈ vehicles d /\ v_id row = iid) ->
       exists row, r = inr (Some (row, "id")) /\ row ∈ vehicles d /\ v_id row = iid) /\
    (ident <> Py.VNone -> s <> "" ->
       (forall row, row ∈ vehicles d -> v_vehicle_id row <> s) ->
       forall iid, Py.int s = Some iid -> fits_int64 iid = true ->
       (forall row, row ∈ vehicles d -> v_id row <> iid) ->
       r = inr None) /\
    (ident <> Py.VNone -> s <> "" ->
       (forall row, row ∈ vehicles d -> v_vehicle_id row <> s) ->
       Py.int s = None -> r = inr None).
Proof.
  intros Hq s d.
  destruct (find_vehicle_by_identifier_quiet E ident w Hq) as (w' & Hc & Heq).
  exists (resolution ident d), w'. split; [exact Heq|]. split; [exact Hc|].
  unfold resolution. fold s.
  split; [|split; [|split; [|split]]].
  - intros [->| ->]; [reflexivity|]. now destruct (bool_decide _).
  - intros Hn Hs Hex.
    rewrite (bool_decide_eq_false_2 _ Hn), (bool_decide_eq_false_2 _ Hs).
    destruct (by_vehicle_id_some s d Hex) as (row & -> & Hin & Hv).
    exists row. auto.
  - intros Hn Hs Hno iid Hi Hfit Hex.
    rewrite (bool_decide_eq_false_2 _ Hn), (bool_decide_eq_false_2 _ Hs).
    rewrite (by_vehicle_id_none s d Hno), Hi.
    destruct (by_id_some iid d Hfit Hex) as (row & -> & Hin & Hv).
    exists row. auto.
  - intros Hn Hs Hno iid Hi Hfit Hnoid.
    rewrite (bool_decide_eq_false_2 _ Hn), (bool_decide_eq_false_2 _ Hs).
    rewrite (by_vehicle_id_none s d Hno), Hi.
    now rewrite (by_id_none iid d Hfit Hnoid).
  - intros Hn Hs Hno Hi.
    rewrite (bool_decide_eq_false_2 _ Hn), (bool_decide_eq_false_2 _ Hs).
    now rewrite (by_vehicle_id_none s d Hno), Hi.
Qed.

Lemma find_vehicle_by_identifier_order_witness :
  exists r w',
    find_vehicle_by_identifier Sample.E (Py.VStr " 2 ") Sample.w0 = (r, w') /\
    only_counted Sample.w0 w'.
Proof.
  destruct (find_vehicle_by_identifier_order Sample.E (Py.VStr " 2 ") Sample.w0)
    as (r & w' & H1 & H2 & _).
  - split; [intros n; reflexivity|reflexivity].
  - exists r, w'. split; assumption.
Defined.

Example resolve_alias_first :
  resolution (Py.VStr "VHL2023") Sample.db = inr (Some (Sample.demo, "vehicle_id")).
Proof. reflexivity. Qed.

Example resolve_is_case_sensitive : resolution (Py.VStr "vhl2023") Sample.db = inr None.
Proof. reflexivity. Qed.

Example resolve_numeric_key :
  resolution (Py.VStr " 2 ") Sample.db = inr (Some (Sample.second, "id")).
Proof. reflexivity. Qed.

Example resolve_unknown_number : resolution (Py.VStr "9999") Sample.db = inr None.
Proof. reflexivity. Qed.

Example resolve_blank : resolution (Py.VStr "   ") Sample.db = inr None.
Proof. reflexivity. Qed.

(** A number that does not fit a 64-bit integer cannot be bound to the
    second query: the resolver raises instead of answering. *)
Example resolve_huge_number :
  resolution (Py.VStr "99999999999999999999") Sample.db = inl OverflowError.
Proof. reflexivity. Qed.

(** Whenever no alias matches and the trimmed input reads as an integer
    that does not fit 64 bits, the second query cannot be prepared and
    the resolver raises. *)
Lemma resolver_raises_when_key_does_not_fit E ident w iid :
  quiet E ->
  ident <> Py.VNone ->
  (forall row, row ∈ vehicles (view (conn w)) ->
               v_vehicle_id row <> Py.strip (Py.str ident)) ->
  Py.int (Py.strip (Py.str ident)) = Some iid ->
  fits_int64 iid = false ->
  exists w', find_vehicle_by_identifier E ident w = (inl OverflowError, w').
Proof.
  intros Hq Hn Hno Hi Hfit.
  destruct (find_vehicle_by_identifier_quiet E ident w Hq) as (w' & _ & ->).
  exists w'. unfold resolution.
  rewrite (bool_decide_eq_false_2 _ Hn).
  assert (Hs : Py.strip (Py.str ident) <> "") by (intros Hs; rewrite Hs in Hi; discriminate).
  rewrite (bool_decide_eq_false_2 _ Hs), (by_vehicle_id_none _ _ Hno), Hi.
  unfold vehicle_by_id. now rewrite Hfit.
Qed.

(** C2.  An identifier that matches no alias and reads as an integer
    outside the 64-bit range: the second query cannot bind it, the
    resolver raises instead of answering not-found, and GET /vehicle/<vid>
    is answered 500. *)
Theorem resolver_raises_on_out_of_range_key :
  let ident := "99999999999999999999" in
  vehicle_by_vehicle_id ident Sample.db = None /\
  Py.int ident = Some 99999999999999999999 /\
  (find_vehicle_by_identifier Sample.E (Py.VStr ident) Sample.w0).1 = inl OverflowError /\
  (serve (get_vehicle Sample.E ident) Sample.db Sample.hub0).1.1.1
  = mk_response 500 JServerError.
Proof. vm_compute. repeat split. Qed.

Lemma NoDup_map_inj {A B} (f : A -> B) (l : list A) x y :
  NoDup (map f l) -> x ∈ l -> y ∈ l -> f x = f y -> x = y.
Proof.
  induction l as [|a l IH]; simpl; intros Hnd Hx Hy Hf.
  - inversion Hx.
  - apply NoDup_cons in Hnd as [Hna Hnd].
    apply elem_of_cons in Hx as [->|Hx]; apply elem_of_cons in Hy as [->|Hy].
    + reflexivity.
    + exfalso. apply Hna. rewrite Hf. apply list_elem_of_In, in_map, list_elem_of_In, Hy.
    + exfalso. apply Hna. rewrite <- Hf. apply list_elem_of_In, in_map, list_elem_of_In, Hx.
    + now apply IH.
Qed.

Lemma resolution_of_alias d row :
  integrity d -> row ∈ vehicles d ->
  v_vehicle_id row <> "" -> Py.strip (v_vehicle_id row) = v_vehicle_id row ->
  resolution (Py.VStr (v_vehicle_id row)) d = inr (Some (row, "vehicle_id")).
Proof.
  intros (_ & Hal & _) Hin Hne Hst. unfold resolution. simpl Py.str.
  rewrite Hst, (bool_decide_eq_false_2 _ Hne).
  rewrite bool_decide_eq_false_2 by discriminate.
  destruct (by_vehicle_id_some (v_vehicle_id row) d) as (r & -> & Hr & Hv); [eauto|].
  now rewrite (NoDup_map_inj _ _ _ _ Hal Hr Hin Hv).
Qed.

Lemma resolution_of_key d row :
  integrity d -> row ∈ vehicles d -> key_form_free d row ->
  exists used, resolution (Py.VStr (Py.str (Py.VInt (v_id row)))) d = inr (Some (row, used)).
Proof.
  intros (Hid & Hal & Hfit) Hin Hfree. unfold resolution.
  change (Py.str (Py.VStr ?x)) with x.
  rewrite strip_str_int, (bool_decide_eq_false_2 _ (str_int_nonempty _)).
  rewrite bool_decide_eq_false_2 by discriminate.
  destruct (vehicle_by_vehicle_id _ d) as [r|] eqn:Hf.
  - unfold vehicle_by_vehicle_id in Hf. apply find_some in Hf as [Hr Hb].
    apply bool_decide_eq_true in Hb. apply list_elem_of_In in Hr.
    destruct (decide (r = row)) as [->|Hne]; [eauto|].
    exfalso. exact (Hfree r Hr Hne Hb).
  - rewrite int_str.
    assert (Hf64 : fits_int64 (v_id row) = true).
    { rewrite Forall_forall in Hfit. apply Hfit, Hin. }
    destruct (by_id_some (v_id row) d Hf64) as (r & -> & Hr & Hv); [eauto|].
    rewrite (NoDup_map_inj _ _ _ _ Hid Hr Hin Hv). eauto.
Qed.

(** The round trip of the two identifier forms for an alias as the
    registration handlers store it.  In a table that honours its
    constraints, a vehicle whose alias is not empty and is its own trimmed
    form is returned both for its alias and for its key written in decimal,
    provided no other vehicle's alias is that decimal form. *)
Theorem resolve_round_trip E w row :
  quiet E ->
  integrity (view (conn w)) ->
  row ∈ vehicles (view (conn w)) ->
  v_vehicle_id row <> "" ->
  Py.strip (v_vehicle_id row) = v_vehicle_id row ->
  key_form_free (view (conn w)) row ->
  round_trip E w row.
Proof.
  intros Hq Hint Hin Hne Hst Hfree. split.
  - destruct (find_vehicle_by_identifier_quiet E (Py.VStr (v_vehicle_id row)) w Hq)
      as (w' & _ & ->).
    rewrite (resolution_of_alias _ _ Hint Hin Hne Hst). eauto.
  - destruct (find_vehicle_by_identifier_quiet E
                (Py.VStr (Py.str (Py.VInt (v_id row)))) w Hq) as (w' & _ & ->).
    destruct (resolution_of_key _ _ Hint Hin Hfree) as (used & ->). eauto.
Qed.

Lemma sample_integrity : integrity Sample.db.
Proof.
  repeat split.
  - apply (bool_decide_unpack _). vm_compute. exact I.
  - apply (bool_decide_unpack _). vm_compute. exact I.
  - repeat constructor.
Defined.

Lemma resolve_round_trip_witness : round_trip Sample.E Sample.w0 Sample.second.
Proof.
  apply resolve_round_trip.
  - split; [intros n; reflexivity|reflexivity].
  - exact sample_integrity.
  - apply (bool_decide_unpack _). vm_compute. exact I.
  - discriminate.
  - reflexivity.
  - intros other Hin Hne. simpl in Hin.
    apply elem_of_cons in Hin as [->|Hin]; [discriminate|].
    apply elem_of_cons in Hin as [->|Hin]; [congruence|]. inversion Hin.
Defined.

End Resolver.

(* ===================================================================== *)
(** ** The two lookup endpoints *)
(* ===================================================================== *)

Section LookupEndpoints.
Import Sqlite Runtime Props User_app.

Lemma strip_nonempty s : Py.strip s <> "" -> s <> "".
Proof. intros H ->. now apply H. Qed.

Lemma resolution_strip s d :
  resolution (Py.VStr (Py.strip s)) d = resolution (Py.VStr s) d.
Proof. unfold resolution. simpl Py.str. now rewrite strip_idem. Qed.

(** C10, as amended.  For an identifier that is not blank and that the
    resolver does not match, POST /validateID answers 200 with
    [valid=false] and GET /vehicle/<vid> answers 404. *)
Theorem not_found_status_differs E (data : gmap string Py.value) ident w :
  quiet E ->
  Py.strip ident <> "" ->
  data !! "vehicleID" = Some (Py.VStr ident) ->
  (exists w', find_vehicle_by_identifier E (Py.VStr ident) w = (inr None, w')) ->
  (exists w1, validate_id E data w
              = (inr (mk_response 200 (JInvalid "vehicle not found")), w1)) /\
  (exists w2, get_vehicle E ident w
              = (inr (mk_response 404 (JNotFound "Vehicle not found")), w2)).
Proof.
  intros Hq Hs Hd (w' & Hf).
  destruct (find_vehicle_by_identifier_quiet E (Py.VStr ident) w Hq) as (wa & _ & Ha).
  rewrite Ha in Hf. injection Hf as Hres _.
  split.
  - unfold validate_id, Py.get. rewrite Hd.
    change (default Py.VNone (Some (Py.VStr ident))) with (Py.VStr ident).
    assert (Ht : Py.or_ (Py.or_ (Py.VStr ident) (default Py.VNone (data !! "vehicle_id")))
                        (Py.VStr "") = Py.VStr ident).
    { unfold Py.or_ at 2. simpl Py.truthy.
      rewrite (bool_decide_eq_false_2 _ (strip_nonempty _ Hs)). simpl.
      unfold Py.or_. simpl Py.truthy.
      now rewrite (bool_decide_eq_false_2 _ (strip_nonempty _ Hs)). }
    rewrite Ht. change (Py.str (Py.VStr ident)) with ident.
    rewrite (bool_decide_eq_false_2 _ Hs).
    unfold bind.
    destruct (find_vehicle_by_identifier_quiet E (Py.VStr (Py.strip ident)) w Hq)
      as (wb & _ & ->).
    rewrite resolution_strip, Hres. eauto.
  - unfold get_vehicle, bind. rewrite Ha, Hres. eauto.
Qed.

Lemma not_found_status_differs_witness :
  (exists w1, validate_id Sample.E {["vehicleID" := Py.VStr "NOPE"]} Sample.w0
              = (inr (mk_response 200 (JInvalid "vehicle not found")), w1)) /\
  (exists w2, get_vehicle Sample.E "NOPE" Sample.w0
              = (inr (mk_response 404 (JNotFound "Vehicle not found")), w2)).
Proof.
  apply (not_found_status_differs Sample.E {["vehicleID" := Py.VStr "NOPE"]} "NOPE" Sample.w0).
  - split; [intros n; reflexivity|reflexivity].
  - discriminate.
  - reflexivity.
  - eexists. reflexivity.
Defined.

(** C10 as stated fails on a blank identifier: the resolver matches
    nothing, GET /vehicle/<vid> answers 404, and POST /validateID answers
    400, not 200. *)
Lemma blank_identifier_is_rejected_by_validate_id :
  resolution (Py.VStr " ") Sample.db = inr None /\
  status (serve (get_vehicle Sample.E " ") Sample.db Sample.hub0).1.1.1 = 404 /\
  (serve (validate_id Sample.E {["vehicleID" := Py.VStr " "]}) Sample.db Sample.hub0).1.1.1
  = mk_response 400 (JInvalid "vehicleID required") /\
  ~ (forall E (data : gmap string Py.value) ident w,
       quiet E ->
       data !! "vehicleID" = Some (Py.VStr ident) ->
       (exists w', find_vehicle_by_identifier E (Py.VStr ident) w = (inr None, w')) ->
       exists body w1, validate_id E data w = (inr (mk_response 200 body), w1)).
Proof.
  split; [reflexivity|]. split; [reflexivity|]. split; [reflexivity|].
  intros H.
  destruct (H Sample.E {["vehicleID" := Py.VStr " "]} " " Sample.w0) as (b & w1 & Hw).
  - split; [intros n; reflexivity|reflexivity].
  - reflexivity.
  - eexists. reflexivity.
  - vm_compute in Hw. discriminate.
Qed.

End LookupEndpoints.

(* ===================================================================== *)
(** ** Event ingestion *)
(* ===================================================================== *)

Section Ingestion.
Import Sqlite Runtime Props User_app.

Lemma bind_inv {A B} (m : io A) (k : A -> io B) w r w' :
  bind m k w = (r, w') ->
  (exists e, m w = (inl e, w') /\ r = inl e) \/
  (exists a w1, m w = (inr a, w1) /\ k a w1 = (r, w')).
Proof.
  unfold bind. destruct (m w) as [[e|a] w1]; intros H.
  - injection H as <- <-. left. eauto.
  - right. eauto.
Qed.

Lemma untouched_refl w : untouched w w.
Proof. repeat split. Qed.

Lemma untouched_trans w1 w2 w3 : untouched w1 w2 -> untouched w2 w3 -> untouched w1 w3.
Proof. intros (a1 & a2 & a3) (b1 & b2 & b3). repeat split; congruence. Qed.

Lemma begin_inv E w r w1 :
  begin E w = (r, w1) ->
  untouched w w1 /\
  (forall u, r = inr u -> txn (conn w) = None /\ view (conn w1) = disk (conn w)).
Proof.
  unfold begin. destruct (faults E _).
  { intros H. injection H as <- <-. split; [repeat split|discriminate]. }
  destruct (txn (conn w)) eqn:Ht; intros H; injection H as <- <-.
  - split; [repeat split|discriminate].
  - split; [repeat split|]. intros u _. split; reflexivity.
Qed.

Lemma execute_inv E ps stmt w r w1 :
  execute E ps stmt w = (r, w1) ->
  untouched w w1 /\
  (forall rc, r = inr rc ->
     exists d, stmt (view (conn w)) = inr (d, rc) /\ view (conn w1) = d).
Proof.
  unfold execute. destruct (faults E _).
  { intros H. injection H as <- <-. split; [repeat split|discriminate]. }
  destruct (negb (forallb bindable ps)).
  { intros H. injection H as <- <-. split; [repeat split|discriminate]. }
  destruct (stmt (view (conn w))) as [e|[d rc]]; intros H; injection H as <- <-.
  - split; [repeat split|discriminate].
  - split; [repeat split|]. intros rc' [= <-]. eauto.
Qed.

Lemma commit_inv E w r w1 :
  commit E w = (r, w1) ->
  (exists e, r = inl e /\ untouched w w1) \/
  (r = inr tt /\ disk (conn w1) = view (conn w) /\ txn (conn w1) = None /\
   sse w1 = sse w /\ trace w1 = trace w ++ [Commit]).
Proof.
  unfold commit. destruct (faults E _); intros H; injection H as <- <-.
  - left. eexists. split; [reflexivity|repeat split].
  - right. repeat split.
Qed.

Lemma publish_inv E v p w r w1 :
  publish E v p w = (r, w1) ->
  (r = inl RuntimeError /\ publish_fault E = true /\ w1 = w) \/
  (r = inr tt /\ publish_fault E = false /\ conn w1 = conn w /\
   sse w1 = sse_publish v p (sse w) /\ trace w1 = trace w ++ [Publish v]).
Proof.
  unfold publish. destruct (publish_fault E); intros H; injection H as <- <-.
  - left. auto.
  - right. repeat split.
Qed.

Lemma rowcount_zero (f : vehicle -> bool) rows :
  (Z.of_nat (length (filter (fun r => f r = true) rows)) =? 0) = negb (existsb f rows).
Proof.
  induction rows as [|r rows IH]; [reflexivity|].
  rewrite filter_cons. simpl existsb. destruct (f r) eqn:Hf.
  - rewrite decide_True by reflexivity. simpl. reflexivity.
  - rewrite decide_False by discriminate. exact IH.
Qed.

Lemma map_no_hit {A} (f : A -> bool) (g : A -> A) l :
  existsb f l = false -> map (fun r => if f r then g r else r) l = l.
Proof.
  induction l as [|a l IH]; simpl; [reflexivity|].
  intros H. apply orb_false_elim in H as [Ha Hl]. now rewrite Ha, IH.
Qed.

Lemma insert_event_inv used row d d' rc :
  insert_event used row d = inr (d', rc) ->
  d' = set_events d (accident_events d
                     ++ [row (next_rowid (events_seq d) (map e_id (accident_events d)))])
                  (next_rowid (events_seq d) (map e_id (accident_events d))).
Proof.
  unfold insert_event. destruct (has_columns _ _); [|discriminate].
  destruct (_ <? _); [discriminate|]. now intros [= <- _].
Qed.

Lemma update_vehicles_inv used hit set d d' rc :
  update_vehicles used hit set d = inr (d', rc) ->
  d' = set_vehicles d (map (fun r => if hit r then set r else r) (vehicles d))
                    (vehicles_seq d) /\
  (rc =? 0) = negb (existsb hit (vehicles d)).
Proof.
  unfold update_vehicles. destruct (has_columns _ _); [|discriminate].
  intros [= <- <-]. split; [reflexivity|apply rowcount_zero].
Qed.

Lemma insert_vehicle_abort_inv used row d d' rc :
  insert_vehicle used Abort row d = inr (d', rc) ->
  d' = set_vehicles d (vehicles d
                       ++ [row (next_rowid (vehicles_seq d) (map v_id (vehicles d)))])
                    (next_rowid (vehicles_seq d) (map v_id (vehicles d))).
Proof.
  unfold insert_vehicle. destruct (has_columns _ _); [|discriminate].
  destruct (_ <? _); [discriminate|].
  destruct (existsb _ _); [discriminate|]. now intros [= <- _].
Qed.

Lemma map_summarise_ids E n (f : vehicle -> bool) rows :
  map v_id (map (fun r => if f r then summarise E n r else r) rows) = map v_id rows.
Proof.
  rewrite map_map. apply map_ext. intros r. now destruct (f r).
Qed.

(** The part of [hardware_event] between the commit and the response. *)
Lemma after_commit E req w r w' :
  (let* _ := publish E (vid req) (published E req) in
   ret (mk_response 201 (JSuccess true))) w = (r, w') ->
  conn w' = conn w /\
  ((r = inl RuntimeError /\ publish_fault E = true /\ sse w' = sse w /\
    trace w' = trace w) \/
   (r = inr (mk_response 201 (JSuccess true)) /\ publish_fault E = false /\
    sse w' = sse_publish (vid req) (published E req) (sse w) /\
    trace w' = trace w ++ [Publish (vid req)])).
Proof.
  intros H. apply bind_inv in H as [(e & Hp & ->)|(u & w1 & Hp & H)].
  - apply publish_inv in Hp as [(He & Hf & ->)|(He & _)]; [|discriminate].
    split; [reflexivity|]. left. repeat split; auto; congruence.
  - apply publish_inv in Hp as [(He & _)|(_ & Hf & Hc & Hs & Ht)]; [discriminate|].
    injection H as <- <-. split; [exact Hc|]. right. repeat split; auto.
Qed.

(** Every run of [hardware_event] that passes validation: either it
    raised before the commit took effect, and nothing was written or
    published; or both the event and the registry change are in the file,
    and the fan-out step then either raised or delivered. *)
Lemma hardware_event_outcome E req w r w' :
  passes_validation E req -> txn (conn w) = None ->
  hardware_event E req w = (r, w') ->
  ((exists e, r = inl e) /\ untouched w w') \/
  (ingested E req (disk (conn w)) (disk (conn w')) /\ txn (conn w') = None /\
   ((r = inl RuntimeError /\ publish_fault E = true /\ sse w' = sse w /\
     trace w' = trace w ++ [Commit]) \/
    (r = inr (mk_response 201 (JSuccess true)) /\ publish_fault E = false /\
     sse w' = sse_publish (vid req) (published E req) (sse w) /\
     trace w' = trace w ++ [Commit; Publish (vid req)]))).
Proof.
  intros [Hkey Hvid] Htxn. unfold hardware_event.
  rewrite (bool_decide_eq_true_2 _ Hkey), (bool_decide_eq_false_2 _ Hvid).
  cbv beta iota zeta. unfold negb. fold (vid req). fold (published E req).
  set (d := disk (conn w)).
  intros H.
  (* BEGIN *)
  apply bind_inv in H as [(e & Hb & ->)|(u & w1 & Hb & H)].
  { left. split; [eauto|]. now apply begin_inv in Hb as [Hu _]. }
  apply begin_inv in Hb as [Hu1 Hv1]. destruct (Hv1 u eq_refl) as [_ Hw1]. clear Hv1.
  (* INSERT INTO accident_events *)
  apply bind_inv in H as [(e & Hx & ->)|(rc0 & w2 & Hx & H)].
  { left. split; [eauto|]. apply execute_inv in Hx as [Hu _].
    eapply untouched_trans; eauto. }
  apply execute_inv in Hx as [Hu2 Hv2]. destruct (Hv2 rc0 eq_refl) as (d1 & Hs1 & Hw2).
  clear Hv2. rewrite Hw1 in Hs1. apply insert_event_inv in Hs1. fold d in Hs1.
  pose proof (untouched_trans _ _ _ Hu1 Hu2) as Hu12.
  (* UPDATE vehicles ... WHERE vehicle_id=? *)
  apply bind_inv in H as [(e & Hx & ->)|(rc1 & w3 & Hx & H)].
  { left. split; [eauto|]. apply execute_inv in Hx as [Hu _].
    eapply untouched_trans; eauto. }
  apply execute_inv in Hx as [Hu3 Hv3]. destruct (Hv3 rc1 eq_refl) as (d2 & Hs2 & Hw3).
  clear Hv3. rewrite Hw2 in Hs2. apply update_vehicles_inv in Hs2 as [Hd2 Hrc1].
  pose proof (untouched_trans _ _ _ Hu12 Hu3) as Hu13.
  assert (Hvd1 : vehicles d1 = vehicles d) by now rewrite Hs1.
  assert (Hsd1 : vehicles_seq d1 = vehicles_seq d) by now rewrite Hs1.
  rewrite Hvd1, Hsd1 in *.
  (* the three ways the registry is written *)
  assert (Hreg : exists w4 d3,
    untouched w w4 /\ view (conn w4) = d3 /\
    vehicles d3 = registry_after E req (vehicles d) (vehicles_seq d) /\
    vehicles_columns d3 = vehicles_columns d /\ events_columns d3 = events_columns d /\
    accident_events d3 = accident_events d ++ [logged_event E req d] /\
    (let* _ := commit E in
     let* _ := publish E (vid req) (published E req) in
     ret (mk_response 201 (JSuccess true))) w4 = (r, w')
    \/ ((exists e, r = inl e) /\ untouched w w')).
  { unfold registry_after.
    destruct (existsb (fun r => bool_decide (v_vehicle_id r = vid req)) (vehicles d))
      eqn:Halias.
    - (* a row has the alias *)
      rewrite Hrc1 in H. cbn [negb] in H.
      apply bind_inv in H as [(e & Hx & ->)|(rc2 & w4 & Hx & H)]; [discriminate|].
      injection Hx as <- <-. rewrite Hrc1 in H. cbn [negb] in H.
      apply bind_inv in H as [(e & Hx & ->)|(rc3 & w5 & Hx & H)]; [discriminate|].
      injection Hx as <- <-.
      exists w3, d2. left.
      repeat split;
        first [exact Hw3 | apply Hu13 | exact H | (rewrite Hd2, ?Hs1; reflexivity)].
    - rewrite Hrc1 in H. cbn [negb] in H.
      assert (Hd2' : d2 = d1).
      { rewrite Hd2, map_no_hit by exact Halias. rewrite Hs1. reflexivity. }
      destruct (Py.int (vid req)) as [iid|] eqn:Hint.
      + (* UPDATE vehicles ... WHERE id=? *)
        apply bind_inv in H as [(e & Hx & ->)|(rc2 & w4 & Hx & H)].
        { exists w3, d2. right. split; [eauto|]. apply execute_inv in Hx as [Hu _].
          eapply untouched_trans; eauto. }
        apply execute_inv in Hx as [Hu4 Hv4].
        destruct (Hv4 rc2 eq_refl) as (d3 & Hs3 & Hw4). clear Hv4.
        rewrite Hw3, Hd2' in Hs3. apply update_vehicles_inv in Hs3 as [Hd3 Hrc2].
        rewrite Hvd1, Hsd1 in *.
        pose proof (untouched_trans _ _ _ Hu13 Hu4) as Hu14.
        rewrite Hrc2 in H.
        destruct (existsb (fun r => bool_decide (v_id r = iid)) (vehicles d)) eqn:Hid.
        * cbn [negb] in H.
          apply bind_inv in H as [(e & Hx & ->)|(rc3 & w5 & Hx & H)]; [discriminate|].
          injection Hx as <- <-.
          exists w4, d3. left.
          repeat split;
            first [exact Hw4 | apply Hu14 | exact H | (rewrite Hd3, ?Hs1; reflexivity)].
        * cbn [negb] in H.
          apply bind_inv in H as [(e & Hx & ->)|(rc3 & w5 & Hx & H)].
          { exists w4, d3. right. split; [eauto|]. apply execute_inv in Hx as [Hu _].
            eapply untouched_trans; eauto. }
          apply execute_inv in Hx as [Hu5 Hv5].
          destruct (Hv5 rc3 eq_refl) as (d4 & Hs4 & Hw5). clear Hv5.
          rewrite Hw4 in Hs4. apply insert_vehicle_abort_inv in Hs4.
          assert (Hd3' : d3 = d1).
          { rewrite Hd3, map_no_hit by exact Hid. rewrite Hs1. reflexivity. }
          rewrite Hd3', Hvd1, Hsd1 in Hs4.
          pose proof (untouched_trans _ _ _ Hu14 Hu5) as Hu15.
          exists w5, d4. left.
          repeat split;
            first [exact Hw5 | apply Hu15 | exact H | (rewrite Hs4, ?Hs1; reflexivity)].
      + (* INSERT INTO vehicles *)
        apply bind_inv in H as [(e & Hx & ->)|(rc2 & w4 & Hx & H)]; [discriminate|].
        injection Hx as <- <-. rewrite Hrc1 in H. cbn [negb] in H.
        apply bind_inv in H as [(e & Hx & ->)|(rc3 & w5 & Hx & H)].
        { exists w3, d2. right. split; [eauto|]. apply execute_inv in Hx as [Hu _].
          eapply untouched_trans; eauto. }
        apply execute_inv in Hx as [Hu5 Hv5].
        destruct (Hv5 rc3 eq_refl) as (d4 & Hs4 & Hw5). clear Hv5.
        rewrite Hw3, Hd2' in Hs4. apply insert_vehicle_abort_inv in Hs4.
        rewrite Hvd1, Hsd1 in Hs4.
        pose proof (untouched_trans _ _ _ Hu13 Hu5) as Hu15.
        exists w5, d4. left.
        repeat split;
          first [exact Hw5 | apply Hu15 | exact H | (rewrite Hs4, ?Hs1; reflexivity)]. }
  destruct Hreg as (w4 & d3 & [(Hu4 & Hw4 & Hv & Hvc & Hec & Hev & Hrest)|Hfail]);
    [|left; exact Hfail].
  (* commit *)
  apply bind_inv in Hrest as [(e & Hc & ->)|(u' & w5 & Hc & Hrest)].
  { left. split; [eauto|].
    apply commit_inv in Hc as [(e' & _ & Hu)|(He & _)]; [|discriminate].
    eapply untouched_trans; eauto. }
  apply commit_inv in Hc as [(e' & He & _)|(_ & Hdisk & Ht5 & Hs5 & Htr5)]; [discriminate|].
  apply after_commit in Hrest as [Hconn Hpub].
  destruct Hu4 as (_ & Hs4 & Htr4).
  right. rewrite Hconn, Hdisk, Hw4, Ht5.
  split; [repeat split; assumption|]. split; [reflexivity|].
  destruct Hpub as [(-> & Hf & Hs & Ht)|(-> & Hf & Hs & Ht)].
  - left. repeat split; [exact Hf|congruence|congruence].
  - right. repeat split; [exact Hf|congruence|].
    rewrite Ht, Htr5, Htr4, <- app_assoc. reflexivity.
Qed.

Lemma serve_inv m db h resp db' h' tr :
  serve m db h = (resp, db', h', tr) ->
  exists r w',
    m (mk_world (connect db) h []) = (r, w') /\
    resp = match r with
           | inr x => x
           | inl _ => mk_response 500 JServerError
           end /\
    db' = disk (conn w') /\ h' = sse w' /\ tr = trace w'.
Proof.
  unfold serve. destruct (m _) as [r w'] eqn:Hm. intros [= <- <- <- <-].
  exists r, w'. repeat split.
Qed.

(** The three ways a validated call to /hardware/event ends. *)
Lemma hardware_event_served E req db h resp db' h' tr :
  passes_validation E req ->
  serve (hardware_event E req) db h = (resp, db', h', tr) ->
  (tr = [] /\ resp = mk_response 500 JServerError /\ db' = db /\ h' = h) \/
  (tr = [Commit] /\ publish_fault E = true /\ resp = mk_response 500 JServerError /\
   ingested E req db db' /\ h' = h) \/
  (tr = [Commit; Publish (vid req)] /\ publish_fault E = false /\
   resp = mk_response 201 (JSuccess true) /\ ingested E req db db' /\
   h' = sse_publish (vid req) (published E req) h).
Proof.
  intros Hval Hs. apply serve_inv in Hs as (r & w' & Hm & -> & -> & -> & ->).
  apply hardware_event_outcome in Hm as
    [[(e & ->) (Hd & Hh & Ht)]|(Hing & _ & [(-> & Hf & Hh & Ht)|(-> & Hf & Hh & Ht)])];
    try assumption; try reflexivity.
  - left. simpl in *. auto.
  - right. left. simpl in *. auto.
  - right. right. simpl in *. auto.
Qed.

Lemma begin_count E w u w1 :
  begin E w = (inr u, w1) ->
  faults E (executed (conn w)) = false /\ executed (conn w1) = S (executed (conn w)).
Proof.
  unfold begin. destruct (faults E _); [discriminate|].
  destruct (txn (conn w)); [discriminate|].
  intros H. inversion H. subst. split; reflexivity.
Qed.

Lemma execute_count E ps stmt w rc w1 :
  execute E ps stmt w = (inr rc, w1) ->
  faults E (executed (conn w)) = false /\ executed (conn w1) = S (executed (conn w)).
Proof.
  unfold execute. destruct (faults E _); [discriminate|].
  destruct (negb _); [discriminate|].
  destruct (stmt _) as [e|[d rc']]; [discriminate|].
  intros H. inversion H. subst. split; reflexivity.
Qed.

Lemma commit_count E w u w1 :
  commit E w = (inr u, w1) ->
  faults E (executed (conn w)) = false /\ executed (conn w1) = S (executed (conn w)).
Proof.
  unfold commit. destruct (faults E _); [discriminate|].
  intros H. inversion H. subst. split; reflexivity.
Qed.

(** A run that reached the commit was given at least four statements,
    BEGIN, the INSERT of the event, the UPDATE by alias and whichever
    statement follows it, and the storage engine failed none of them. *)
Lemma hardware_event_statements E req w r w' :
  passes_validation E req ->
  hardware_event E req w = (r, w') ->
  trace w' <> trace w ->
  forall n, (n < 4)%nat -> faults E (executed (conn w) + n) = false.
Proof.
  intros [Hkey Hvid]. unfold hardware_event.
  rewrite (bool_decide_eq_true_2 _ Hkey), (bool_decide_eq_false_2 _ Hvid).
  cbv beta iota zeta. unfold negb. fold (vid req). fold (published E req).
  intros H Hne.
  assert (Hstop : forall w1, untouched w w1 -> w' = w1 -> False).
  { intros w1 (_ & _ & Ht) ->. now apply Hne. }
  apply bind_inv in H as [(e & Hb & ->)|(u & w1 & Hb & H)].
  { exfalso. apply begin_inv in Hb as [Hu _]. eapply Hstop; eauto. }
  pose proof (begin_inv _ _ _ _ Hb) as [Hu1 _]. apply begin_count in Hb as [Hf0 Hc1].
  apply bind_inv in H as [(e & Hx & ->)|(rc0 & w2 & Hx & H)].
  { exfalso. apply execute_inv in Hx as [Hu _].
    eapply Hstop; [eapply untouched_trans; eauto|reflexivity]. }
  pose proof (execute_inv _ _ _ _ _ _ Hx) as [Hu2 _].
  apply execute_count in Hx as [Hf1 Hc2]. rewrite Hc1 in Hf1, Hc2.
  pose proof (untouched_trans _ _ _ Hu1 Hu2) as Hu12.
  apply bind_inv in H as [(e & Hx & ->)|(rc1 & w3 & Hx & H)].
  { exfalso. apply execute_inv in Hx as [Hu _].
    eapply Hstop; [eapply untouched_trans; eauto|reflexivity]. }
  pose proof (execute_inv _ _ _ _ _ _ Hx) as [Hu3 _].
  apply execute_count in Hx as [Hf2 Hc3]. rewrite Hc2 in Hf2, Hc3.
  pose proof (untouched_trans _ _ _ Hu12 Hu3) as Hu13.
  assert (Hf3 : faults E (S (S (S (executed (conn w))))) = false).
  { assert (Hcommit : forall wa k,
              untouched w wa -> executed (conn wa) = S (S (S (executed (conn w)))) ->
              bind (commit E) k wa = (r, w') ->
              faults E (S (S (S (executed (conn w))))) = false).
    { intros wa k Hua Hca Hk.
      apply bind_inv in Hk as [(e & Hc & ->)|(u' & w5 & Hc & _)].
      - exfalso. apply commit_inv in Hc as [(e' & _ & Hu)|(He & _)]; [|discriminate].
        eapply Hstop; [eapply untouched_trans; eauto|reflexivity].
      - apply commit_count in Hc as [Hf _]. now rewrite Hca in Hf. }
    assert (Hexec : forall ps stmt k,
              bind (execute E ps stmt) k w3 = (r, w') ->
              faults E (S (S (S (executed (conn w))))) = false).
    { intros ps stmt k Hk.
      apply bind_inv in Hk as [(e & Hx & ->)|(rc & w4 & Hx & _)].
      - exfalso. apply execute_inv in Hx as [Hu _].
        eapply Hstop; [eapply untouched_trans; eauto|reflexivity].
      - apply execute_count in Hx as [Hf _]. now rewrite Hc3 in Hf. }
    destruct (rc1 =? 0) eqn:Hz.
    - destruct (Py.int (vid req)) as [iid|].
      + eapply Hexec. exact H.
      + apply bind_inv in H as [(e & Hx & ->)|(rc2 & w4 & Hx & H)]; [discriminate|].
        injection Hx as <- <-. rewrite Hz in H. eapply Hexec. exact H.
    - apply bind_inv in H as [(e & Hx & ->)|(rc2 & w4 & Hx & H)]; [discriminate|].
      injection Hx as <- <-. rewrite Hz in H.
      apply bind_inv in H as [(e & Hx & ->)|(rc3 & w5 & Hx & H)]; [discriminate|].
      injection Hx as <- <-. eapply Hcommit; eauto. }
  intros n Hn.
  destruct n as [|[|[|[|n]]]]; [| | |  |lia];
    rewrite ?Nat.add_0_r, ?Nat.add_1_r; try assumption.
  - now replace (executed (conn w) + 2)%nat with (S (S (executed (conn w)))) by lia.
  - now replace (executed (conn w) + 3)%nat with (S (S (S (executed (conn w))))) by lia.
Qed.

(** C1.  A validated call to /hardware/event ends in one of three ways.
    Either a statement of the transaction failed: the answer is a 500 and
    the file and the hub are as before, so neither the event row nor the
    registry change is kept.  Or the transaction committed both writes and
    the fan-out step then raised: the answer is a 500 and both writes are
    in the file.  Or it committed both writes and then published: the
    answer is 201.  The publish is never before the commit, and a failure
    of the storage engine on any of the first four statements gives the
    first outcome. *)
Theorem hardware_event_atomic E req db h resp db' h' tr :
  passes_validation E req ->
  serve (hardware_event E req) db h = (resp, db', h', tr) ->
  ((tr = [] /\ status resp = 500 /\ db' = db /\ h' = h) \/
   (tr = [Commit] /\ publish_fault E = true /\ status resp = 500 /\
    ingested E req db db' /\ h' = h) \/
   (tr = [Commit; Publish (vid req)] /\ publish_fault E = false /\ status resp = 201 /\
    ingested E req db db' /\ h' = sse_publish (vid req) (published E req) h)) /\
  ((exists n, (n < 4)%nat /\ faults E n = true) ->
   tr = [] /\ status resp = 500 /\ db' = db /\ h' = h).
Proof.
  intros Hval Hs.
  pose proof (hardware_event_served _ _ _ _ _ _ _ _ Hval Hs) as Hout.
  split.
  - destruct Hout as [(-> & -> & -> & ->)|[(-> & Hf & -> & Hi & ->)|(-> & Hf & -> & Hi & ->)]].
    + left. auto.
    + right. left. auto.
    + right. right. auto.
  - intros (n & Hn & Hfault).
    apply serve_inv in Hs as (r & w' & Hm & -> & -> & -> & ->).
    destruct (decide (trace w' = [])) as [Ht|Ht].
    + destruct Hout as [(_ & -> & -> & ->)|[(Htr & _)|(Htr & _)]];
        [auto|rewrite Ht in Htr; discriminate..].
    + exfalso.
      pose proof (hardware_event_statements _ _ _ _ _ Hval Hm Ht n Hn) as Hok.
      simpl in Hok. congruence.
Qed.

Lemma hardware_event_atomic_witness :
  let out := serve (hardware_event Sample.E_third_fails (Sample.collision "VHL2023" "rear collision"))
                   Sample.db Sample.hub0 in
  out.2 = [] /\ status out.1.1.1 = 500 /\ out.1.1.2 = Sample.db /\ out.1.2 = Sample.hub0.
Proof.
  intros out.
  destruct (hardware_event_atomic Sample.E_third_fails
              (Sample.collision "VHL2023" "rear collision") Sample.db Sample.hub0
              out.1.1.1 out.1.1.2 out.1.2 out.2) as [_ H].
  - split; [reflexivity|discriminate].
  - vm_compute. reflexivity.
  - apply H. exists 2%nat. split; [lia|reflexivity].
Defined.

(** The fan-out step raising after the commit leaves both writes in the
    file: the answer is a 500, the event is logged and the summary set. *)
Example publish_failure_keeps_the_commit :
  let out := serve (hardware_event Sample.E_publish_fails (Sample.collision "VHL2023" "rear collision"))
                   Sample.db Sample.hub0 in
  out.2 = [Commit] /\ status out.1.1.1 = 500 /\
  map e_vehicle_id (accident_events out.1.1.2) = ["VHL2023"] /\
  map v_accident_details (vehicles out.1.1.2) = [Some "rear collision"; None].
Proof. vm_compute. repeat split. Qed.

Example ingestion_of_known_alias :
  let out := serve (hardware_event Sample.E (Sample.collision "VHL2023" "rear collision"))
                   Sample.db Sample.hub0 in
  out.2 = [Commit; Publish "VHL2023"] /\ status out.1.1.1 = 201 /\
  map e_vehicle_id (accident_events out.1.1.2) = ["VHL2023"] /\
  map v_accident_details (vehicles out.1.1.2) = [Some "rear collision"; None].
Proof. vm_compute. repeat split. Qed.

Example ingestion_of_unseen_alias :
  let out := serve (hardware_event Sample.E (Sample.collision "NEWCAR1" "hit"))
                   Sample.db Sample.hub0 in
  status out.1.1.1 = 201 /\
  map (fun r => (v_id r, v_vehicle_id r, v_model r, v_accident_details r))
      (vehicles out.1.1.2)
  = [(1, "VHL2023", Some "Audi A3", Some "No recent accidents reported.");
     (2, "TRK7", Some "Volvo FH", None);
     (3, "NEWCAR1", None, Some "hit")].
Proof. vm_compute. repeat split. Qed.

Lemma rejected_without_validation E req db h resp db' h' tr :
  serve (hardware_event E req) db h = (resp, db', h', tr) ->
  status resp = 201 -> passes_validation E req.
Proof.
  intros Hs H201. apply serve_inv in Hs as (r & w' & Hm & -> & _).
  unfold hardware_event in Hm. unfold passes_validation.
  destruct (bool_decide (api_key req = Some (HW_API_KEY E))) eqn:Hk.
  - destruct (bool_decide (vid_raw req = Py.VNone)) eqn:Hv.
    + simpl in Hm. injection Hm as <- <-. discriminate.
    + apply bool_decide_eq_true in Hk. apply bool_decide_eq_false in Hv. auto.
  - simpl in Hm. injection Hm as <- <-. discriminate.
Qed.

(** What a 201 from /hardware/event means. *)
Lemma hardware_event_created E req db h resp db' h' tr :
  serve (hardware_event E req) db h = (resp, db', h', tr) ->
  status resp = 201 ->
  passes_validation E req /\ ingested E req db db' /\
  h' = sse_publish (vid req) (published E req) h.
Proof.
  intros Hs H201. pose proof (rejected_without_validation _ _ _ _ _ _ _ _ Hs H201) as Hval.
  split; [exact Hval|].
  destruct (hardware_event_served _ _ _ _ _ _ _ _ Hval Hs)
    as [(_ & -> & _)|[(_ & _ & -> & _)|(_ & _ & _ & Hi & Hh)]];
    [discriminate..|auto].
Qed.

(** C4, as amended.  The row a successful ingestion appends to the event
    log carries, as its vehicle reference, the text of the identifier the
    caller supplied with leading and trailing whitespace removed, whatever
    vehicle that identifier resolves to; the payload is kept whole beside
    it. *)
Theorem event_row_keeps_trimmed_identifier E req db h resp db' h' tr :
  serve (hardware_event E req) db h = (resp, db', h', tr) ->
  status resp = 201 ->
  exists e,
    accident_events db' = accident_events db ++ [e] /\
    e_vehicle_id e = Py.strip (Py.str (vid_raw req)) /\
    e_raw_payload e = Some (json req).
Proof.
  intros Hs H201.
  destruct (hardware_event_created _ _ _ _ _ _ _ _ Hs H201) as (_ & (_ & _ & Hev & _) & _).
  exists (logged_event E req db). repeat split. exact Hev.
Qed.

(** The identifier [+2] resolves to the vehicle whose key is 2 and whose
    alias is [TRK7]; the event is logged under [+2]. *)
Lemma event_row_keeps_trimmed_identifier_witness :
  let req := Sample.collision " +2 " "side impact" in
  let out := serve (hardware_event Sample.E req) Sample.db Sample.hub0 in
  resolution (vid_raw req) Sample.db = inr (Some (Sample.second, "id")) /\
  exists e, accident_events out.1.1.2 = accident_events Sample.db ++ [e] /\
            e_vehicle_id e = "+2" /\ e_raw_payload e = Some (json req).
Proof.
  intros req out. split; [reflexivity|].
  apply (event_row_keeps_trimmed_identifier Sample.E req Sample.db Sample.hub0
           out.1.1.1 out.1.1.2 out.1.2 out.2).
  - vm_compute. reflexivity.
  - reflexivity.
Defined.

(** C4 as stated fails when the supplied identifier has whitespace around
    it: the row holds the trimmed text, not the string the caller sent. *)
Lemma raw_identifier_is_trimmed_before_logging :
  let req := Sample.collision " TRK7 " "side impact" in
  let out := serve (hardware_event Sample.E req) Sample.db Sample.hub0 in
  vid_raw req = Py.VStr " TRK7 " /\
  status out.1.1.1 = 201 /\
  map e_vehicle_id (accident_events out.1.1.2) = ["TRK7"] /\
  ~ (forall E req db h resp db' h' tr,
       serve (hardware_event E req) db h = (resp, db', h', tr) ->
       status resp = 201 ->
       exists e, accident_events db' = accident_events db ++ [e] /\
                 Py.VStr (e_vehicle_id e) = vid_raw req).
Proof.
  intros req out. split; [reflexivity|]. split; [reflexivity|]. split; [reflexivity|].
  intros H.
  destruct (H Sample.E req Sample.db Sample.hub0 out.1.1.1 out.1.1.2 out.1.2 out.2)
    as (e & He & Hv).
  - vm_compute. reflexivity.
  - reflexivity.
  - vm_compute in He. injection He as <-. vm_compute in Hv. discriminate.
Qed.

Lemma next_rowid_above seq ids x : x ∈ ids -> x < next_rowid seq ids.
Proof.
  unfold next_rowid. induction ids as [|a ids IH]; intros Hx; [inversion Hx|].
  simpl. apply elem_of_cons in Hx as [->|Hx]; [lia|]. specialize (IH Hx). lia.
Qed.

Lemma registry_after_ids E req rows seq :
  NoDup (map v_id rows) -> NoDup (map v_id (registry_after E req rows seq)).
Proof.
  intros Hnd. unfold registry_after.
  assert (Hfresh : NoDup (map v_id
            (rows ++ [mk_vehicle (next_rowid seq (map v_id rows)) (vid req) None None None
                        (bind_text (notes req)) (Some (CURRENT_TIMESTAMP E)) None]))).
  { rewrite map_app. simpl. apply NoDup_app. split; [exact Hnd|]. split.
    - intros x Hx Hy. apply list_elem_of_singleton in Hy. subst x.
      apply (next_rowid_above seq) in Hx. lia.
    - apply NoDup_singleton. }
  destruct (existsb _ rows); [now rewrite map_summarise_ids|].
  destruct (Py.int (vid req)) as [iid|]; [|exact Hfresh].
  destruct (existsb _ rows); [now rewrite map_summarise_ids|exact Hfresh].
Qed.

Lemma ingestions_ids k db h calls db' h' :
  ingestions k db h calls db' h' ->
  NoDup (map v_id (vehicles db)) -> NoDup (map v_id (vehicles db')).
Proof.
  induction 1 as [E req db h resp db' h' tr Hs H201 _
                 |E req calls db h db1 h1 resp db' h' tr _ IH Hs H201 _]; intros Hnd.
  - destruct (hardware_event_created _ _ _ _ _ _ _ _ Hs H201) as (_ & (_ & _ & _ & ->) & _).
    now apply registry_after_ids.
  - destruct (hardware_event_created _ _ _ _ _ _ _ _ Hs H201) as (_ & (_ & _ & _ & ->) & _).
    apply registry_after_ids, IH, Hnd.
Qed.

Lemma existsb_alias_elem vid rows :
  existsb (fun r => bool_decide (v_vehicle_id r = vid)) rows = false ->
  forall r, r ∈ rows -> v_vehicle_id r <> vid.
Proof.
  intros H r Hr Hv. apply list_elem_of_In in Hr.
  assert (Ht : existsb (fun r => bool_decide (v_vehicle_id r = vid)) rows = true).
  { apply existsb_exists. exists r. split; [exact Hr|now apply bool_decide_eq_true]. }
  congruence.
Qed.

Lemma elem_of_map_cond (f : vehicle -> bool) (g : vehicle -> vehicle) rows x :
  x ∈ map (fun r => if f r then g r else r) rows ->
  exists r, r ∈ rows /\ x = (if f r then g r else r).
Proof.
  intros Hx. apply list_elem_of_In, in_map_iff in Hx as (r & <- & Hr).
  exists r. split; [now apply list_elem_of_In|reflexivity].
Qed.

(** One ingestion: every row of the new registry that the identifier
    addresses carries the notes of that ingestion. *)
Lemma ingested_summary E req d d' k :
  NoDup (map v_id (vehicles d)) ->
  ingested E req d d' ->
  answers_to d' (vid req) k ->
  forall row, row ∈ vehicles d' -> v_id row = k ->
              v_accident_details row = bind_text (notes req).
Proof.
  intros Hnd (_ & _ & _ & Hreg) Hans.
  pose proof (registry_after_ids E req _ (vehicles_seq d) Hnd) as Hnd'.
  rewrite <- Hreg in Hnd'.
  assert (Hone : forall hit, hit ∈ vehicles d' -> v_id hit = k ->
                   v_accident_details hit = bind_text (notes req) ->
                   forall row, row ∈ vehicles d' -> v_id row = k ->
                     v_accident_details row = bind_text (notes req)).
  { intros hit Hh Hk Hd row Hr Hrk.
    assert (row = hit) as -> by (eapply NoDup_map_inj; eauto; congruence).
    exact Hd. }
  unfold registry_after in Hreg.
  destruct (existsb (fun r => bool_decide (v_vehicle_id r = vid req)) (vehicles d))
    eqn:Halias.
  - (* rows with the alias were summarised *)
    destruct Hans as [(hit & Hh & Hk & Hv)|(Hno & _)].
    + apply (Hone hit Hh Hk). rewrite Hreg in Hh.
      apply elem_of_map_cond in Hh as (r & Hr & ->).
      destruct (bool_decide (v_vehicle_id r = vid req)) eqn:Hb; [reflexivity|].
      apply bool_decide_eq_false in Hb. contradiction.
    + exfalso. apply existsb_exists in Halias as (r & Hr & Hb).
      apply bool_decide_eq_true in Hb.
      apply (Hno (summarise E (notes req) r)); [|exact Hb].
      rewrite Hreg. apply list_elem_of_In, in_map_iff. exists r.
      rewrite (bool_decide_eq_true_2 _ Hb). auto.
  - pose proof (existsb_alias_elem _ _ Halias) as Hnoalias.
    assert (Hfresh : vehicles d' = vehicles d ++
              [mk_vehicle (next_rowid (vehicles_seq d) (map v_id (vehicles d))) (vid req)
                 None None None (bind_text (notes req)) (Some (CURRENT_TIMESTAMP E)) None] ->
            forall row, row ∈ vehicles d' -> v_id row = k ->
                        v_accident_details row = bind_text (notes req)).
    { intros Hv. destruct Hans as [(hit & Hh & Hk & Ha)|(Hno & _)].
      - apply (Hone hit Hh Hk). rewrite Hv in Hh.
        apply elem_of_app in Hh as [Hh|Hh]; [now apply Hnoalias in Hh|].
        apply list_elem_of_singleton in Hh. now subst hit.
      - exfalso. eapply Hno; [rewrite Hv; apply elem_of_app; right;
                               apply list_elem_of_singleton; reflexivity|reflexivity]. }
    destruct (Py.int (vid req)) as [iid|] eqn:Hint; [|exact (Hfresh Hreg)].
    destruct (existsb (fun r => bool_decide (v_id r = iid)) (vehicles d)) eqn:Hid;
      [|exact (Hfresh Hreg)].
    (* rows with the key were summarised *)
    destruct Hans as [(hit & Hh & Hk & Ha)|(_ & Hik & _)].
    + exfalso. rewrite Hreg in Hh. apply elem_of_map_cond in Hh as (r & Hr & ->).
      apply (Hnoalias r Hr). now destruct (bool_decide (v_id r = iid)).
    + rewrite Hint in Hik. injection Hik as ->.
      intros row Hrow Hk. rewrite Hreg in Hrow.
      apply elem_of_map_cond in Hrow as (r & Hr & ->).
      destruct (bool_decide (v_id r = k)) eqn:Hb; [reflexivity|].
      apply bool_decide_eq_false in Hb. contradiction.
Qed.

Lemma answers_to_exists d vid k :
  answers_to d vid k -> exists row, row ∈ vehicles d /\ v_id row = k.
Proof. intros [(row & Hr & Hk & _)|(_ & _ & row & Hr & Hk)]; eauto. Qed.

(** C3.  After one or more successful ingestions in a row that all
    address the same vehicle, the summary of that vehicle is the notes of
    the last of them, however many there were. *)
Theorem summary_is_latest_notes k db h calls db' h' E req :
  NoDup (map v_id (vehicles db)) ->
  ingestions k db h calls db' h' ->
  last calls = Some (E, req) ->
  (exists row, row ∈ vehicles db' /\ v_id row = k) /\
  (forall row, row ∈ vehicles db' -> v_id row = k ->
     v_accident_details row = bind_text (notes req)) /\
  (forall s, Py.get (json req) "notes" = Py.VStr s -> s <> "" ->
     forall row, row ∈ vehicles db' -> v_id row = k -> v_accident_details row = Some s).
Proof.
  intros Hnd Hrun Hlast.
  assert (Hmain : (exists row, row ∈ vehicles db' /\ v_id row = k) /\
                  (forall row, row ∈ vehicles db' -> v_id row = k ->
                     v_accident_details row = bind_text (notes req))).
  { inversion Hrun as [E0 req0 db0 h0 resp db0' h0' tr Hs H201 Hans
                      |E0 req0 calls0 db0 h0 db1 h1 resp db0' h0' tr Hprev Hs H201 Hans];
      subst.
    - injection Hlast as <- <-.
      destruct (hardware_event_created _ _ _ _ _ _ _ _ Hs H201) as (_ & Hing & _).
      split; [exact (answers_to_exists _ _ _ Hans)|].
      exact (ingested_summary _ _ _ _ _ Hnd Hing Hans).
    - rewrite last_snoc in Hlast. injection Hlast as <- <-.
      destruct (hardware_event_created _ _ _ _ _ _ _ _ Hs H201) as (_ & Hing & _).
      split; [exact (answers_to_exists _ _ _ Hans)|].
      exact (ingested_summary _ _ _ _ _ (ingestions_ids _ _ _ _ _ _ Hprev Hnd) Hing Hans). }
  destruct Hmain as [Hex Hall]. split; [exact Hex|]. split; [exact Hall|].
  intros s Hs Hne row Hrow Hk. rewrite (Hall row Hrow Hk).
  unfold notes. rewrite Hs. unfold Py.or_ at 2. simpl Py.truthy.
  rewrite (bool_decide_eq_false_2 _ Hne). simpl.
  unfold Py.or_. simpl Py.truthy. now rewrite (bool_decide_eq_false_2 _ Hne).
Qed.

(** Two ingestions for the demo vehicle, the first under its alias and the
    second under its key: the summary is the notes of the second. *)
Lemma summary_is_latest_notes_witness :
  let first := serve (hardware_event Sample.E (Sample.collision "VHL2023" "rear collision"))
                     Sample.db Sample.hub0 in
  let second := serve (hardware_event Sample.E (Sample.collision "1" "rollover"))
                      first.1.1.2 first.1.2 in
  exists row, row ∈ vehicles second.1.1.2 /\ v_id row = 1 /\
              v_accident_details row = Some "rollover".
Proof.
  intros first second.
  assert (Hrun : ingestions 1 Sample.db Sample.hub0
                   ([(Sample.E, Sample.collision "VHL2023" "rear collision")]
                    ++ [(Sample.E, Sample.collision "1" "rollover")])
                   second.1.1.2 second.1.2).
  { apply (ingestions_more 1 Sample.E (Sample.collision "1" "rollover")
             [(Sample.E, Sample.collision "VHL2023" "rear collision")]
             Sample.db Sample.hub0 first.1.1.2 first.1.2
             second.1.1.1 second.1.1.2 second.1.2 second.2).
    - apply (ingestions_one 1 Sample.E (Sample.collision "VHL2023" "rear collision")
               Sample.db Sample.hub0 first.1.1.1 first.1.1.2 first.1.2 first.2).
      + vm_compute. reflexivity.
      + reflexivity.
      + left. exists (summarise Sample.E (Py.VStr "rear collision") Sample.demo).
        split; [|split; reflexivity].
        apply (bool_decide_unpack _). vm_compute. exact I.
    - vm_compute. reflexivity.
    - reflexivity.
    - right. split; [|split; [reflexivity|]].
      + intros row Hrow. vm_compute in Hrow.
        apply elem_of_cons in Hrow as [->|Hrow]; [discriminate|].
        apply elem_of_cons in Hrow as [->|Hrow]; [discriminate|]. inversion Hrow.
      + exists (summarise Sample.E (Py.VStr "rollover") Sample.demo).
        split; [|reflexivity].
        apply (bool_decide_unpack _). vm_compute. exact I. }
  destruct (summary_is_latest_notes 1 Sample.db Sample.hub0 _ _ _
              Sample.E (Sample.collision "1" "rollover")
              (proj1 sample_integrity) Hrun eq_refl) as ((row & Hrow & Hk) & _ & H).
  exists row. split; [exact Hrow|]. split; [exact Hk|].
  apply (H "rollover"); [reflexivity|discriminate|exact Hrow|exact Hk].
Defined.

(** The UPDATE of [hardware_event] names the column [updated_at]: on a
    [vehicles] table without it the statement cannot be prepared, the
    call is answered 500 and nothing is kept. *)
Lemma hardware_event_needs_updated_at E req db h resp db' h' tr :
  passes_validation E req ->
  "updated_at" ∉ vehicles_columns db ->
  serve (hardware_event E req) db h = (resp, db', h', tr) ->
  resp = mk_response 500 JServerError /\ db' = db /\ h' = h /\ tr = [].
Proof.
  intros Hval Hcol Hs.
  destruct (hardware_event_served _ _ _ _ _ _ _ _ Hval Hs)
    as [(-> & -> & -> & ->)|Hcommitted]; [auto|].
  exfalso.
  assert (Htr : tr <> []) by (destruct Hcommitted as [(-> & _)|(-> & _)]; discriminate).
  clear Hcommitted.
  apply serve_inv in Hs as (r & w' & Hm & _ & _ & _ & ->).
  destruct Hval as [Hkey Hvid]. unfold hardware_event in Hm.
  rewrite (bool_decide_eq_true_2 _ Hkey), (bool_decide_eq_false_2 _ Hvid) in Hm.
  cbv beta iota zeta in Hm. unfold negb in Hm.
  set (w := mk_world (connect db) h []) in *.
  assert (Hstop : forall w1, untouched w w1 -> w' = w1 -> False).
  { intros w1 (_ & _ & Ht) ->. apply Htr. exact Ht. }
  apply bind_inv in Hm as [(e & Hb & ->)|(u & w1 & Hb & Hm)].
  { apply begin_inv in Hb as [Hu _]. eapply Hstop; eauto. }
  apply begin_inv in Hb as [Hu1 Hv1]. destruct (Hv1 u eq_refl) as [_ Hw1]. clear Hv1.
  apply bind_inv in Hm as [(e & Hx & ->)|(rc0 & w2 & Hx & Hm)].
  { apply execute_inv in Hx as [Hu _].
    eapply Hstop; [eapply untouched_trans; eauto|reflexivity]. }
  apply execute_inv in Hx as [Hu2 Hv2]. destruct (Hv2 rc0 eq_refl) as (d1 & Hs1 & Hw2).
  clear Hv2. rewrite Hw1 in Hs1. apply insert_event_inv in Hs1.
  pose proof (untouched_trans _ _ _ Hu1 Hu2) as Hu12.
  apply bind_inv in Hm as [(e & Hx & ->)|(rc1 & w3 & Hx & Hm)].
  { apply execute_inv in Hx as [Hu _].
    eapply Hstop; [eapply untouched_trans; eauto|reflexivity]. }
  apply execute_inv in Hx as [_ Hv3]. destruct (Hv3 rc1 eq_refl) as (d2 & Hs2 & _).
  rewrite Hw2, Hs1 in Hs2. unfold update_vehicles, has_columns in Hs2.
  simpl in Hs2. rewrite (bool_decide_eq_false_2 _ Hcol) in Hs2.
  rewrite andb_false_r in Hs2. simpl in Hs2. discriminate.
Qed.

(** The file User_app's [init_db] leaves, whatever its outcome. *)
Lemma user_init_db_file d :
  (init_db d).2 =
  mk_database
    (create_table_if_not_exists
       ["id"; "vehicle_id"; "model"; "owner"; "registration"; "accident_details"]
       (vehicles_columns d))
    (create_table_if_not_exists
       ["id"; "vehicle_id"; "intensity"; "lat"; "lng"; "timestamp"; "raw_payload";
        "created_at"]
       (events_columns d))
    (vehicles d) (vehicles_seq d) (accident_events d) (events_seq d).
Proof. unfold init_db. cbv zeta. destruct (has_columns _ _); reflexivity. Qed.

(** None of the three [init_db] gives [vehicles] an [updated_at] column. *)
Lemma init_db_never_adds_updated_at E d :
  "updated_at" ∉ vehicles_columns d ->
  ("updated_at" ∉ vehicles_columns (init_db d).2) /\
  ("updated_at" ∉ vehicles_columns (Db_init.init_db E d)) /\
  (forall d', Dev_app.init_db d = inr d' -> "updated_at" ∉ vehicles_columns d').
Proof.
  intros Hd.
  assert (Hcreate : forall cols, "updated_at" ∉ cols ->
            "updated_at" ∉ create_table_if_not_exists cols (vehicles_columns d)).
  { intros cols Hc. unfold create_table_if_not_exists.
    destruct (vehicles_columns d); [exact Hc|exact Hd]. }
  split; [|split].
  - rewrite user_init_db_file. simpl.
    apply Hcreate. apply (bool_decide_unpack _). vm_compute. exact I.
  - unfold Db_init.init_db. destruct (vehicles d); simpl;
      apply Hcreate; apply (bool_decide_unpack _); vm_compute; exact I.
  - intros d'. unfold Dev_app.init_db. destruct (_ && _); [discriminate|].
    intros [= <-]. simpl. unfold Dev_app.add_if_missing.
    assert (Hbase : "updated_at" ∉ create_table_if_not_exists
              ["id"; "vehicle_id"; "model"; "owner"; "registration"; "accident_details"]
              (vehicles_columns d)).
    { apply Hcreate. apply (bool_decide_unpack _). vm_compute. exact I. }
    destruct (bool_decide _); [exact Hbase|].
    intros Hin. apply elem_of_app in Hin as [Hin|Hin]; [contradiction|].
    apply list_elem_of_singleton in Hin. discriminate.
Qed.

(** On the file [db_init.py] and then User_app's [init_db] make out of
    nothing, an authorised event for the demo vehicle is answered 500 and
    neither logged nor summarised. *)
Example hardware_event_on_the_initial_file :
  let db := (init_db (Db_init.init_db Sample.E empty_file)).2 in
  let out := serve (hardware_event Sample.E (Sample.collision "VHL2023" "rear collision"))
                   db Sample.hub0 in
  map v_vehicle_id (vehicles db) = ["VHL2023"] /\
  out = (mk_response 500 JServerError, db, Sample.hub0, []).
Proof. vm_compute. split; reflexivity. Qed.

End Ingestion.


(* ===================================================================== *)
(** ** Registration: the two /add_vehicle handlers *)
(* ===================================================================== *)

Section Registration.
Import Sqlite Runtime Props.

Lemma query_inv {A} E (q : database -> exn + A) w r w1 :
  query E q w = (r, w1) ->
  untouched w w1 /\ view (conn w1) = view (conn w) /\
  (forall a, r = inr a -> q (view (conn w)) = inr a).
Proof.
  unfold query. destruct (faults E _).
  { intros H. injection H as <- <-. repeat split. discriminate. }
  destruct (q (view (conn w))) as [e|a]; intros H; injection H as <- <-.
  - repeat split. discriminate.
  - repeat split. intros a' [= <-]. reflexivity.
Qed.

Lemma finally_close_inv {A} (m : io A) w r w' :
  finally m close_db w = (r, w') ->
  exists w1, m w = (r, w1) /\ disk (conn w') = disk (conn w1) /\
             sse w' = sse w1 /\ trace w' = trace w1.
Proof.
  unfold finally, close_db. destruct (m w) as [r1 w1]. intros [= <- <-].
  exists w1. repeat split.
Qed.

Lemma on_exception_ok {A} (m : io A) h w a w' :
  on_exception m h w = (inr a, w') -> m w = (inr a, w').
Proof.
  unfold on_exception. destruct (m w) as [[e|x] w1]; [|auto].
  destruct (h w1) as [[e'|u] w2]; discriminate.
Qed.

Lemma except_inv {A} (m : io A) a w r w' :
  except m a w = (r, w') ->
  exists x, r = inr x /\ (m w = (inr x, w') \/ (x = a /\ exists e, m w = (inl e, w'))).
Proof.
  unfold except. destruct (m w) as [[e|x] w1]; intros [= <- <-].
  - exists a. split; [reflexivity|]. right. eauto.
  - exists x. auto.
Qed.

Lemma insert_vehicle_ignore_inv used row d d' rc :
  insert_vehicle used Ignore row d = inr (d', rc) ->
  let rowid := next_rowid (vehicles_seq d) (map v_id (vehicles d)) in
  vehicles d' =
    (if existsb (fun r => bool_decide (v_vehicle_id r = v_vehicle_id (row rowid)))
                (vehicles d)
     then vehicles d else vehicles d ++ [row rowid]) /\
  vehicles_columns d' = vehicles_columns d /\
  accident_events d' = accident_events d.
Proof.
  unfold insert_vehicle. destruct (has_columns _ _); [|discriminate].
  destruct (_ <? _); [discriminate|].
  destruct (existsb _ _); intros [= <- _]; repeat split.
Qed.

Lemma ensured_has_alias E vid m o r a d :
  exists row, row ∈ ensured E vid m o r a d /\ v_vehicle_id row = vid.
Proof.
  unfold ensured.
  destruct (existsb _ (vehicles d)) eqn:Hex.
  - apply existsb_exists in Hex as (row & Hin & Hb). apply bool_decide_eq_true in Hb.
    exists row. split; [now apply list_elem_of_In|exact Hb].
  - eexists. split; [apply elem_of_app; right; apply list_elem_of_singleton; reflexivity|].
    reflexivity.
Qed.

(** The transaction of Dev_app's [add_vehicle], when it returns: the
    SELECT found a row, so the action is [updated]; the registry is the
    one INSERT OR IGNORE left with the rows of that alias overwritten. *)
Lemma add_vehicle_transaction_inv E vid m o r a meta w action w' :
  Dev_app.add_vehicle_transaction E vid m o r a meta w = (inr action, w') ->
  action = "updated" /\
  vehicles (disk (conn w')) =
    map (fun x => if bool_decide (v_vehicle_id x = vid)
                  then Dev_app.overwrite E m o r a x else x)
        (ensured E vid m o r a (view (conn w))).
Proof.
  unfold Dev_app.add_vehicle_transaction. intros H.
  apply bind_inv in H as [(e & _ & He)|(rc0 & w1 & Hx & H)]; [discriminate|].
  apply execute_inv in Hx as [_ Hv1]. destruct (Hv1 rc0 eq_refl) as (d1 & Hs1 & Hw1).
  clear Hv1. pose proof (insert_vehicle_ignore_inv _ _ _ _ _ Hs1) as (Hd1 & Hc1 & _).
  cbn [v_vehicle_id] in Hd1.
  assert (Hens : vehicles d1 = ensured E vid m o r a (view (conn w))).
  { rewrite Hd1. unfold ensured. reflexivity. }
  apply bind_inv in H as [(e & _ & He)|(existing & w2 & Hq & H)]; [discriminate|].
  apply query_inv in Hq as (_ & Hw2 & Hq). specialize (Hq existing eq_refl).
  rewrite Hw1 in Hq, Hw2.
  destruct (has_columns _ (vehicles_columns d1)); [|discriminate].
  injection Hq as Hq.
  destruct existing as [row|].
  2:{ exfalso. symmetry in Hq.
      destruct (ensured_has_alias E vid m o r a (view (conn w))) as (row & Hin & Hv).
      rewrite <- Hens in Hin.
      destruct (by_vehicle_id_some vid d1) as (x & Hx & _); [eauto|]. congruence. }
  apply bind_inv in H as [(e & _ & He)|(action' & w3 & Ha & H)]; [discriminate|].
  apply bind_inv in Ha as [(e & _ & He)|(rc1 & w4 & Hx & Ha)]; [discriminate|].
  injection Ha as <- <-.
  apply execute_inv in Hx as [_ Hv3]. destruct (Hv3 rc1 eq_refl) as (d2 & Hs2 & Hw3).
  clear Hv3. rewrite Hw2 in Hs2. apply update_vehicles_inv in Hs2 as [Hd2 _].
  apply bind_inv in H as [(e & _ & He)|(rc2 & w5 & Hx & H)]; [discriminate|].
  apply execute_inv in Hx as [_ Hv4]. destruct (Hv4 rc2 eq_refl) as (d3 & Hs3 & Hw5).
  clear Hv4. rewrite Hw3 in Hs3. apply insert_event_inv in Hs3.
  apply bind_inv in H as [(e & _ & He)|(u & w6 & Hc & H)]; [discriminate|].
  apply commit_inv in Hc as [(e & He & _)|(_ & Hdisk & _)]; [discriminate|].
  injection H as <- <-.
  split; [reflexivity|].
  rewrite Hdisk, Hw5, Hs3, Hd2, <- Hens. reflexivity.
Qed.

Lemma stripped_inv data key w r w' :
  Dev_app.stripped data key w = (r, w') ->
  w' = w /\ (forall s, r = inr s -> dev_field data key = Some s).
Proof.
  unfold Dev_app.stripped, dev_field.
  destruct (Py.or_ _ _); intros [= <- <-]; (split; [reflexivity|]); intros s' H;
    try discriminate.
  now injection H as <-.
Qed.

(** Every answer of Dev_app's [add_vehicle].  The handler never raises;
    when the body of the answer reports an action, the request was a
    JSON POST whose five text fields could be trimmed, the identifier was
    not empty, the status is 200 and the action is [updated]. *)
Lemma dev_add_vehicle_inv E req w r w' :
  Dev_app.add_vehicle E req w = (r, w') ->
  exists resp, r = inr resp /\
    (status resp = 200 \/ status resp = 400 \/ status resp = 500) /\
    (forall msg action vid, json_body resp = JAction msg action vid ->
       status resp = 200 /\ action = "updated" /\ msg = "Vehicle updated" /\
       Dev_app.method req = Dev_app.POST /\ Dev_app.is_json req = true /\ vid <> "" /\
       dev_field (Dev_app.json req) "vehicle_id" = Some vid /\
       exists m o g a,
         dev_field (Dev_app.json req) "model" = Some m /\
         dev_field (Dev_app.json req) "owner" = Some o /\
         dev_field (Dev_app.json req) "registration" = Some g /\
         dev_field (Dev_app.json req) "accident_details" = Some a /\
         vehicles (disk (conn w')) =
           map (fun x => if bool_decide (v_vehicle_id x = vid)
                         then Dev_app.overwrite E m o g a x else x)
               (ensured E vid m o g a (view (conn w)))).
Proof.
  unfold Dev_app.add_vehicle. destruct (Dev_app.method req) eqn:Hm.
  2:{ intros [= <- <-]. eexists. split; [reflexivity|]. split; [now left|].
      simpl. discriminate. }
  intros H. apply except_inv in H as (resp & -> & [H|(-> & _)]).
  2:{ eexists. split; [reflexivity|]. split; [now right; right|]. simpl. discriminate. }
  exists resp. split; [reflexivity|].
  destruct (Dev_app.is_json req) eqn:Hj; simpl negb in H; cbv iota in H.
  2:{ injection H as <- <-. split; [now right; left|]. simpl. discriminate. }
  apply bind_inv in H as [(e & _ & He)|(vid & w1 & Hf1 & H)]; [discriminate|].
  apply stripped_inv in Hf1 as [-> Hf1]. specialize (Hf1 vid eq_refl).
  apply bind_inv in H as [(e & _ & He)|(m & w1 & Hf2 & H)]; [discriminate|].
  apply stripped_inv in Hf2 as [-> Hf2]. specialize (Hf2 m eq_refl).
  apply bind_inv in H as [(e & _ & He)|(o & w1 & Hf3 & H)]; [discriminate|].
  apply stripped_inv in Hf3 as [-> Hf3]. specialize (Hf3 o eq_refl).
  apply bind_inv in H as [(e & _ & He)|(g & w1 & Hf4 & H)]; [discriminate|].
  apply stripped_inv in Hf4 as [-> Hf4]. specialize (Hf4 g eq_refl).
  apply bind_inv in H as [(e & _ & He)|(a & w1 & Hf5 & H)]; [discriminate|].
  apply stripped_inv in Hf5 as [-> Hf5]. specialize (Hf5 a eq_refl).
  destruct (bool_decide (vid = "")) eqn:Hv.
  { injection H as <- <-. split; [now right; left|]. simpl. discriminate. }
  apply bool_decide_eq_false in Hv.
  apply bind_inv in H as [(e & _ & He)|(action & w1 & Ht & H)]; [discriminate|].
  apply finally_close_inv in Ht as (w2 & Ht & Hdisk & _).
  apply on_exception_ok, add_vehicle_transaction_inv in Ht as [-> Hreg].
  injection H as <- <-. simpl.
  split; [now left|].
  intros msg action vid' [= <- <- <-].
  repeat split; try assumption.
  exists m, o, g, a. repeat split; try assumption. now rewrite Hdisk.
Qed.

(** C9.  Dev_app's /add_vehicle never answers 201.  Whenever its answer
    reports an action, the status is 200 and the action is [updated]; this
    includes the request for an identifier no row had, after which a row
    with that identifier is in the registry. *)
Theorem add_vehicle_always_reports_updated E req db h resp db' h' tr :
  serve (Dev_app.add_vehicle E req) db h = (resp, db', h', tr) ->
  status resp <> 201 /\
  (forall msg action vid, json_body resp = JAction msg action vid ->
     status resp = 200 /\ action = "updated" /\
     ((forall row, row ∈ vehicles db -> v_vehicle_id row <> vid) ->
      exists row, row ∈ vehicles db' /\ v_vehicle_id row = vid /\
                  row ∉ vehicles db)).
Proof.
  intros Hs. apply serve_inv in Hs as (r & w' & Hm & -> & -> & _).
  apply dev_add_vehicle_inv in Hm as (resp & -> & Hst & Hact).
  split.
  - destruct Hst as [->|[->| ->]]; discriminate.
  - intros msg action vid Hb.
    destruct (Hact msg action vid Hb)
      as (H200 & Hupd & _ & _ & _ & _ & _ & m & o & g & a & _ & _ & _ & _ & Hreg).
    split; [exact H200|]. split; [exact Hupd|].
    intros Hunseen. simpl in Hreg.
    destruct (ensured_has_alias E vid m o g a db) as (row & Hin & Hv).
    exists (Dev_app.overwrite E m o g a row). split; [|split; [exact Hv|]].
    + rewrite Hreg. apply list_elem_of_In, in_map_iff. exists row.
      rewrite (bool_decide_eq_true_2 _ Hv). split; [reflexivity|].
      now apply list_elem_of_In.
    + intros Hold. apply (Hunseen _ Hold). exact Hv.
Qed.

Lemma add_vehicle_always_reports_updated_witness :
  let out := serve (Dev_app.add_vehicle Sample.E (Sample.register " NEWCAR1 " "Kia" "none"))
                   Sample.db Sample.hub0 in
  out.1.1.1 = mk_response 200 (JAction "Vehicle updated" "updated" "NEWCAR1") /\
  exists row, row ∈ vehicles out.1.1.2 /\ v_vehicle_id row = "NEWCAR1" /\
              row ∉ vehicles Sample.db.
Proof.
  intros out. split; [reflexivity|].
  destruct (add_vehicle_always_reports_updated Sample.E
              (Sample.register " NEWCAR1 " "Kia" "none") Sample.db Sample.hub0
              out.1.1.1 out.1.1.2 out.1.2 out.2) as [_ H].
  - vm_compute. reflexivity.
  - destruct (H "Vehicle updated" "updated" "NEWCAR1" eq_refl) as (_ & _ & Hrow).
    apply Hrow. intros row Hin. simpl in Hin.
    apply elem_of_cons in Hin as [->|Hin]; [discriminate|].
    apply elem_of_cons in Hin as [->|Hin]; [discriminate|]. inversion Hin.
Defined.

Lemma insert_vehicle_do_update_inv used set row d d' rc :
  insert_vehicle used (DoUpdate set) row d = inr (d', rc) ->
  let rowid := next_rowid (vehicles_seq d) (map v_id (vehicles d)) in
  let alias := v_vehicle_id (row rowid) in
  vehicles d' =
    (if existsb (fun r => bool_decide (v_vehicle_id r = alias)) (vehicles d)
     then map (fun r => if bool_decide (v_vehicle_id r = alias) then set r else r)
              (vehicles d)
     else vehicles d ++ [row rowid]).
Proof.
  unfold insert_vehicle. destruct (has_columns _ _); [|discriminate].
  destruct (_ <? _); [discriminate|].
  destruct (existsb _ _); intros [= <- _]; reflexivity.
Qed.

(** User_app's [add_vehicle], when it answers with the identifier it
    stored: where rows have that alias, their model, owner and
    registration are replaced and nothing else is. *)
Lemma user_add_vehicle_inv E data w st msg vid w' :
  User_app.add_vehicle E data w = (inr (mk_response st (JUpserted msg vid)), w') ->
  (exists row, row ∈ vehicles (view (conn w)) /\ v_vehicle_id row = vid) ->
  st = 201 /\
  vehicles (disk (conn w')) =
    map (fun r => if bool_decide (v_vehicle_id r = vid)
                  then mk_vehicle (v_id r) (v_vehicle_id r)
                         (bind_text (Py.get_or data "model" (Py.VStr "")))
                         (bind_text (Py.get_or data "owner" (Py.VStr "")))
                         (bind_text (Py.get_or data "registration" (Py.VStr "")))
                         (v_accident_details r) (v_created_at r) (v_updated_at r)
                  else r)
        (vehicles (view (conn w))).
Proof.
  unfold User_app.add_vehicle. cbv zeta.
  destruct (bool_decide (_ = "")); [discriminate|].
  intros H (row & Hin & Hv).
  apply bind_inv in H as [(e & _ & He)|(rc & w1 & Hx & H)]; [discriminate|].
  apply execute_inv in Hx as [_ Hv1]. destruct (Hv1 rc eq_refl) as (d1 & Hs1 & Hw1).
  clear Hv1. apply insert_vehicle_do_update_inv in Hs1. cbn [v_vehicle_id] in Hs1.
  apply bind_inv in H as [(e & _ & He)|(u & w2 & Hc & H)]; [discriminate|].
  apply commit_inv in Hc as [(e & He & _)|(_ & Hdisk & _)]; [discriminate|].
  injection H as <- <- <- <-. split; [reflexivity|].
  rewrite Hdisk, Hw1, Hs1.
  assert (Hex : existsb (fun r => bool_decide (v_vehicle_id r = v_vehicle_id row))
                        (vehicles (view (conn w))) = true).
  { apply existsb_exists. exists row. split; [now apply list_elem_of_In|].
    now apply bool_decide_eq_true. }
  rewrite <- Hv. rewrite Hex. reflexivity.
Qed.

(** C5, as amended.  An upsert on an alias that a row already has keeps
    the key and the alias of that row and replaces its model, owner and
    registration.  User_app's handler leaves the summary and [created_at]
    as they were; Dev_app's handler replaces the summary too and sets
    [created_at] to the current time.  Rows of other aliases are not
    changed. *)
Theorem upsert_on_existing_alias E db h vid :
  (exists row, row ∈ vehicles db /\ v_vehicle_id row = vid) ->
  (forall data resp db' h' tr msg,
     serve (User_app.add_vehicle E data) db h = (resp, db', h', tr) ->
     json_body resp = JUpserted msg vid ->
     vehicles db' =
       map (fun r => if bool_decide (v_vehicle_id r = vid)
                     then mk_vehicle (v_id r) (v_vehicle_id r)
                            (bind_text (Py.get_or data "model" (Py.VStr "")))
                            (bind_text (Py.get_or data "owner" (Py.VStr "")))
                            (bind_text (Py.get_or data "registration" (Py.VStr "")))
                            (v_accident_details r) (v_created_at r) (v_updated_at r)
                     else r)
           (vehicles db)) /\
  (forall req resp db' h' tr msg action,
     serve (Dev_app.add_vehicle E req) db h = (resp, db', h', tr) ->
     json_body resp = JAction msg action vid ->
     exists model owner registration accident_details,
       dev_field (Dev_app.json req) "model" = Some model /\
       dev_field (Dev_app.json req) "owner" = Some owner /\
       dev_field (Dev_app.json req) "registration" = Some registration /\
       dev_field (Dev_app.json req) "accident_details" = Some accident_details /\
       vehicles db' =
         map (fun r => if bool_decide (v_vehicle_id r = vid)
                       then mk_vehicle (v_id r) (v_vehicle_id r) (Some model) (Some owner)
                              (Some registration) (Some accident_details)
                              (Some (CURRENT_TIMESTAMP E)) (v_updated_at r)
                       else r)
             (vehicles db)).
Proof.
  intros Hex. split.
  - intros data resp db' h' tr msg Hs Hb.
    apply serve_inv in Hs as (r & w' & Hm & -> & -> & _).
    destruct r as [e|[st body]]; simpl in Hb; [discriminate|]. subst body.
    apply user_add_vehicle_inv in Hm as [_ Hreg]; [exact Hreg|exact Hex].
  - intros req resp db' h' tr msg action Hs Hb.
    apply serve_inv in Hs as (r & w' & Hm & -> & -> & _).
    apply dev_add_vehicle_inv in Hm as (resp & -> & _ & Hact).
    destruct (Hact msg action vid Hb)
      as (_ & _ & _ & _ & _ & _ & _ & m & o & g & a & H1 & H2 & H3 & H4 & Hreg).
    exists m, o, g, a. repeat split; try assumption.
    rewrite Hreg. unfold ensured.
    change (view (conn (mk_world (connect db) h []))) with db.
    destruct Hex as (row & Hin & Hv).
    assert (Hexb : existsb (fun r => bool_decide (v_vehicle_id r = vid)) (vehicles db) = true).
    { apply existsb_exists. exists row. split; [now apply list_elem_of_In|].
      now apply bool_decide_eq_true. }
    rewrite Hexb. reflexivity.
Qed.

Lemma upsert_on_existing_alias_witness :
  let data : gmap string Py.value :=
    <["vehicle_id" := Py.VStr "VHL2023"]> (<["model" := Py.VStr "Audi A4"]> ∅) in
  let out := serve (User_app.add_vehicle Sample.E data) Sample.db Sample.hub0 in
  vehicles out.1.1.2 =
    [mk_vehicle 1 "VHL2023" (Some "Audi A4") (Some "") (Some "")
                (Some "No recent accidents reported.") (Some "2025-01-01 00:00:00") None;
     Sample.second].
Proof.
  intros data out.
  destruct (upsert_on_existing_alias Sample.E Sample.db Sample.hub0 "VHL2023") as [H _].
  - exists Sample.demo. split; [|reflexivity].
    apply (bool_decide_unpack _). vm_compute. exact I.
  - rewrite (H data out.1.1.1 out.1.1.2 out.1.2 out.2 "vehicle added/updated").
    + reflexivity.
    + vm_compute. reflexivity.
    + reflexivity.
Defined.

(** C5 as stated fails in each handler in one respect.  Dev_app's upsert
    on the alias of the demo vehicle replaces its creation timestamp;
    User_app's upsert on the same alias leaves its summary as it was,
    whatever the request carries. *)
Lemma upsert_frame_differs_by_handler :
  let posted : gmap string Py.value :=
    <["vehicle_id" := Py.VStr "VHL2023"]>
      (<["model" := Py.VStr "Audi A4"]> (<["accident_details" := Py.VStr "scratched"]> ∅)) in
  let dev := serve (Dev_app.add_vehicle Sample.E
                      (Dev_app.mk_request Dev_app.POST true posted))
                   Sample.db Sample.hub0 in
  let user := serve (User_app.add_vehicle Sample.E posted) Sample.db Sample.hub0 in
  map (fun r => (v_vehicle_id r, v_created_at r, v_accident_details r)) (vehicles Sample.db)
  = [("VHL2023", Some "2025-01-01 00:00:00", Some "No recent accidents reported.");
     ("TRK7", Some "2025-02-01 00:00:00", None)] /\
  status dev.1.1.1 = 200 /\
  map (fun r => (v_vehicle_id r, v_created_at r, v_accident_details r)) (vehicles dev.1.1.2)
  = [("VHL2023", Some "2025-12-09 14:30:00", Some "scratched");
     ("TRK7", Some "2025-02-01 00:00:00", None)] /\
  status user.1.1.1 = 201 /\
  map (fun r => (v_vehicle_id r, v_created_at r, v_accident_details r)) (vehicles user.1.1.2)
  = [("VHL2023", Some "2025-01-01 00:00:00", Some "No recent accidents reported.");
     ("TRK7", Some "2025-02-01 00:00:00", None)].
Proof. vm_compute. repeat split. Qed.

End Registration.

(* ===================================================================== *)
(** ** The subscription hub *)
(* ===================================================================== *)

Section Hub.
Import Sqlite Runtime Props User_app.

Lemma remove_first_elem same arr x : x ∈ remove_first same arr -> x ∈ arr.
Proof.
  induction arr as [|a arr IH]; simpl; [auto|].
  destruct (same a); intros H.
  - now apply elem_of_cons; right.
  - apply elem_of_cons in H as [->|H]; apply elem_of_cons; auto.
Qed.

Lemma remove_first_NoDup same arr : NoDup arr -> NoDup (remove_first same arr).
Proof.
  induction arr as [|a arr IH]; simpl; [auto|].
  intros Hnd. apply NoDup_cons in Hnd as [Ha Hnd].
  destruct (same a); [exact Hnd|].
  apply NoDup_cons. split; [|auto].
  intros Hin. apply Ha. eapply remove_first_elem, Hin.
Qed.

(** What the loop of [sse_publish] leaves in each queue. *)
Lemma foldl_append_lookup p arr :
  NoDup arr ->
  forall (qs : gmap nat (list payload)) q,
    foldl (append_to p) qs arr !! q =
      if decide (q ∈ arr) then Some (default [] (qs !! q) ++ [p]) else qs !! q.
Proof.
  induction arr as [|a arr IH]; intros Hnd qs q.
  - simpl. destruct (decide (q ∈ [])) as [H|_]; [inversion H|reflexivity].
  - apply NoDup_cons in Hnd as [Ha Hnd]. simpl. rewrite (IH Hnd).
    unfold append_to.
    destruct (decide (q = a)) as [->|Hne].
    + rewrite decide_False by exact Ha.
      rewrite decide_True by (apply elem_of_cons; auto).
      apply lookup_insert_eq.
    + rewrite lookup_insert_ne by congruence.
      destruct (decide (q ∈ arr)) as [Hin|Hout].
      * rewrite decide_True by (apply elem_of_cons; auto). reflexivity.
      * rewrite decide_False; [reflexivity|].
        intros H. apply elem_of_cons in H as [?|?]; contradiction.
Qed.

Lemma foldl_append_is_Some p arr (qs : gmap nat (list payload)) q :
  is_Some (qs !! q) -> is_Some (foldl (append_to p) qs arr !! q).
Proof.
  revert qs. induction arr as [|a arr IH]; intros qs H; [exact H|].
  simpl. apply IH. unfold append_to. apply lookup_insert_is_Some'. now right.
Qed.

Lemma hub_wf_start : hub_wf (mk_hub ∅ ∅ 0).
Proof.
  repeat split; intros; simpl in *;
    match goal with H : ∅ !! _ = Some _ |- _ => rewrite lookup_empty in H; discriminate end.
Qed.

Lemma hub_wf_subscribe vid h : hub_wf h -> hub_wf (sse_subscribe vid h).2.
Proof.
  intros (H1 & H2 & H3). unfold sse_subscribe, hub_wf. simpl.
  assert (Hold : forall q, q ∈ default [] (subscribers h !! vid) ->
                   (q < next_queue h)%nat /\ is_Some (queues h !! q)).
  { intros q Hq. destruct (subscribers h !! vid) as [arr|] eqn:Ha; [|inversion Hq].
    now apply (H1 vid arr q Ha). }
  assert (Hfresh : forall k arr, subscribers h !! k = Some arr -> next_queue h ∉ arr).
  { intros k arr Ha Hin. apply (H1 k arr _ Ha) in Hin as [Hlt _]. lia. }
  split; [|split].
  - intros k arr q Hk Hq.
    assert (Hcase : q = next_queue h \/ ((q < next_queue h)%nat /\ is_Some (queues h !! q))).
    { destruct (decide (vid = k)) as [<-|Hne].
      - rewrite lookup_insert_eq in Hk. injection Hk as <-.
        apply elem_of_app in Hq as [Hq|Hq]; [right; now apply Hold|].
        apply list_elem_of_singleton in Hq. now left.
      - rewrite lookup_insert_ne in Hk by exact Hne. right. now apply (H1 _ _ _ Hk). }
    destruct Hcase as [->|[Hlt Hsome]].
    + split; [lia|]. apply lookup_insert_is_Some'. now left.
    + split; [lia|]. apply lookup_insert_is_Some'. now right.
  - intros k arr Hk.
    destruct (decide (vid = k)) as [<-|Hne].
    + rewrite lookup_insert_eq in Hk. injection Hk as <-.
      apply NoDup_app. split; [|split; [|apply NoDup_singleton]].
      * destruct (subscribers h !! vid) as [arr0|] eqn:Ha; [eauto|apply NoDup_nil_2].
      * intros x Hx Hy. apply list_elem_of_singleton in Hy. subst x.
        apply Hold in Hx as [Hlt _]. lia.
    + rewrite lookup_insert_ne in Hk by exact Hne. eauto.
  - intros k1 k2 arr1 arr2 q Hk1 Hk2 Hq1 Hq2.
    destruct (decide (vid = k1)) as [<-|Hne1]; destruct (decide (vid = k2)) as [<-|Hne2];
      [reflexivity|..].
    + exfalso. rewrite lookup_insert_eq in Hk1. injection Hk1 as <-.
      rewrite lookup_insert_ne in Hk2 by exact Hne2.
      apply elem_of_app in Hq1 as [Hq1|Hq1].
      * destruct (subscribers h !! vid) as [arr0|] eqn:Ha; [|inversion Hq1].
        apply Hne2. eapply H3; eauto.
      * apply list_elem_of_singleton in Hq1. subst q. exact (Hfresh _ _ Hk2 Hq2).
    + exfalso. rewrite lookup_insert_eq in Hk2. injection Hk2 as <-.
      rewrite lookup_insert_ne in Hk1 by exact Hne1.
      apply elem_of_app in Hq2 as [Hq2|Hq2].
      * destruct (subscribers h !! vid) as [arr0|] eqn:Ha; [|inversion Hq2].
        apply Hne1. eapply H3; eauto.
      * apply list_elem_of_singleton in Hq2. subst q. exact (Hfresh _ _ Hk1 Hq1).
    + rewrite lookup_insert_ne in Hk1 by exact Hne1.
      rewrite lookup_insert_ne in Hk2 by exact Hne2. eauto.
Qed.

Lemma hub_wf_unsubscribe vid q h : hub_wf h -> hub_wf (sse_unsubscribe vid q h).
Proof.
  intros Hwf. pose proof Hwf as (H1 & H2 & H3). unfold sse_unsubscribe.
  destruct (subscribers h !! vid) as [arr|] eqn:Ha; [|exact Hwf].
  destruct (_ && _); [|exact Hwf].
  assert (Hsub : forall k arr', <[vid := remove_first (same_queue h q) arr]> (subscribers h) !! k
                                = Some arr' ->
                 exists arr0, subscribers h !! k = Some arr0 /\
                              (forall x, x ∈ arr' -> x ∈ arr0) /\ (NoDup arr0 -> NoDup arr')).
  { intros k arr' Hk. destruct (decide (vid = k)) as [<-|Hne].
    - rewrite lookup_insert_eq in Hk. injection Hk as <-. exists arr.
      split; [exact Ha|]. split; [apply remove_first_elem|apply remove_first_NoDup].
    - rewrite lookup_insert_ne in Hk by exact Hne. exists arr'. auto. }
  unfold hub_wf. simpl. split; [|split].
  - intros k arr' x Hk Hx.
    destruct (Hsub _ _ Hk) as (arr0 & Hk0 & Hin & _). now apply (H1 _ _ _ Hk0), Hin.
  - intros k arr' Hk. destruct (Hsub _ _ Hk) as (arr0 & Hk0 & _ & Hnd). eauto.
  - intros k1 k2 arr1 arr2 x Hk1 Hk2 Hx1 Hx2.
    destruct (Hsub _ _ Hk1) as (a1 & Ha1 & Hin1 & _).
    destruct (Hsub _ _ Hk2) as (a2 & Ha2 & Hin2 & _). eauto.
Qed.

Lemma hub_wf_publish vid p h : hub_wf h -> hub_wf (sse_publish vid p h).
Proof.
  intros (H1 & H2 & H3). unfold sse_publish, hub_wf. simpl.
  split; [|split; [exact H2|exact H3]].
  intros k arr q Hk Hq. destruct (H1 _ _ _ Hk Hq) as [Hlt Hsome].
  split; [exact Hlt|]. now apply foldl_append_is_Some.
Qed.

Lemma hub_wf_advance s h : hub_wf h -> hub_wf (advance s h).2.
Proof.
  intros Hwf. pose proof Hwf as (H1 & H2 & H3).
  assert (Hpoll : forall n, hub_wf (poll s n h).2).
  { intros n. unfold poll. destruct (default [] (queues h !! s_q s)) as [|item rest].
    - destruct (10 <=? S n)%nat; exact Hwf.
    - unfold hub_wf. simpl. split; [|split; [exact H2|exact H3]].
      intros k arr q Hk Hq. destruct (H1 _ _ _ Hk Hq) as [Hlt Hsome].
      split; [exact Hlt|]. apply lookup_insert_is_Some'. now right. }
  unfold advance. destruct (s_gen s); auto.
Qed.

Lemma reachable_wf h : reachable h -> hub_wf h.
Proof.
  induction 1.
  - apply hub_wf_start.
  - now apply hub_wf_subscribe.
  - now apply hub_wf_unsubscribe.
  - now apply hub_wf_publish.
  - now apply hub_wf_advance.
Qed.

(** C6.  [sse_publish] appends one copy of the event to the queue of every
    handle registered under exactly the key it is given, and changes no
    other queue and no registration: a handle registered under another
    string, be it the numeric key of the same vehicle, receives nothing. *)
Theorem publish_reaches_exactly_the_registered h vid p :
  reachable h ->
  let h' := sse_publish vid p h in
  subscribers h' = subscribers h /\
  (forall q, registered h vid q ->
     exists items, queues h !! q = Some items /\ queues h' !! q = Some (items ++ [p])) /\
  (forall q, ~ registered h vid q -> queues h' !! q = queues h !! q) /\
  (forall vid' q, vid' <> vid -> registered h vid' q -> queues h' !! q = queues h !! q).
Proof.
  intros Hr h'. pose proof (reachable_wf h Hr) as (H1 & H2 & H3).
  assert (Hnd : NoDup (default [] (subscribers h !! vid))).
  { destruct (subscribers h !! vid) as [arr|] eqn:Ha; [eauto|apply NoDup_nil_2]. }
  assert (Hout : forall q, ~ registered h vid q -> queues h' !! q = queues h !! q).
  { intros q Hq. unfold h', sse_publish. simpl. rewrite (foldl_append_lookup p _ Hnd).
    now rewrite decide_False. }
  split; [reflexivity|]. split; [|split; [exact Hout|]].
  - intros q Hq. unfold registered in Hq.
    destruct (subscribers h !! vid) as [arr|] eqn:Ha; [|inversion Hq].
    destruct (H1 vid arr q Ha Hq) as [_ [items Hitems]].
    exists items. split; [exact Hitems|].
    unfold h', sse_publish. simpl. rewrite Ha. simpl.
    rewrite (foldl_append_lookup p arr (H2 _ _ Ha)).
    rewrite decide_True by exact Hq. now rewrite Hitems.
  - intros vid' q Hne Hq. apply Hout. unfold registered in *. intros Hq'.
    destruct (subscribers h !! vid') as [arr'|] eqn:Ha'; [|inversion Hq].
    destruct (subscribers h !! vid) as [arr|] eqn:Ha; [|inversion Hq'].
    apply Hne. eapply H3; eauto.
Qed.

(** One stream was opened with the key [2] and one with the alias [TRK7]
    of the same vehicle; an event published under [TRK7] reaches the
    second only. *)
Lemma publish_reaches_exactly_the_registered_witness :
  let h := (sse_subscribe "TRK7" (sse_subscribe "2" Sample.hub0).2).2 in
  let h' := sse_publish "TRK7" (Sample.alert "TRK7" "rear collision") h in
  queues h' !! 0%nat = Some [] /\
  queues h' !! 1%nat = Some [Sample.alert "TRK7" "rear collision"].
Proof.
  intros h h'.
  destruct (publish_reaches_exactly_the_registered h "TRK7"
              (Sample.alert "TRK7" "rear collision")) as (_ & Hin & _ & Hother).
  - apply reach_subscribe, reach_subscribe, reach_start.
  - split.
    + fold h' in Hother. rewrite (Hother "2" 0%nat); [reflexivity|discriminate|].
      unfold registered. apply (bool_decide_unpack _). vm_compute. exact I.
    + destruct (Hin 1%nat) as (items & Hitems & Hq).
      * unfold registered. apply (bool_decide_unpack _). vm_compute. exact I.
      * fold h' in Hq. rewrite Hq. vm_compute in Hitems. injection Hitems as <-.
        reflexivity.
Defined.

(** A session sends the connection acknowledgement before anything else. *)
Lemma first_frame_is_the_acknowledgement s h :
  s_gen s = Created ->
  s_sent (advance s h).1 = s_sent s ++ [Connected (s_vid s)] /\ (advance s h).2 = h.
Proof. intros Hg. unfold advance. rewrite Hg. split; reflexivity. Qed.

(** A started session that finds its queue not empty sends the oldest
    item and keeps the rest in their order. *)
Lemma oldest_item_is_sent_next s h n item rest :
  s_gen s = AtYield n \/ s_gen s = Sleeping n ->
  queues h !! s_q s = Some (item :: rest) ->
  s_sent (advance s h).1 = s_sent s ++ [Data item] /\
  queues (advance s h).2 !! s_q s = Some rest /\
  subscribers (advance s h).2 = subscribers h.
Proof.
  intros Hg Hq. unfold advance, poll.
  destruct Hg as [-> | ->]; rewrite Hq; simpl;
    (split; [reflexivity|split; [apply lookup_insert_eq|reflexivity]]).
Qed.

(** The scenario of one session: the stream is opened, one event is
    published under its key, and the session sends the connection
    acknowledgement and then that event. *)
Example one_session_receives_ack_then_event :
  let '(a, h1) := stream_vehicle "VHL2023" Sample.hub0 in
  let h2 := sse_publish "VHL2023" (Sample.alert "VHL2023" "rear collision") h1 in
  let '(a1, h3) := advance a h2 in
  let '(a2, h4) := advance a1 h3 in
  let '(a3, h5) := advance a2 h4 in
  s_sent a1 = [Connected "VHL2023"] /\
  s_sent a3 = [Connected "VHL2023"; Data (Sample.alert "VHL2023" "rear collision")] /\
  let '(a4, h6) := close_stream a2 h5 in
  subscribers h6 !! "VHL2023" = Some [].
Proof. vm_compute. repeat split. Qed.

(** C7.  Two sessions stream the same vehicle and both have sent their
    acknowledgement; their queues are empty, hence equal as lists.  The
    second session ends: [sse_unsubscribe] looks its queue up by equality
    and removes the first equal one, which is the queue of the first
    session.  The handle of the closed session stays registered, the open
    session has lost its registration, and an event published afterwards
    goes to the queue nobody reads: the open session never sends it. *)
Theorem closing_one_stream_unsubscribes_another :
  let '(a, h1) := stream_vehicle "VHL2023" Sample.hub0 in
  let '(b, h2) := stream_vehicle "VHL2023" h1 in
  let '(a1, h3) := advance a h2 in
  let '(b1, h4) := advance b h3 in
  let '(b2, h5) := close_stream b1 h4 in
  let h6 := sse_publish "VHL2023" (Sample.alert "VHL2023" "rear collision") h5 in
  let '(a2, h7) := advance a1 h6 in
  s_q a = 0%nat /\ s_q b = 1%nat /\
  subscribers h4 !! "VHL2023" = Some [0%nat; 1%nat] /\
  s_gen b2 = Finished /\ s_gen a1 = AtYield 0 /\
  subscribers h5 !! "VHL2023" = Some [1%nat] /\
  queues h6 !! 0%nat = Some [] /\
  queues h6 !! 1%nat = Some [Sample.alert "VHL2023" "rear collision"] /\
  s_sent a2 = [Connected "VHL2023"].
Proof. vm_compute. repeat split. Qed.

End Hub.

(* ===================================================================== *)
(** ** What a request can and cannot do to the file *)
(* ===================================================================== *)

Section Frames.
Import Sqlite Runtime Props Invariants.

Lemma clean_ret {A} (a : A) : clean (ret a).
Proof. intros w r w' H. inversion H. apply untouched_refl. Qed.

Lemma clean_raise {A} e : clean (@raise A e).
Proof. intros w r w' H. inversion H. apply untouched_refl. Qed.

Lemma clean_bind {A B} (m : io A) (k : A -> io B) :
  clean m -> (forall a, clean (k a)) -> clean (bind m k).
Proof.
  intros Hm Hk w r w' H.
  apply bind_inv in H as [(e & H & _) | (a & w1 & H & H')].
  - eapply Hm; eauto.
  - eapply untouched_trans; [eapply Hm | eapply Hk]; eauto.
Qed.

Lemma clean_query {A} E (q : database -> exn + A) : clean (query E q).
Proof. intros w r w' H. apply query_inv in H. tauto. Qed.

Lemma clean_execute E ps stmt : clean (execute E ps stmt).
Proof. intros w r w' H. apply execute_inv in H. tauto. Qed.

Lemma clean_begin E : clean (begin E).
Proof. intros w r w' H. apply begin_inv in H. tauto. Qed.

Lemma clean_finally_close {A} (m : io A) : clean m -> clean (finally m close_db).
Proof.
  intros Hm w r w' H.
  apply finally_close_inv in H as (w1 & H & Hd & Hs & Ht).
  apply Hm in H as (H1 & H2 & H3).
  unfold untouched. rewrite Hd, Hs, Ht. auto.
Qed.

Lemma clean_fails_clean {A} (m : io A) : clean m -> fails_clean m.
Proof. intros H w e w' Hr. eapply H; eauto. Qed.

Lemma fails_clean_bind {A B} (m : io A) (k : A -> io B) :
  clean m -> (forall a, fails_clean (k a)) -> fails_clean (bind m k).
Proof.
  intros Hm Hk w e w' H.
  apply bind_inv in H as [(e' & H & _) | (a & w1 & H & H')].
  - eapply Hm; eauto.
  - eapply untouched_trans; [eapply Hm | eapply Hk]; eauto.
Qed.

Lemma fails_clean_commit_then {A} E (k : io A) :
  (forall w r w', k w = (r, w') -> exists a, r = inr a) ->
  fails_clean (bind (commit E) (fun _ => k)).
Proof.
  intros Hk w e w' H.
  apply bind_inv in H as [(e' & H & _) | (a & w1 & H & H')].
  - apply commit_inv in H as [(e'' & _ & H) | (H & _)]; [exact H | discriminate].
  - apply Hk in H' as (x & Hx). discriminate.
Qed.

(** The resolver only reads. *)
Lemma find_vehicle_by_identifier_clean E ident :
  clean (User_app.find_vehicle_by_identifier E ident).
Proof.
  unfold User_app.find_vehicle_by_identifier.
  assert (Hgo : clean
    (if bool_decide (Py.strip (Py.str ident) = "") then ret None
     else
       let* row := query E (fun d => inr (vehicle_by_vehicle_id (Py.strip (Py.str ident)) d)) in
       match row with
       | Some r => ret (Some (r, "vehicle_id"))
       | None =>
           match Py.int (Py.strip (Py.str ident)) with
           | None => ret None
           | Some iid =>
               let* row := query E (vehicle_by_id iid) in
               match row with
               | Some r => ret (Some (r, "id"))
               | None => ret None
               end
           end
       end)).
  { destruct (bool_decide _); [apply clean_ret|].
    apply clean_bind; [apply clean_query|].
    intros [r|]; [apply clean_ret|].
    destruct (Py.int _); [|apply clean_ret].
    apply clean_bind; [apply clean_query|].
    intros [r|]; apply clean_ret. }
  destruct ident; first [apply clean_ret | exact Hgo].
Qed.

Lemma serve_clean m db h :
  clean m -> exists resp, serve m db h = (resp, db, h, []).
Proof.
  intros Hm. unfold serve.
  destruct (m (mk_world (connect db) h [])) as [r w] eqn:H.
  apply Hm in H as (Hd & Hs & Ht). simpl in *.
  eexists. rewrite Hd, Hs, Ht. reflexivity.
Qed.

End Frames.

(* ===================================================================== *)
(** ** The handlers that only read *)
(* ===================================================================== *)

Section Reads.
Import Sqlite Runtime Props Invariants.

Lemma get_vehicle_clean E vid : clean (User_app.get_vehicle E vid).
Proof.
  unfold User_app.get_vehicle.
  apply clean_bind; [apply find_vehicle_by_identifier_clean|].
  intros [[row used]|]; apply clean_ret.
Qed.

Lemma validate_id_clean E data : clean (User_app.validate_id E data).
Proof.
  unfold User_app.validate_id.
  destruct (bool_decide _); [apply clean_ret|].
  apply clean_bind; [apply find_vehicle_by_identifier_clean|].
  intros [[row used]|]; [|apply clean_ret].
  apply clean_bind; [|intros; apply clean_ret].
  destruct (User_app.dedupe _); [apply clean_ret | apply clean_query].
Qed.

Lemma get_vehicle_events_clean E sorter vid :
  clean (User_app.get_vehicle_events E sorter vid).
Proof.
  unfold User_app.get_vehicle_events.
  apply clean_bind; [apply find_vehicle_by_identifier_clean|].
  intros [found|]; [apply clean_raise | apply clean_query].
Qed.

Lemma list_events_clean E sorter v : clean (Dev_app.list_events E sorter v).
Proof.
  unfold Dev_app.list_events.
  apply clean_finally_close.
  destruct v as [v|]; [destruct (bool_decide _)|]; apply clean_query.
Qed.

(** X1. The read endpoints never write: whatever the request and whichever
    statements the storage engine fails, GET /vehicle/<vid> and POST
    /validateID leave the file and the hub exactly as they were and have
    no effect (no commit, no rollback, no publish); the two event listings
    (/vehicle/<vid>/events of User_app and /events of Dev_app) commit and
    publish nothing either, whether they return rows or raise. *)
Theorem read_handlers_never_write E sorter db h :
  (forall vid, exists resp, serve (User_app.get_vehicle E vid) db h = (resp, db, h, [])) /\
  (forall data, exists resp, serve (User_app.validate_id E data) db h = (resp, db, h, [])) /\
  (forall vid, clean (User_app.get_vehicle_events E sorter vid)) /\
  (forall v, clean (Dev_app.list_events E sorter v)).
Proof.
  split; [|split; [|split]].
  - intros vid. apply serve_clean, get_vehicle_clean.
  - intros data. apply serve_clean, validate_id_clean.
  - intros vid. apply get_vehicle_events_clean.
  - intros v. apply list_events_clean.
Qed.

End Reads.

(* ===================================================================== *)
(** ** The registry and the event log only grow *)
(* ===================================================================== *)

Section Keeping.
Import Sqlite Runtime Props Invariants.

Variable R : database -> database -> Prop.
Hypothesis R_trans : forall d0 d1 d2, R d0 d1 -> R d1 d2 -> R d0 d2.

Lemma keeps_ret {A} (a : A) : keeps R (ret a).
Proof. intros d0 w r w' H. inversion H. auto. Qed.

Lemma keeps_raise {A} e : keeps R (@raise A e).
Proof. intros d0 w r w' H. inversion H. auto. Qed.

Lemma keeps_bind {A B} (m : io A) (k : A -> io B) :
  keeps R m -> (forall a, keeps R (k a)) -> keeps R (bind m k).
Proof.
  intros Hm Hk d0 w r w' H Hd Hv.
  apply bind_inv in H as [(e & H & _) | (a & w1 & H & H')].
  - eapply Hm; eauto.
  - destruct (Hm d0 w _ _ H Hd Hv) as [Hd1 Hv1]. eapply Hk; eauto.
Qed.

Lemma keeps_query {A} E (q : database -> exn + A) : keeps R (query E q).
Proof.
  intros d0 w r w' H Hd Hv. unfold query in H.
  destruct (faults E _); [|destruct (q _)]; inversion H; subst; auto.
Qed.

Lemma keeps_begin E : keeps R (begin E).
Proof.
  intros d0 w r w' H Hd Hv. unfold begin in H.
  destruct (faults E _); [|destruct (txn (conn w)) eqn:Ht]; inversion H; subst; auto;
    (split; [exact Hd|]); unfold view in *; simpl; rewrite Ht in Hv; simpl in Hv; auto.
Qed.

Lemma keeps_execute E ps stmt :
  (forall d d' rc, stmt d = inr (d', rc) -> R d d') -> keeps R (execute E ps stmt).
Proof.
  intros Hs d0 w r w' H Hd Hv. unfold execute in H.
  destruct (faults E _); [|destruct (negb _); [|destruct (stmt _) as [e|[d rc]] eqn:Hst]];
    inversion H; subst; auto.
  split; [exact Hd|]. unfold view. simpl. eapply R_trans; [exact Hv|]. eapply Hs; eauto.
Qed.

Lemma keeps_commit E : keeps R (commit E).
Proof.
  intros d0 w r w' H Hd Hv. unfold commit in H.
  destruct (faults E _); inversion H; subst; auto.
Qed.

Lemma keeps_rollback : keeps R rollback.
Proof. intros d0 w r w' H Hd Hv. inversion H; subst; auto. Qed.

Lemma keeps_close_db : keeps R close_db.
Proof. intros d0 w r w' H Hd Hv. inversion H; subst; auto. Qed.

Lemma keeps_publish E v p : keeps R (User_app.publish E v p).
Proof.
  intros d0 w r w' H Hd Hv. unfold User_app.publish in H.
  destruct (publish_fault E); inversion H; subst; auto.
Qed.

Lemma keeps_on_exception {A} (m : io A) h :
  keeps R m -> keeps R h -> keeps R (on_exception m h).
Proof.
  intros Hm Hh d0 w r w' H Hd Hv. unfold on_exception in H.
  destruct (m w) as [[e|a] w1] eqn:Hmw.
  - destruct (Hm d0 w _ _ Hmw Hd Hv) as [Hd1 Hv1].
    destruct (h w1) as [[e'|u] w2] eqn:Hhw; inversion H; subst; eapply Hh; eauto.
  - inversion H; subst. eapply Hm; eauto.
Qed.

Lemma keeps_finally {A} (m : io A) h :
  keeps R m -> keeps R h -> keeps R (finally m h).
Proof.
  intros Hm Hh d0 w r w' H Hd Hv. unfold finally in H.
  destruct (m w) as [r1 w1] eqn:Hmw.
  destruct (Hm d0 w _ _ Hmw Hd Hv) as [Hd1 Hv1].
  destruct (h w1) as [[e'|u] w2] eqn:Hhw; inversion H; subst; eapply Hh; eauto.
Qed.

Lemma keeps_except {A} (m : io A) a : keeps R m -> keeps R (except m a).
Proof.
  intros Hm d0 w r w' H Hd Hv. unfold except in H.
  destruct (m w) as [[e|x] w1] eqn:Hmw; inversion H; subst; eapply Hm; eauto.
Qed.

Lemma keeps_stripped data key : keeps R (Dev_app.stripped data key).
Proof.
  unfold Dev_app.stripped. destruct (Py.or_ _ _); first [apply keeps_ret | apply keeps_raise].
Qed.

Lemma serve_keeps m db h : keeps R m -> R db db -> R db (file_after (serve m db h)).
Proof.
  intros Hm Hr. unfold file_after, serve.
  destruct (m (mk_world (connect db) h [])) as [r w] eqn:H.
  apply (Hm db) in H as [Hd _]; simpl; auto.
Qed.

End Keeping.

Section Growth.
Import Sqlite Runtime Props Invariants.

Lemma grown_refl d : grown d d.
Proof. unfold grown. repeat split; reflexivity. Qed.

Lemma grown_trans d0 d1 d2 : grown d0 d1 -> grown d1 d2 -> grown d0 d2.
Proof.
  intros (A1 & B1 & C1 & D1) (A2 & B2 & C2 & D2). unfold grown.
  rewrite A2, B2. repeat split; auto; etrans; eauto.
Qed.

Lemma safe_refl d : safe d d.
Proof. split; [apply grown_refl | auto]. Qed.

Lemma safe_trans d0 d1 d2 : safe d0 d1 -> safe d1 d2 -> safe d0 d2.
Proof. intros [G1 S1] [G2 S2]. split; [eapply grown_trans; eauto | auto]. Qed.

(** The constraints of [vehicles] speak of keys and aliases only. *)
Lemma integrity_keys d :
  integrity d <->
  NoDup (keys d).*1 /\ NoDup (keys d).*2 /\ Forall (fun k => fits_int64 k = true) (keys d).*1.
Proof.
  unfold integrity, keys.
  rewrite <- !list_fmap_compose. unfold compose. simpl.
  rewrite Forall_fmap. unfold compose. simpl. reflexivity.
Qed.

Lemma keys_map (hit : vehicle -> bool) (set : vehicle -> vehicle) d rows seq :
  (forall r, v_id (set r) = v_id r /\ v_vehicle_id (set r) = v_vehicle_id r) ->
  rows = map (fun r => if hit r then set r else r) (vehicles d) ->
  keys (set_vehicles d rows seq) = keys d.
Proof.
  intros Hset ->. unfold keys. simpl. rewrite map_map. apply map_ext.
  intros r. destruct (hit r); [|reflexivity].
  destruct (Hset r) as [-> ->]. reflexivity.
Qed.

Lemma safe_same_keys d d' :
  vehicles_columns d' = vehicles_columns d -> events_columns d' = events_columns d ->
  keys d' = keys d -> accident_events d' = accident_events d -> safe d d'.
Proof.
  intros Hc He Hk Ha. split.
  - unfold grown. rewrite Hc, He, Hk, Ha. repeat split; reflexivity.
  - intros [Hi Hn]. split; [|rewrite Ha; exact Hn].
    apply integrity_keys. rewrite Hk. apply integrity_keys. exact Hi.
Qed.

Lemma update_vehicles_safe used hit set d d' rc :
  (forall r, v_id (set r) = v_id r /\ v_vehicle_id (set r) = v_vehicle_id r) ->
  update_vehicles used hit set d = inr (d', rc) -> safe d d'.
Proof.
  intros Hset H. apply update_vehicles_inv in H as [-> _].
  apply safe_same_keys; try reflexivity. eapply keys_map; eauto.
Qed.

Lemma next_rowid_positive seq ids : 0 < next_rowid seq ids.
Proof.
  unfold next_rowid.
  assert (0 <= foldr Z.max 0 ids) by (induction ids; simpl; lia). lia.
Qed.

Lemma insert_event_safe used row d d' rc :
  (forall z, e_id (row z) = z) ->
  insert_event used row d = inr (d', rc) -> safe d d'.
Proof.
  intros Hrow H. pose proof (insert_event_inv _ _ _ _ _ H) as ->.
  split.
  - unfold grown, keys. simpl. repeat split; try reflexivity.
    apply prefix_app_r. reflexivity.
  - intros [Hi Hn]. split; [exact Hi|]. simpl.
    rewrite map_app. simpl. rewrite Hrow.
    apply NoDup_app. split; [exact Hn|]. split; [|apply NoDup_singleton].
    intros x Hx Hx'. apply list_elem_of_singleton in Hx'. subst x.
    apply (next_rowid_above (events_seq d)) in Hx. lia.
Qed.

Lemma insert_vehicle_inv used oc row d d' rc :
  insert_vehicle used oc row d = inr (d', rc) ->
  let rowid := next_rowid (vehicles_seq d) (map v_id (vehicles d)) in
  let alias := v_vehicle_id (row rowid) in
  rowid <= max_int64 /\
  d' = set_vehicles d (vehicles d') rowid /\
  ((existsb (fun r => bool_decide (v_vehicle_id r = alias)) (vehicles d) = false /\
    vehicles d' = vehicles d ++ [row rowid]) \/
   (existsb (fun r => bool_decide (v_vehicle_id r = alias)) (vehicles d) = true /\
    ((oc = Ignore /\ vehicles d' = vehicles d) \/
     (exists set, oc = DoUpdate set /\
        vehicles d' =
          map (fun r => if bool_decide (v_vehicle_id r = alias) then set r else r)
              (vehicles d))))).
Proof.
  intros H rowid alias. unfold insert_vehicle in H.
  destruct (has_columns _ _); [|discriminate].
  fold rowid in H. fold alias in H.
  destruct (max_int64 <? rowid) eqn:Hmax; [discriminate|].
  apply Z.ltb_ge in Hmax. split; [exact Hmax|].
  destruct (existsb _ _) eqn:Hex.
  - destruct oc as [| |set]; [discriminate| |]; inversion H; subst; simpl;
      (split; [reflexivity|]); right; (split; [reflexivity|]); [left|right]; eauto.
  - inversion H; subst; simpl. split; [reflexivity|]. left. auto.
Qed.

Lemma insert_vehicle_safe used oc row d d' rc :
  gentle oc ->
  (forall z, v_id (row z) = z) ->
  insert_vehicle used oc row d = inr (d', rc) -> safe d d'.
Proof.
  intros Hoc Hrow H. apply insert_vehicle_inv in H as (Hmax & Hd' & Hcases).
  set (rowid := next_rowid (vehicles_seq d) (map v_id (vehicles d))) in *.
  destruct Hcases as [[Hex Hv] | [Hex [[-> Hv] | (set & -> & Hv)]]].
  - rewrite Hd', Hv. split.
    + unfold grown, keys. simpl. repeat split; try reflexivity.
      rewrite map_app. apply prefix_app_r. reflexivity.
    + intros [Hi Hn]. split; [|exact Hn].
      apply integrity_keys. apply integrity_keys in Hi as (H1 & H2 & H3).
      unfold keys in *. simpl. rewrite !fmap_app. simpl. rewrite Hrow.
      rewrite <- !list_fmap_compose in *. unfold compose in *. simpl in *.
      split; [|split].
      * apply NoDup_app. split; [exact H1|]. split; [|apply NoDup_singleton].
        intros x Hx Hx'. apply list_elem_of_singleton in Hx'. subst x.
        assert (rowid < rowid) as Hlt
          by (apply (next_rowid_above (vehicles_seq d) (map v_id (vehicles d))); exact Hx).
        lia.
      * apply NoDup_app. split; [exact H2|]. split; [|apply NoDup_singleton].
        intros x Hx Hx'. apply list_elem_of_singleton in Hx'. subst x.
        apply list_elem_of_fmap in Hx as (r & Hr & Hin).
        assert (existsb (fun r0 => bool_decide (v_vehicle_id r0 = v_vehicle_id (row rowid)))
                        (vehicles d) = true) as Hc.
        { apply existsb_exists. exists r. split; [apply list_elem_of_In; exact Hin|].
          apply bool_decide_eq_true. auto. }
        congruence.
      * apply Forall_app. split; [exact H3|]. apply Forall_singleton.
        unfold fits_int64. pose proof (next_rowid_positive (vehicles_seq d)
                                         (map v_id (vehicles d))) as Hp.
        fold rowid in Hp. unfold min_int64, max_int64 in *.
        apply andb_true_intro. split; apply Z.leb_le; lia.
  - rewrite Hd', Hv. apply safe_same_keys; reflexivity.
  - rewrite Hd'. apply safe_same_keys; try reflexivity.
    rewrite Hv. eapply keys_map; eauto.
Qed.

End Growth.

Ltac keep :=
  repeat first
    [ apply keeps_ret | apply keeps_raise | apply keeps_begin | apply keeps_commit
    | apply keeps_rollback | apply keeps_close_db | apply keeps_publish
    | apply keeps_query | apply keeps_stripped
    | apply keeps_bind; [|intros ?]
    | apply keeps_finally | apply keeps_on_exception | apply keeps_except
    | apply keeps_execute; [exact safe_trans|] ].

Ltac statement_safe :=
  let H := fresh "H" in
  intros ? ? ? H;
  first
    [ eapply insert_event_safe; [|exact H]; reflexivity
    | eapply update_vehicles_safe; [|exact H]; intros ?; split; reflexivity
    | eapply insert_vehicle_safe; [| |exact H];
      [simpl; try exact I; intros ?; split; reflexivity | reflexivity] ].

Section WriteHandlers.
Import Sqlite Runtime Props Invariants.

Lemma hardware_event_keeps E req : keeps safe (User_app.hardware_event E req).
Proof.
  unfold User_app.hardware_event.
  destruct (negb _); [apply keeps_ret|].
  destruct (bool_decide _); [apply keeps_ret|].
  keep; try statement_safe.
  - destruct (_ =? 0); [destruct (Py.int _)|]; keep. statement_safe.
  - destruct (_ =? 0); keep. statement_safe.
Qed.

Lemma user_add_vehicle_keeps E data : keeps safe (User_app.add_vehicle E data).
Proof.
  unfold User_app.add_vehicle.
  destruct (bool_decide _); keep. statement_safe.
Qed.

Lemma dev_add_vehicle_keeps E req : keeps safe (Dev_app.add_vehicle E req).
Proof.
  unfold Dev_app.add_vehicle.
  destruct (Dev_app.method req); [|apply keeps_ret].
  apply keeps_except.
  destruct (negb _); keep.
  destruct (bool_decide _); keep; try statement_safe.
  match goal with |- keeps _ (match ?x with _ => _ end) => destruct x end; keep.
  statement_safe.
Qed.

Lemma request_writes_safe d d' : request_writes d d' -> safe d d'.
Proof.
  intros [E req db h | E data db h | E req db h]; apply serve_keeps;
    auto using hardware_event_keeps, user_add_vehicle_keeps, dev_add_vehicle_keeps,
               safe_refl.
Qed.

(** X2. The registry and the event log only grow.  Whatever one request to
    a writing handler (/hardware/event, User_app's /add_vehicle, Dev_app's
    /add_vehicle) does, whether it succeeds or fails and whichever
    statements the storage engine fails: the tables keep their columns,
    every vehicle that was in the registry is still there at the same
    position with the same key and the same alias (new rows are added at
    the end only), and every row of the event log is still there unchanged
    (rows are appended only; no handler updates or deletes an event). *)
Theorem registry_and_log_only_grow d d' :
  request_writes d d' ->
  vehicles_columns d' = vehicles_columns d /\
  events_columns d' = events_columns d /\
  keys d `prefix_of` keys d' /\
  accident_events d `prefix_of` accident_events d'.
Proof. intros H. apply request_writes_safe in H as [H _]. exact H. Qed.

(** X3. The table constraints are an invariant of the writing handlers: if
    keys are unique 64-bit integers and aliases are unique in [vehicles]
    and the ids of [accident_events] are unique, they still are after any
    request to /hardware/event or to one of the two /add_vehicle, for any
    plan of storage failures.  A new row always receives a key above every
    key in use, and a row is only added under an alias no row has. *)
Theorem constraints_are_invariant d d' :
  request_writes d d' ->
  integrity d -> NoDup (map e_id (accident_events d)) ->
  integrity d' /\ NoDup (map e_id (accident_events d')).
Proof.
  intros H Hi Hn. apply request_writes_safe in H as [_ H]. apply H. split; assumption.
Qed.

Lemma registry_and_log_only_grow_witness :
  let d := Sample.db in
  let d' := file_after (serve (User_app.hardware_event Sample.E
                                 (Sample.collision "NEW1" "side impact"))
                              d Sample.hub0) in
  request_writes d d' /\
  keys d' = keys d ++ [(3, "NEW1")] /\
  (vehicles_columns d' = vehicles_columns d /\
   events_columns d' = events_columns d /\
   keys d `prefix_of` keys d' /\
   accident_events d `prefix_of` accident_events d').
Proof.
  intros d d'.
  assert (H : request_writes d d') by apply by_hardware_event.
  split; [exact H|]. split; [vm_compute; reflexivity|].
  exact (registry_and_log_only_grow d d' H).
Defined.

Lemma constraints_are_invariant_witness :
  let d := Sample.db in
  let d' := file_after (serve (Dev_app.add_vehicle Sample.E
                                 (Sample.register "NEW2" "Tata Ace" "reported"))
                              d Sample.hub0) in
  length (vehicles d') = 3%nat /\
  (integrity d' /\ NoDup (map e_id (accident_events d'))).
Proof.
  intros d d'. split; [vm_compute; reflexivity|].
  apply (constraints_are_invariant d d').
  - apply by_dev_add_vehicle.
  - exact sample_integrity.
  - apply NoDup_nil_2.
Defined.

End WriteHandlers.

(* ===================================================================== *)
(** ** /hardware/event: who is answered what, and on which files *)
(* ===================================================================== *)

Section Reporting.
Import Sqlite Runtime Props Invariants User_app.

Lemma repository_file_has_no_updated_at d :
  repository_file d -> "updated_at" ∉ vehicles_columns d.
Proof.
  induction 1 as [| d _ IH | E d _ IH | d d' _ IH Hinit | d d' _ IH Hreq].
  - simpl. apply not_elem_of_nil.
  - destruct (init_db_never_adds_updated_at Sample.E d IH) as (H1 & _). exact H1.
  - destruct (init_db_never_adds_updated_at E d IH) as (_ & H2 & _). exact H2.
  - destruct (init_db_never_adds_updated_at Sample.E d IH) as (_ & _ & H3).
    apply H3. exact Hinit.
  - apply request_writes_safe in Hreq as [(Hc & _) _]. rewrite Hc. exact IH.
Qed.

(** X4. On every file the code of the repository can make, /hardware/event
    cannot record anything.  Start from no file; run [init_db] of
    User_app.py, of Dev_app.py and of db_init.py and serve requests to the
    writing handlers, in any order and number: the table [vehicles] never
    has a column [updated_at], which the UPDATE of [hardware_event] names.
    So every call that passes the key check and carries an identifier is
    answered 500, and the file and the hub are as before (no event row, no
    summary, nothing published). *)
Theorem hardware_event_fails_on_every_repository_file E req db h :
  repository_file db -> passes_validation E req ->
  serve (hardware_event E req) db h = (mk_response 500 JServerError, db, h, []).
Proof.
  intros Hfile Hval.
  destruct (serve (hardware_event E req) db h) as [[[resp db'] h'] tr] eqn:Hs.
  apply repository_file_has_no_updated_at in Hfile.
  destruct (hardware_event_needs_updated_at _ _ _ _ _ _ _ _ Hval Hfile Hs)
    as (-> & -> & -> & ->).
  reflexivity.
Qed.

Lemma hardware_event_fails_on_every_repository_file_witness :
  let db := file_after (serve (add_vehicle Sample.E (<["vehicle_id" := Py.VStr "TRK7"]> ∅))
                              (init_db (Db_init.init_db Sample.E empty_file)).2
                              Sample.hub0) in
  map v_vehicle_id (vehicles db) = ["VHL2023"; "TRK7"] /\
  serve (hardware_event Sample.E (Sample.collision "TRK7" "rear collision")) db Sample.hub0
  = (mk_response 500 JServerError, db, Sample.hub0, []).
Proof.
  intros db. split; [vm_compute; reflexivity|].
  apply hardware_event_fails_on_every_repository_file.
  - apply file_request with (d := (init_db (Db_init.init_db Sample.E empty_file)).2).
    + apply file_user_init, file_db_init, file_absent.
    + apply by_user_add_vehicle.
  - split; [reflexivity | discriminate].
Defined.

Lemma hardware_event_unauthorized E req db h :
  api_key req <> Some (HW_API_KEY E) ->
  serve (hardware_event E req) db h
  = (mk_response 401 (JMessage false "unauthorized"), db, h, []).
Proof.
  intros Hk. unfold serve, hardware_event.
  rewrite bool_decide_eq_false_2 by exact Hk. reflexivity.
Qed.

Lemma hardware_event_without_identifier E req db h :
  api_key req = Some (HW_API_KEY E) -> vid_raw req = Py.VNone ->
  serve (hardware_event E req) db h
  = (mk_response 400 (JMessage false "vehicleID required"), db, h, []).
Proof.
  intros Hk Hv. unfold serve, hardware_event.
  rewrite bool_decide_eq_true_2 by exact Hk.
  rewrite bool_decide_eq_true_2 by exact Hv. reflexivity.
Qed.

(** X5. The status of /hardware/event tells the caller what happened.  For
    every request, file, hub and plan of failures: the answer is 401
    exactly when the key (header X-API-Key, else the query parameter
    api_key) is not the configured one, and this is decided before the body
    is looked at; it is 400 exactly when the key is right and neither
    vehicleID nor vehicle_id is given; otherwise it is 201 or 500.  A 401
    or 400 leaves the file and the hub as they are and has no effect, and
    nothing is ever published unless the answer is 201. *)
Theorem hardware_event_status E req db h resp db' h' tr :
  serve (hardware_event E req) db h = (resp, db', h', tr) ->
  (status resp = 401 <-> api_key req <> Some (HW_API_KEY E)) /\
  (status resp = 400 <->
     api_key req = Some (HW_API_KEY E) /\ vid_raw req = Py.VNone) /\
  (status resp = 401 \/ status resp = 400 \/ status resp = 201 \/ status resp = 500) /\
  (status resp = 401 \/ status resp = 400 -> db' = db /\ h' = h /\ tr = []) /\
  (status resp <> 201 -> h' = h /\ forall v, Publish v ∉ tr).
Proof.
  intros Hs.
  destruct (decide (api_key req = Some (HW_API_KEY E))) as [Hk|Hk].
  2:{ rewrite (hardware_event_unauthorized E req db h Hk) in Hs.
      injection Hs as <- <- <- <-. simpl.
      split; [split; [intros _; exact Hk | reflexivity]|].
      split; [split; [discriminate | intros [Hc _]; contradiction]|].
      split; [left; reflexivity|].
      split; [auto|].
      intros _. split; [reflexivity|]. intros v Hin. inversion Hin. }
  destruct (decide (vid_raw req = Py.VNone)) as [Hv|Hv].
  { rewrite (hardware_event_without_identifier E req db h Hk Hv) in Hs.
    injection Hs as <- <- <- <-. simpl.
    split; [split; [discriminate | intros Hc; contradiction]|].
    split; [split; [intros _; split; assumption | reflexivity]|].
    split; [right; left; reflexivity|].
    split; [auto|].
    intros _. split; [reflexivity|]. intros v Hin. inversion Hin. }
  assert (Hval : passes_validation E req) by (split; assumption).
  destruct (hardware_event_served _ _ _ _ _ _ _ _ Hval Hs)
    as [(-> & -> & -> & ->)|[(-> & _ & -> & _ & ->)|(-> & _ & -> & _ & ->)]]; simpl;
    (split; [split; [discriminate | tauto]|]);
    (split; [split; [discriminate | tauto]|]);
    (split; [tauto|]);
    (split; [intros [?|?]; discriminate|]).
  - intros _. split; [reflexivity|]. intros v Hin. inversion Hin.
  - intros _. split; [reflexivity|]. intros v Hin.
    apply list_elem_of_singleton in Hin. discriminate.
  - intros Hn. contradiction.
Qed.

Lemma hardware_event_status_witness :
  let req := mk_request (Some "guess") (Some "k3y") ∅ in
  let out := serve (hardware_event Sample.E req) Sample.db Sample.hub0 in
  status out.1.1.1 = 401 /\ out.1.1.2 = Sample.db /\ out.1.2 = Sample.hub0 /\ out.2 = [].
Proof.
  intros req out.
  destruct (hardware_event_status Sample.E req Sample.db Sample.hub0
              out.1.1.1 out.1.1.2 out.1.2 out.2) as (H401 & _ & _ & Hsame & _).
  - vm_compute. reflexivity.
  - assert (H : status out.1.1.1 = 401) by (apply H401; vm_compute; discriminate).
    split; [exact H|]. apply Hsame. left. exact H.
Defined.

End Reporting.

(* ===================================================================== *)
(** ** When /hardware/event succeeds *)
(* ===================================================================== *)

Section Success.
Import Sqlite Runtime Props Invariants User_app.

Lemma bind_eq {A B} (m : io A) (k : A -> io B) w a w1 :
  m w = (inr a, w1) -> bind m k w = k a w1.
Proof. intros Hm. unfold bind. rewrite Hm. reflexivity. Qed.

Lemma begin_returns E w :
  quiet E -> txn (conn w) = None ->
  exists w1, begin E w = (inr tt, w1) /\ view (conn w1) = disk (conn w).
Proof.
  intros [Hq _] Ht. unfold begin. rewrite Hq, Ht. eexists. split; reflexivity.
Qed.

Lemma execute_returns E ps stmt w d rc :
  quiet E -> forallb bindable ps = true -> stmt (view (conn w)) = inr (d, rc) ->
  exists w1, execute E ps stmt w = (inr rc, w1) /\ view (conn w1) = d.
Proof.
  intros [Hq _] Hb Hs. unfold execute. rewrite Hq, Hb, Hs. eexists. split; reflexivity.
Qed.

Lemma commit_returns E w : quiet E -> exists w1, commit E w = (inr tt, w1).
Proof. intros [Hq _]. unfold commit. rewrite Hq. eexists. reflexivity. Qed.

Lemma publish_returns E v p w : quiet E -> exists w1, publish E v p w = (inr tt, w1).
Proof. intros [_ Hq]. unfold publish. rewrite Hq. eexists. reflexivity. Qed.

Lemma insert_event_ok used row d :
  has_columns used (events_columns d) = true ->
  next_rowid (events_seq d) (map e_id (accident_events d)) <= max_int64 ->
  exists d', insert_event used row d = inr (d', 1) /\
             vehicles d' = vehicles d /\ vehicles_seq d' = vehicles_seq d /\
             vehicles_columns d' = vehicles_columns d.
Proof.
  intros Hc Hm. unfold insert_event. rewrite Hc.
  apply Z.ltb_ge in Hm. rewrite Hm. eexists. split; [reflexivity|]. simpl. auto.
Qed.

Lemma update_vehicles_ok used hit set d :
  has_columns used (vehicles_columns d) = true ->
  exists d' rc, update_vehicles used hit set d = inr (d', rc) /\
    (rc =? 0) = negb (existsb hit (vehicles d)) /\
    vehicles_columns d' = vehicles_columns d /\ vehicles_seq d' = vehicles_seq d /\
    (existsb hit (vehicles d) = false -> vehicles d' = vehicles d).
Proof.
  intros Hc. unfold update_vehicles. rewrite Hc. eexists _, _.
  split; [reflexivity|]. split; [apply rowcount_zero|]. simpl.
  split; [reflexivity|]. split; [reflexivity|]. apply map_no_hit.
Qed.

Lemma insert_vehicle_abort_ok used row d :
  has_columns used (vehicles_columns d) = true ->
  next_rowid (vehicles_seq d) (map v_id (vehicles d)) <= max_int64 ->
  (forall z, existsb (fun r => bool_decide (v_vehicle_id r = v_vehicle_id (row z)))
                     (vehicles d) = false) ->
  exists d', insert_vehicle used Abort row d = inr (d', 1).
Proof.
  intros Hc Hm Hex. unfold insert_vehicle. rewrite Hc.
  apply Z.ltb_ge in Hm. rewrite Hm, Hex. eexists. reflexivity.
Qed.

Ltac run_execute Hq d rc w2 Hr Hv :=
  match goal with
  | |- context [Runtime.bind (Runtime.execute ?E ?ps ?stmt) _ ?w] =>
      destruct (execute_returns E ps stmt w d rc Hq) as (w2 & Hr & Hv);
      [ | | rewrite (bind_eq _ _ _ _ _ Hr)]
  end.

Lemma hardware_event_returns E req w :
  quiet E -> passes_validation E req -> txn (conn w) = None ->
  has_columns ["vehicle_id"; "intensity"; "lat"; "lng"; "timestamp"; "raw_payload"]
              (events_columns (disk (conn w))) = true ->
  has_columns ["accident_details"; "updated_at"; "vehicle_id"; "id"; "created_at"]
              (vehicles_columns (disk (conn w))) = true ->
  forallb bindable [Py.get (json req) "intensity"; Py.get (json req) "lat";
                    Py.get (json req) "lng"; timestamp E req; notes req] = true ->
  (forall iid, Py.int (vid req) = Some iid -> fits_int64 iid = true) ->
  next_rowid (events_seq (disk (conn w))) (map e_id (accident_events (disk (conn w))))
    <= max_int64 ->
  next_rowid (vehicles_seq (disk (conn w))) (map v_id (vehicles (disk (conn w))))
    <= max_int64 ->
  exists resp w', hardware_event E req w = (inr resp, w').
Proof.
  intros Hq [Hkey Hvid] Ht Hec Hvc Hb Hfit Hemax Hvmax.
  unfold hardware_event.
  rewrite bool_decide_eq_true_2 by exact Hkey.
  rewrite bool_decide_eq_false_2 by exact Hvid. cbv [negb].
  fold (vid req).
  apply andb_prop in Hb as [Hb1 Hb]. apply andb_prop in Hb as [Hb2 Hb].
  apply andb_prop in Hb as [Hb3 Hb]. apply andb_prop in Hb as [Hb4 Hb].
  apply andb_prop in Hb as [Hb5 _].
  unfold has_columns in Hvc. simpl in Hvc.
  apply andb_prop in Hvc as [Hc1 Hvc]. apply andb_prop in Hvc as [Hc2 Hvc].
  apply andb_prop in Hvc as [Hc3 Hvc]. apply andb_prop in Hvc as [Hc4 Hvc].
  apply andb_prop in Hvc as [Hc5 _].
  (* BEGIN *)
  destruct (begin_returns E w Hq Ht) as (w1 & Hr1 & Hv1).
  rewrite (bind_eq _ _ _ _ _ Hr1).
  (* INSERT INTO accident_events *)
  destruct (insert_event_ok
              ["vehicle_id"; "intensity"; "lat"; "lng"; "timestamp"; "raw_payload"]
              (fun rowid =>
                 mk_event rowid (vid req) (Py.get (json req) "intensity")
                          (Py.get (json req) "lat") (Py.get (json req) "lng")
                          (bind_text (timestamp E req)) (Some (json req))
                          (default_now "created_at" (events_columns (disk (conn w)))
                                       (CURRENT_TIMESTAMP E))
                          None None
                          (default_now "event_time" (events_columns (disk (conn w)))
                                       (CURRENT_TIMESTAMP E)))
              (disk (conn w)) Hec Hemax) as (d1 & Hs1 & Hrows1 & Hseq1 & Hcols1).
  run_execute Hq d1 1 w2 Hr2 Hv2;
    [simpl; rewrite Hb1, Hb2, Hb3, Hb4; reflexivity | rewrite Hv1; exact Hs1 |].
  clear Hr1 Hr2 Hs1 Hv1 w1.
  (* what is left once the registry is settled *)
  assert (Htail : forall w0,
            exists resp w',
              (let* _ := commit E in
               let* _ := publish E (vid req)
                           (mk_payload (vid req) (Py.get (json req) "intensity")
                                       (Py.get (json req) "lat") (Py.get (json req) "lng")
                                       (timestamp E req) (notes req)) in
               ret (mk_response 201 (JSuccess true))) w0 = (inr resp, w')).
  { intros w0. destruct (commit_returns E w0 Hq) as (wa & Ha).
    rewrite (bind_eq _ _ _ _ _ Ha).
    edestruct (publish_returns E) as (wb & Hb); [exact Hq|].
    rewrite (bind_eq _ _ _ _ _ Hb). eexists _, _. reflexivity. }
  (* the INSERT INTO vehicles, when no row was updated *)
  assert (Hadd : forall w0,
            vehicles_columns (view (conn w0)) = vehicles_columns (disk (conn w)) ->
            vehicles_seq (view (conn w0)) = vehicles_seq (disk (conn w)) ->
            vehicles (view (conn w0)) = vehicles (disk (conn w)) ->
            existsb (fun r => bool_decide (v_vehicle_id r = vid req))
                    (vehicles (disk (conn w))) = false ->
            exists w0',
              execute E [Py.VStr (vid req); notes req]
                (insert_vehicle ["vehicle_id"; "accident_details"; "created_at"] Abort
                   (fun rowid =>
                      mk_vehicle rowid (vid req) None None None (bind_text (notes req))
                                 (Some (CURRENT_TIMESTAMP E)) None)) w0
              = (inr 1, w0')).
  { intros w0 Hcols Hseq Hrows Hex.
    edestruct (insert_vehicle_abort_ok
                 ["vehicle_id"; "accident_details"; "created_at"]
                 (fun rowid =>
                    mk_vehicle rowid (vid req) None None None (bind_text (notes req))
                               (Some (CURRENT_TIMESTAMP E)) None)
                 (view (conn w0))) as (d' & Hd').
    - unfold has_columns. simpl. rewrite Hcols, Hc1, Hc3, Hc5. reflexivity.
    - rewrite Hseq, Hrows. exact Hvmax.
    - intros z. simpl. rewrite Hrows. exact Hex.
    - match goal with
      | |- exists _, execute _ ?ps ?stmt _ = _ =>
          destruct (execute_returns E ps stmt w0 d' 1 Hq) as (w0' & Hr & _);
            [simpl; rewrite Hb5; reflexivity | exact Hd' |]
      end.
      eexists. exact Hr. }
  (* UPDATE vehicles ... WHERE vehicle_id = ? *)
  destruct (update_vehicles_ok ["accident_details"; "updated_at"; "vehicle_id"]
              (fun r => bool_decide (v_vehicle_id r = vid req))
              (summarise E (notes req)) d1)
    as (d2 & rc2 & Hs2 & Hz2 & Hcols2 & Hseq2 & Hsame2).
  { unfold has_columns. simpl. rewrite Hcols1, Hc1, Hc2, Hc3. reflexivity. }
  run_execute Hq d2 rc2 w3 Hr3 Hv3;
    [simpl; rewrite Hb5; reflexivity | rewrite Hv2; exact Hs2 |].
  rewrite Hz2. rewrite Hrows1 in *.
  destruct (existsb _ (vehicles (disk (conn w)))) eqn:Halias; simpl negb; cbv iota.
  { (* a row has the alias *)
    rewrite (bind_eq _ _ _ rc2 w3) by reflexivity.
    assert (Hnz : (rc2 =? 0) = false) by (rewrite Hz2; reflexivity).
    rewrite Hnz. rewrite (bind_eq _ _ _ rc2 w3) by reflexivity. apply Htail. }
  specialize (Hsame2 eq_refl).
  destruct (Py.int (vid req)) as [iid|] eqn:Hint.
  2:{ (* not a number: the row is added *)
      rewrite (bind_eq _ _ _ rc2 w3) by reflexivity.
      assert (Hz : (rc2 =? 0) = true) by (rewrite Hz2; reflexivity).
      rewrite Hz.
      destruct (Hadd w3) as (w4 & Hr4); try (rewrite Hv3; congruence); [reflexivity|].
      rewrite (bind_eq _ _ _ _ _ Hr4). apply Htail. }
  (* UPDATE vehicles ... WHERE id = ? *)
  destruct (update_vehicles_ok ["accident_details"; "updated_at"; "id"]
              (fun r => bool_decide (v_id r = iid))
              (summarise E (notes req)) d2)
    as (d3 & rc3 & Hs3 & Hz3 & Hcols3 & Hseq3 & Hsame3).
  { unfold has_columns. simpl. rewrite Hcols2, Hcols1, Hc1, Hc2, Hc4. reflexivity. }
  run_execute Hq d3 rc3 w4 Hr4 Hv4;
    [simpl; rewrite Hb5, (Hfit iid eq_refl); reflexivity | rewrite Hv3; exact Hs3 |].
  rewrite Hz3.
  destruct (existsb _ (vehicles d2)) eqn:Hkeyhit; simpl negb; cbv iota.
  { apply Htail. }
  specialize (Hsame3 eq_refl).
  destruct (Hadd w4) as (w5 & Hr5); try (rewrite Hv4; congruence); [reflexivity|].
  rewrite (bind_eq _ _ _ _ _ Hr5). apply Htail.
Qed.

(** X6. Sufficient conditions for /hardware/event to record an event.  If
    the storage engine fails nothing and the fan-out step does not raise,
    the call passes the key check and carries an identifier, the two tables
    have the columns the four statements name (among them
    [vehicles.updated_at]), the numbers in the payload fit 64 bits, an
    identifier that reads as an integer fits 64 bits, and neither table has
    used up its rowids, then the call is answered 201, the commit precedes
    the publish, the event row and the registry change are in the file, and
    the event is handed to the subscribers of the trimmed identifier. *)
Theorem hardware_event_succeeds E req db h :
  quiet E -> passes_validation E req ->
  has_columns ["vehicle_id"; "intensity"; "lat"; "lng"; "timestamp"; "raw_payload"]
              (events_columns db) = true ->
  has_columns ["accident_details"; "updated_at"; "vehicle_id"; "id"; "created_at"]
              (vehicles_columns db) = true ->
  forallb bindable [Py.get (json req) "intensity"; Py.get (json req) "lat";
                    Py.get (json req) "lng"; timestamp E req; notes req] = true ->
  (forall iid, Py.int (vid req) = Some iid -> fits_int64 iid = true) ->
  next_rowid (events_seq db) (map e_id (accident_events db)) <= max_int64 ->
  next_rowid (vehicles_seq db) (map v_id (vehicles db)) <= max_int64 ->
  exists db',
    serve (hardware_event E req) db h
    = (mk_response 201 (JSuccess true), db',
       sse_publish (vid req) (published E req) h, [Commit; Publish (vid req)]) /\
    ingested E req db db'.
Proof.
  intros Hq Hval Hec Hvc Hb Hfit Hemax Hvmax.
  destruct (hardware_event_returns E req (mk_world (connect db) h []))
    as (resp & w' & Hrun); auto.
  assert (Hout := hardware_event_outcome E req (mk_world (connect db) h []) _ _
                    Hval eq_refl Hrun).
  destruct Hout as [[(e & He) _] | (Hing & _ & [(He & _) | (Hr & _ & Hh & Htr)])];
    try discriminate.
  injection Hr as ->.
  exists (disk (conn w')). split; [|exact Hing].
  unfold serve. rewrite Hrun. simpl. rewrite Hh, Htr. reflexivity.
Qed.

Lemma hardware_event_succeeds_witness :
  exists db',
    serve (hardware_event Sample.E (Sample.collision "VHL2023" "rear collision"))
          Sample.db Sample.hub0
    = (mk_response 201 (JSuccess true), db',
       sse_publish "VHL2023" (Sample.alert "VHL2023" "rear collision") Sample.hub0,
       [Commit; Publish "VHL2023"]) /\
    length (accident_events db') = 1%nat.
Proof.
  destruct (hardware_event_succeeds Sample.E
              (Sample.collision "VHL2023" "rear collision") Sample.db Sample.hub0)
    as (db' & Hs & Hing).
  - split; [intros n; reflexivity | reflexivity].
  - split; [reflexivity | discriminate].
  - vm_compute. reflexivity.
  - vm_compute. reflexivity.
  - vm_compute. reflexivity.
  - intros iid Hi. vm_compute in Hi. discriminate.
  - apply Z.leb_le. vm_compute. reflexivity.
  - apply Z.leb_le. vm_compute. reflexivity.
  - exists db'. split; [exact Hs|].
    destruct Hing as (_ & _ & He & _). rewrite He. reflexivity.
Defined.

End Success.

(* ===================================================================== *)
(** ** Dev_app's /add_vehicle: all or nothing *)
(* ===================================================================== *)

Section DevRegistration.
Import Sqlite Runtime Props Invariants.

Lemma add_vehicle_transaction_fails_clean E vid m o g a meta :
  fails_clean (Dev_app.add_vehicle_transaction E vid m o g a meta).
Proof.
  unfold Dev_app.add_vehicle_transaction.
  apply fails_clean_bind; [apply clean_execute|]. intros _.
  apply fails_clean_bind; [apply clean_query|]. intros existing.
  apply fails_clean_bind.
  { destruct existing; [|apply clean_ret].
    apply clean_bind; [apply clean_execute | intros; apply clean_ret]. }
  intros action.
  apply fails_clean_bind; [apply clean_execute|]. intros _.
  apply fails_clean_commit_then. intros w r w' [= <- <-]. eauto.
Qed.

Lemma add_vehicle_transaction_log E vid m o g a meta w action w' :
  Dev_app.add_vehicle_transaction E vid m o g a meta w = (inr action, w') ->
  sse w' = sse w /\ trace w' = trace w ++ [Commit] /\
  exists ev,
    accident_events (disk (conn w')) = accident_events (view (conn w)) ++ [ev] /\
    e_id ev = next_rowid (events_seq (view (conn w)))
                         (map e_id (accident_events (view (conn w)))) /\
    e_vehicle_id ev = vid /\ e_details ev = Some a /\
    e_meta_json ev = match meta with Py.VNone => None | x => Some x end.
Proof.
  unfold Dev_app.add_vehicle_transaction. intros H.
  apply bind_inv in H as [(e & _ & He)|(rc0 & w1 & Hx & H)]; [discriminate|].
  apply execute_inv in Hx as [U1 Hv1]. destruct (Hv1 rc0 eq_refl) as (d1 & Hs1 & Hw1).
  clear Hv1. apply insert_vehicle_inv in Hs1 as (_ & Hd1 & _).
  apply bind_inv in H as [(e & _ & He)|(existing & w2 & Hq & H)]; [discriminate|].
  apply query_inv in Hq as (U2 & Hw2 & _).
  apply bind_inv in H as [(e & _ & He)|(action' & w3 & Ha & H)]; [discriminate|].
  assert (U3 : untouched w2 w3 /\
               accident_events (view (conn w3)) = accident_events (view (conn w2)) /\
               events_seq (view (conn w3)) = events_seq (view (conn w2)) /\
               events_columns (view (conn w3)) = events_columns (view (conn w2))).
  { destruct existing as [row|].
    - apply bind_inv in Ha as [(e & _ & He)|(rc1 & w4 & Hx & Ha)]; [discriminate|].
      injection Ha as _ <-.
      apply execute_inv in Hx as [U Hv]. destruct (Hv rc1 eq_refl) as (d2 & Hs2 & Hw4).
      apply update_vehicles_inv in Hs2 as [Hd2 _]. rewrite Hw4, Hd2. auto.
    - injection Ha as _ <-. split; [apply untouched_refl | auto]. }
  destruct U3 as (U3 & Hev3 & Hseq3 & Hcol3).
  apply bind_inv in H as [(e & _ & He)|(rc2 & w5 & Hx & H)]; [discriminate|].
  apply execute_inv in Hx as [U4 Hv4]. destruct (Hv4 rc2 eq_refl) as (d3 & Hs3 & Hw5).
  clear Hv4. apply insert_event_inv in Hs3.
  apply bind_inv in H as [(e & _ & He)|(u & w6 & Hc & H)]; [discriminate|].
  apply commit_inv in Hc as [(e & He & _)|(_ & Hdisk & _ & Hsse & Htr)]; [discriminate|].
  injection H as _ <-.
  assert (Hbase : accident_events (view (conn w3)) = accident_events (view (conn w)) /\
                  events_seq (view (conn w3)) = events_seq (view (conn w))).
  { rewrite Hev3, Hseq3, Hw2, Hw1, Hd1. auto. }
  destruct Hbase as [Hb1 Hb2].
  destruct U1 as (_ & S1 & T1), U2 as (_ & S2 & T2), U3 as (_ & S3 & T3),
           U4 as (_ & S4 & T4).
  split; [congruence|]. split; [congruence|].
  eexists. rewrite Hdisk, Hw5, Hs3. simpl. rewrite Hb1, Hb2.
  split; [reflexivity|]. simpl. auto.
Qed.

Lemma on_exception_rollback_inv {A} (m : io A) w e w' :
  on_exception m rollback w = (inl e, w') ->
  exists w1, m w = (inl e, w1) /\ disk (conn w') = disk (conn w1) /\
             sse w' = sse w1 /\ trace w' = trace w1 ++ [Rollback].
Proof.
  unfold on_exception, rollback. destruct (m w) as [[e0|a] w1]; [|discriminate].
  intros [= <- <-]. exists w1. simpl. auto.
Qed.

(** Every run of Dev_app's [add_vehicle] on a fresh connection. *)
Lemma dev_add_vehicle_run E req db h r w' :
  Dev_app.add_vehicle E req (mk_world (connect db) h []) = (r, w') ->
  exists resp, r = inr resp /\ sse w' = h /\
  ((exists vid a ev,
      resp = mk_response 200 (JAction "Vehicle updated" "updated" vid) /\
      dev_field (Dev_app.json req) "vehicle_id" = Some vid /\
      vid <> "" /\
      dev_field (Dev_app.json req) "accident_details" = Some a /\
      trace w' = [Commit] /\
      accident_events (disk (conn w')) = accident_events db ++ [ev] /\
      e_id ev = next_rowid (events_seq db) (map e_id (accident_events db)) /\
      e_vehicle_id ev = vid /\ e_details ev = Some a /\
      e_meta_json ev = match Py.get (Dev_app.json req) "meta" with
                       | Py.VNone => None
                       | x => Some x
                       end) \/
   ((forall msg action vid, json_body resp <> JAction msg action vid) /\
    disk (conn w') = db /\ Commit ∉ trace w')).
Proof.
  intros Hm.
  set (w0 := mk_world (connect db) h []) in *.
  unfold Dev_app.add_vehicle in Hm. destruct (Dev_app.method req).
  2:{ injection Hm as <- <-. eexists. split; [reflexivity|]. split; [reflexivity|].
      right. simpl. split; [discriminate|]. split; [reflexivity | apply not_elem_of_nil]. }
  assert (Hbody : forall r0 w1,
    (if negb (Dev_app.is_json req)
     then ret (mk_response 400 (JMessage false "Expected application/json"))
     else
       let* vehicle_id := Dev_app.stripped (Dev_app.json req) "vehicle_id" in
       let* model := Dev_app.stripped (Dev_app.json req) "model" in
       let* owner := Dev_app.stripped (Dev_app.json req) "owner" in
       let* registration := Dev_app.stripped (Dev_app.json req) "registration" in
       let* accident_details := Dev_app.stripped (Dev_app.json req) "accident_details" in
       if bool_decide (vehicle_id = "")
       then ret (mk_response 400 (JMessage false "vehicle_id is required"))
       else
         let* action :=
           finally
             (on_exception
                (Dev_app.add_vehicle_transaction E vehicle_id model owner registration
                   accident_details (Py.get (Dev_app.json req) "meta"))
                rollback)
             close_db in
         ret (mk_response (if bool_decide (action = "created") then 201 else 200)
                (JAction ("Vehicle " ++ action)%string action vehicle_id))) w0 = (r0, w1) ->
    sse w1 = h /\
    ((exists vid a ev,
        r0 = inr (mk_response 200 (JAction "Vehicle updated" "updated" vid)) /\
        dev_field (Dev_app.json req) "vehicle_id" = Some vid /\
        vid <> "" /\
        dev_field (Dev_app.json req) "accident_details" = Some a /\
        trace w1 = [Commit] /\
        accident_events (disk (conn w1)) = accident_events db ++ [ev] /\
        e_id ev = next_rowid (events_seq db) (map e_id (accident_events db)) /\
        e_vehicle_id ev = vid /\ e_details ev = Some a /\
        e_meta_json ev = match Py.get (Dev_app.json req) "meta" with
                         | Py.VNone => None
                         | x => Some x
                         end) \/
     ((forall resp msg action vid,
         r0 = inr resp -> json_body resp <> JAction msg action vid) /\
      disk (conn w1) = db /\ Commit ∉ trace w1))).
  { intros r0 w1 H.
    assert (Hnothing : forall (r1 : exn + response),
              (forall resp msg action vid,
                 r1 = inr resp -> json_body resp <> JAction msg action vid) ->
              sse w0 = h /\
              ((exists vid a ev,
                  r1 = inr (mk_response 200 (JAction "Vehicle updated" "updated" vid)) /\
                  dev_field (Dev_app.json req) "vehicle_id" = Some vid /\
                  vid <> "" /\
                  dev_field (Dev_app.json req) "accident_details" = Some a /\
                  trace w0 = [Commit] /\
                  accident_events (disk (conn w0)) = accident_events db ++ [ev] /\
                  e_id ev = next_rowid (events_seq db) (map e_id (accident_events db)) /\
                  e_vehicle_id ev = vid /\ e_details ev = Some a /\
                  e_meta_json ev = match Py.get (Dev_app.json req) "meta" with
                                   | Py.VNone => None
                                   | x => Some x
                                   end) \/
               ((forall resp msg action vid,
                   r1 = inr resp -> json_body resp <> JAction msg action vid) /\
                disk (conn w0) = db /\ Commit ∉ trace w0))).
    { intros r1 Hr1. split; [reflexivity|]. right.
      split; [exact Hr1|]. split; [reflexivity | apply not_elem_of_nil]. }
    destruct (negb _).
    { injection H as <- <-. apply Hnothing. intros ? ? ? ? [= <-]. discriminate. }
    apply bind_inv in H as [(e & H & ->)|(vid & wa & Hf1 & H)];
      [apply stripped_inv in H as [-> _]; apply Hnothing; discriminate|].
    apply stripped_inv in Hf1 as [-> Hf1]. specialize (Hf1 vid eq_refl).
    apply bind_inv in H as [(e & H & ->)|(m & wa & Hf2 & H)];
      [apply stripped_inv in H as [-> _]; apply Hnothing; discriminate|].
    apply stripped_inv in Hf2 as [-> _].
    apply bind_inv in H as [(e & H & ->)|(o & wa & Hf3 & H)];
      [apply stripped_inv in H as [-> _]; apply Hnothing; discriminate|].
    apply stripped_inv in Hf3 as [-> _].
    apply bind_inv in H as [(e & H & ->)|(g & wa & Hf4 & H)];
      [apply stripped_inv in H as [-> _]; apply Hnothing; discriminate|].
    apply stripped_inv in Hf4 as [-> _].
    apply bind_inv in H as [(e & H & ->)|(a & wa & Hf5 & H)];
      [apply stripped_inv in H as [-> _]; apply Hnothing; discriminate|].
    apply stripped_inv in Hf5 as [-> Hf5]. specialize (Hf5 a eq_refl).
    destruct (bool_decide (vid = "")) eqn:Hvne.
    { injection H as <- <-. apply Hnothing. intros ? ? ? ? [= <-]. discriminate. }
    apply bool_decide_eq_false in Hvne.
    clear Hnothing.
    apply bind_inv in H as [(e & H & ->)|(action & wa & Ht & H)].
    - (* the transaction raised: rolled back and closed *)
      apply finally_close_inv in H as (wb & H & Hd & Hs & Htr).
      apply on_exception_rollback_inv in H as (wc & H & Hd' & Hs' & Htr').
      apply add_vehicle_transaction_fails_clean in H as (Hd0 & Hs0 & Ht0).
      split; [rewrite Hs, Hs', Hs0; reflexivity|]. right. split; [discriminate|].
      split; [rewrite Hd, Hd', Hd0; reflexivity|].
      rewrite Htr, Htr', Ht0. simpl. intros Hin.
      apply list_elem_of_singleton in Hin. discriminate.
    - apply finally_close_inv in Ht as (wb & Ht & Hd & Hs & Htr).
      apply on_exception_ok in Ht.
      pose proof (add_vehicle_transaction_inv _ _ _ _ _ _ _ _ _ _ Ht) as [-> _].
      apply add_vehicle_transaction_log in Ht as (Hs0 & Ht0 & ev & Hev & Hid & Hvid & Hdet & Hmeta).
      injection H as <- <-. split; [rewrite Hs, Hs0; reflexivity|]. left.
      exists vid, a, ev. rewrite Hd, Htr, Ht0.
      repeat split; auto.
      rewrite Hmeta. destruct (Py.get _ "meta"); reflexivity. }
  apply except_inv in Hm as (resp & -> & [H|(-> & e & H)]);
    apply Hbody in H as [Hh [(vid & a & ev & Hr & Hrest)|(Hno & Hd & Hc)]].
  - injection Hr as ->. eexists. split; [reflexivity|]. split; [exact Hh|].
    left. exists vid, a, ev. auto.
  - exists resp. split; [reflexivity|]. split; [exact Hh|].
    right. split; [intros; eapply Hno; reflexivity | auto].
  - discriminate.
  - eexists. split; [reflexivity|]. split; [exact Hh|].
    right. simpl. split; [discriminate | auto].
Qed.

(** X7. Dev_app's /add_vehicle is all or nothing.  For every request and
    every plan of storage failures the hub is not touched, and one of two
    things holds.  Either the answer reports an action: then its status is
    200, exactly one commit happened, and exactly one row was appended to
    the event log, with the next free id, the posted identifier (trimmed),
    the posted accident_details (trimmed) as details and the posted meta.
    Or the answer reports no action (preflight, 400, 500): then the file is
    exactly as before, also when the failure came after the INSERT OR
    IGNORE or the UPDATE had run, and no commit happened. *)
Theorem dev_add_vehicle_all_or_nothing E req db h resp db' h' tr :
  serve (Dev_app.add_vehicle E req) db h = (resp, db', h', tr) ->
  h' = h /\
  ((exists vid a ev,
      resp = mk_response 200 (JAction "Vehicle updated" "updated" vid) /\
      dev_field (Dev_app.json req) "vehicle_id" = Some vid /\
      vid <> "" /\
      dev_field (Dev_app.json req) "accident_details" = Some a /\
      tr = [Commit] /\
      accident_events db' = accident_events db ++ [ev] /\
      e_id ev = next_rowid (events_seq db) (map e_id (accident_events db)) /\
      e_vehicle_id ev = vid /\ e_details ev = Some a /\
      e_meta_json ev = match Py.get (Dev_app.json req) "meta" with
                       | Py.VNone => None
                       | x => Some x
                       end) \/
   ((forall msg action vid, json_body resp <> JAction msg action vid) /\
    db' = db /\ Commit ∉ tr)).
Proof.
  intros Hs. apply serve_inv in Hs as (r & w' & Hm & -> & -> & -> & ->).
  apply dev_add_vehicle_run in Hm as (resp & -> & Hh & Hcases).
  split; [exact Hh | exact Hcases].
Qed.

Lemma dev_add_vehicle_all_or_nothing_witness :
  let out := serve (Dev_app.add_vehicle Sample.E_third_fails
                      (Sample.register "NEW2" "Tata Ace" "reported"))
                   Sample.db Sample.hub0 in
  status out.1.1.1 = 500 /\ out.1.1.2 = Sample.db /\ out.1.2 = Sample.hub0 /\
  out.2 = [Rollback].
Proof.
  intros out.
  destruct (dev_add_vehicle_all_or_nothing Sample.E_third_fails
              (Sample.register "NEW2" "Tata Ace" "reported") Sample.db Sample.hub0
              out.1.1.1 out.1.1.2 out.1.2 out.2)
    as [Hh [(vid & a & ev & Hr & _)|(_ & Hd & _)]].
  - vm_compute. reflexivity.
  - exfalso. vm_compute in Hr. discriminate.
  - split; [vm_compute; reflexivity|]. split; [exact Hd|]. split; [exact Hh|].
    vm_compute. reflexivity.
Defined.

End DevRegistration.

(* ===================================================================== *)
(** ** User_app's /add_vehicle *)
(* ===================================================================== *)

Section UserRegistration.
Import Sqlite Runtime Props Invariants.

Lemma user_add_vehicle_upserted E data w st msg vid w' :
  User_app.add_vehicle E data w = (inr (mk_response st (JUpserted msg vid)), w') ->
  st = 201 /\ vid <> "" /\ Py.strip vid = vid /\
  vid = Py.strip (Py.str (match Py.get data "vehicle_id" with
                          | Py.VNone => Py.get data "id"
                          | v => v
                          end)) /\
  sse w' = sse w /\ trace w' = trace w ++ [Commit] /\
  accident_events (disk (conn w')) = accident_events (view (conn w)) /\
  (exists row, row ∈ vehicles (disk (conn w')) /\ v_vehicle_id row = vid) /\
  (forall row, row ∈ vehicles (disk (conn w')) -> v_vehicle_id row = vid ->
     v_model row = bind_text (Py.get_or data "model" (Py.VStr "")) /\
     v_owner row = bind_text (Py.get_or data "owner" (Py.VStr "")) /\
     v_registration row = bind_text (Py.get_or data "registration" (Py.VStr ""))).
Proof.
  unfold User_app.add_vehicle. cbv zeta.
  set (raw := match Py.get data "vehicle_id" with
              | Py.VNone => Py.get data "id"
              | v => v
              end).
  set (alias := match raw with Py.VNone => "" | v => Py.strip (Py.str v) end).
  destruct (bool_decide (alias = "")) eqn:Hne; [discriminate|].
  apply bool_decide_eq_false in Hne.
  assert (Halias : alias = Py.strip (Py.str raw)).
  { unfold alias in *. destruct raw; try reflexivity. contradiction. }
  intros H.
  apply bind_inv in H as [(e & _ & He)|(rc & w1 & Hx & H)]; [discriminate|].
  apply execute_inv in Hx as [(_ & S1 & T1) Hv1].
  destruct (Hv1 rc eq_refl) as (d1 & Hs1 & Hw1). clear Hv1.
  apply insert_vehicle_inv in Hs1 as (_ & Hd1 & Hcases). cbn [v_vehicle_id] in Hcases.
  apply bind_inv in H as [(e & _ & He)|(u & w2 & Hc & H)]; [discriminate|].
  apply commit_inv in Hc as [(e & He & _)|(_ & Hdisk & _ & S2 & T2)]; [discriminate|].
  injection H as <- <- <- <-.
  split; [reflexivity|]. split; [exact Hne|].
  split; [rewrite Halias; apply strip_idem|]. split; [exact Halias|].
  split; [congruence|]. split; [congruence|].
  rewrite Hdisk, Hw1. split; [rewrite Hd1; reflexivity|].
  destruct Hcases as [[Hex Hv] | [Hex [[Hoc _] | (set & Hoc & Hv)]]];
    [| discriminate |].
  - rewrite Hv. split.
    + eexists. split; [apply elem_of_app; right; apply list_elem_of_singleton; reflexivity|].
      reflexivity.
    + intros row Hin Hrow. apply elem_of_app in Hin as [Hin|Hin].
      * exfalso. rewrite <- not_true_iff_false in Hex. apply Hex.
        apply existsb_exists. exists row. split; [apply list_elem_of_In; exact Hin|].
        apply bool_decide_eq_true. exact Hrow.
      * apply list_elem_of_singleton in Hin. subst row. simpl. auto.
  - injection Hoc as <-. rewrite Hv. split.
    + apply existsb_exists in Hex as (r & Hin & Hr). apply bool_decide_eq_true in Hr.
      eexists. split.
      * apply list_elem_of_fmap. exists r. split; [reflexivity|].
        apply list_elem_of_In. exact Hin.
      * simpl. rewrite bool_decide_eq_true_2 by exact Hr. exact Hr.
    + intros row Hin Hrow. apply list_elem_of_fmap in Hin as (r & -> & Hin).
      destruct (bool_decide (v_vehicle_id r = alias)) eqn:Hr; [simpl; auto|].
      apply bool_decide_eq_false in Hr. contradiction.
Qed.

Lemma get_vehicle_of_alias E vid db h :
  quiet E -> vid <> "" -> Py.strip vid = vid ->
  (exists row, row ∈ vehicles db /\ v_vehicle_id row = vid) ->
  exists row,
    serve (User_app.get_vehicle E vid) db h = (mk_response 200 (JFound row), db, h, []) /\
    row ∈ vehicles db /\ v_vehicle_id row = vid.
Proof.
  intros Hq Hne Hstrip Hex.
  destruct (by_vehicle_id_some vid db Hex) as (row & Hfind & Hin & Hrow).
  exists row. split; [|auto].
  destruct (find_vehicle_by_identifier_quiet E (Py.VStr vid)
              (mk_world (connect db) h []) Hq) as (w1 & (Hd & _ & Hs & Ht) & Hrun).
  unfold serve, User_app.get_vehicle, bind. rewrite Hrun.
  unfold resolution. rewrite bool_decide_eq_false_2 by discriminate.
  change (Py.str (Py.VStr vid)) with vid. rewrite Hstrip.
  rewrite bool_decide_eq_false_2 by exact Hne.
  change (view (conn (mk_world (connect db) h []))) with db.
  rewrite Hfind. simpl. rewrite Hd, Hs, Ht. reflexivity.
Qed.

(** X8. What User_app's /add_vehicle registers can be fetched.  After any
    call answered with [vehicle added/updated] for the identifier [vid]
    (the posted vehicle_id, or id when vehicle_id is absent, as text and
    trimmed), GET /vehicle/<vid> on the resulting file answers 200 with a
    row whose alias is [vid] and whose model, owner and registration are
    the posted values as a TEXT column stores them (the empty string when a
    field is absent); the lookup itself changes nothing. *)
Theorem registered_vehicle_is_found E E' data db h resp db' h' tr msg vid :
  serve (User_app.add_vehicle E data) db h = (resp, db', h', tr) ->
  json_body resp = JUpserted msg vid ->
  quiet E' ->
  exists row,
    serve (User_app.get_vehicle E' vid) db' h' = (mk_response 200 (JFound row), db', h', []) /\
    v_vehicle_id row = vid /\
    v_model row = bind_text (Py.get_or data "model" (Py.VStr "")) /\
    v_owner row = bind_text (Py.get_or data "owner" (Py.VStr "")) /\
    v_registration row = bind_text (Py.get_or data "registration" (Py.VStr "")).
Proof.
  intros Hs Hbody Hq.
  apply serve_inv in Hs as (r & w' & Hm & -> & -> & -> & ->).
  destruct r as [e|[st body]]; [discriminate|]. simpl in Hbody. subst body.
  apply user_add_vehicle_upserted in Hm
    as (_ & Hne & Hstrip & _ & _ & _ & _ & Hex & Hfields).
  destruct (get_vehicle_of_alias E' vid (disk (conn w')) (sse w') Hq Hne Hstrip Hex)
    as (row & Hget & Hin & Hrow).
  exists row. split; [exact Hget|]. split; [exact Hrow|]. apply Hfields; assumption.
Qed.

Lemma registered_vehicle_is_found_witness :
  let data : gmap string Py.value :=
    <["id" := Py.VInt 42]> (<["model" := Py.VStr "Tata Ace"]> ∅) in
  let out := serve (User_app.add_vehicle Sample.E data) Sample.db Sample.hub0 in
  exists row,
    serve (User_app.get_vehicle Sample.E "42") out.1.1.2 out.1.2
    = (mk_response 200 (JFound row), out.1.1.2, out.1.2, []) /\
    v_vehicle_id row = "42" /\ v_model row = Some "Tata Ace" /\ v_owner row = Some "".
Proof.
  intros data out.
  destruct (registered_vehicle_is_found Sample.E Sample.E data Sample.db Sample.hub0
              out.1.1.1 out.1.1.2 out.1.2 out.2 "vehicle added/updated" "42")
    as (row & Hget & Hrow & Hmodel & Howner & _).
  - vm_compute. reflexivity.
  - vm_compute. reflexivity.
  - split; [intros n; reflexivity | reflexivity].
  - exists row. split; [exact Hget|]. split; [exact Hrow|].
    split; [exact Hmodel | exact Howner].
Defined.

(** X9. User_app's /add_vehicle is idempotent on the registry.  When the
    same body is posted twice in a row and both calls are answered with
    [vehicle added/updated], the second call leaves the rows of [vehicles]
    and of [accident_events] exactly as the first left them: no second row
    is added, and the summary and created_at of the row are not touched. *)
Theorem user_add_vehicle_idempotent E1 E2 data db h r1 db1 h1 t1 r2 db2 h2 t2 m1 v1 m2 v2 :
  serve (User_app.add_vehicle E1 data) db h = (r1, db1, h1, t1) ->
  json_body r1 = JUpserted m1 v1 ->
  serve (User_app.add_vehicle E2 data) db1 h1 = (r2, db2, h2, t2) ->
  json_body r2 = JUpserted m2 v2 ->
  v2 = v1 /\ vehicles db2 = vehicles db1 /\ accident_events db2 = accident_events db1.
Proof.
  intros Hs1 Hb1 Hs2 Hb2.
  apply serve_inv in Hs1 as (ra & wa & Hma & -> & -> & -> & ->).
  destruct ra as [e|[st1 body1]]; [discriminate|]. simpl in Hb1. subst body1.
  apply user_add_vehicle_upserted in Hma
    as (_ & _ & _ & Hv1 & _ & _ & _ & Hex & Hfields).
  apply serve_inv in Hs2 as (rb & wb & Hmb & -> & -> & -> & ->).
  destruct rb as [e|[st2 body2]]; [discriminate|]. simpl in Hb2. subst body2.
  pose proof (user_add_vehicle_upserted _ _ _ _ _ _ _ Hmb)
    as (_ & _ & _ & Hv2 & _ & _ & Hev & _ & _).
  assert (Heq : v2 = v1) by congruence. clear Hv2. subst v2.
  split; [reflexivity|]. split; [|exact Hev].
  apply user_add_vehicle_inv in Hmb as [_ Hrows]; [|exact Hex].
  rewrite Hrows. simpl.
  transitivity (map (fun r : vehicle => r) (vehicles (disk (conn wa)))); [|apply map_id].
  apply map_ext_in. intros r Hin.
  destruct (bool_decide (v_vehicle_id r = v1)) eqn:Hr; [|reflexivity].
  apply bool_decide_eq_true in Hr. apply list_elem_of_In in Hin.
  destruct (Hfields r Hin Hr) as (Hm & Ho & Hg).
  rewrite <- Hm, <- Ho, <- Hg. destruct r; reflexivity.
Qed.

Lemma user_add_vehicle_idempotent_witness :
  let data : gmap string Py.value :=
    <["vehicle_id" := Py.VStr " NEW3 "]> (<["owner" := Py.VStr "Asha"]> ∅) in
  let first := serve (User_app.add_vehicle Sample.E data) Sample.db Sample.hub0 in
  let second := serve (User_app.add_vehicle Sample.E data) first.1.1.2 first.1.2 in
  length (vehicles first.1.1.2) = 3%nat /\
  vehicles second.1.1.2 = vehicles first.1.1.2.
Proof.
  intros data first second. split; [vm_compute; reflexivity|].
  destruct (user_add_vehicle_idempotent Sample.E Sample.E data Sample.db Sample.hub0
              first.1.1.1 first.1.1.2 first.1.2 first.2
              second.1.1.1 second.1.1.2 second.1.2 second.2
              "vehicle added/updated" "NEW3" "vehicle added/updated" "NEW3")
    as (_ & Hrows & _).
  - vm_compute. reflexivity.
  - vm_compute. reflexivity.
  - vm_compute. reflexivity.
  - vm_compute. reflexivity.
  - exact Hrows.
Defined.

(** X10. User_app's /add_vehicle is all or nothing, and never touches the
    hub or the event log.  For every body and every plan of storage
    failures: either the answer is 201 with the identifier the row is
    stored under (the posted vehicle_id, or id when vehicle_id is absent,
    as text and trimmed; never empty), exactly one commit happened, the
    event log is unchanged and the registry has a row with that alias; or
    the answer is 400 or 500 and the file is exactly as before, with no
    effect.  The answer is 400 exactly when the identifier is absent or
    blank. *)
Theorem user_add_vehicle_all_or_nothing E data db h resp db' h' tr :
  serve (User_app.add_vehicle E data) db h = (resp, db', h', tr) ->
  let vid_raw := match Py.get data "vehicle_id" with
                 | Py.VNone => Py.get data "id"
                 | v => v
                 end in
  h' = h /\
  ((exists vid,
      resp = mk_response 201 (JUpserted "vehicle added/updated" vid) /\
      vid = Py.strip (Py.str vid_raw) /\ vid <> "" /\
      tr = [Commit] /\ accident_events db' = accident_events db /\
      exists row, row ∈ vehicles db' /\ v_vehicle_id row = vid) \/
   ((resp = mk_response 400 (JMessage false "vehicle id required") \/
     resp = mk_response 500 JServerError) /\
    db' = db /\ tr = [])) /\
  (status resp = 400 <-> vid_raw = Py.VNone \/ Py.strip (Py.str vid_raw) = "").
Proof.
  intros Hs vid_raw.
  apply serve_inv in Hs as (r & w' & Hm & -> & -> & -> & ->).
  set (w0 := mk_world (connect db) h []) in *.
  assert (Hblank : (match vid_raw with Py.VNone => "" | v => Py.strip (Py.str v) end) = ""
                   <-> vid_raw = Py.VNone \/ Py.strip (Py.str vid_raw) = "").
  { destruct vid_raw; try (split; [auto | intros [Hc|Hc]; [discriminate | exact Hc]]).
    split; auto. }
  destruct (decide ((match vid_raw with Py.VNone => "" | v => Py.strip (Py.str v) end) = ""))
    as [Hb|Hb].
  - (* no identifier: 400 *)
    unfold User_app.add_vehicle in Hm. cbv zeta in Hm. fold vid_raw in Hm.
    rewrite bool_decide_eq_true_2 in Hm by exact Hb.
    injection Hm as <- <-. simpl.
    split; [reflexivity|]. split; [right; auto|].
    split; [intros _; apply Hblank; exact Hb | reflexivity].
  - assert (Hrun := Hm).
    unfold User_app.add_vehicle in Hm. cbv zeta in Hm. fold vid_raw in Hm.
    rewrite bool_decide_eq_false_2 in Hm by exact Hb.
    apply bind_inv in Hm as [(e & Hx & ->)|(rc & w1 & Hx & Hm)].
    { apply execute_inv in Hx as [(Hd & Hh & Ht) _]. simpl.
      split; [exact Hh|]. split; [right; auto|].
      split; [discriminate | intros Hc; apply Hblank in Hc; contradiction]. }
    apply execute_inv in Hx as [(Hd1 & Hh1 & Ht1) _].
    apply bind_inv in Hm as [(e & Hc & ->)|(u & w2 & Hc & Hm)].
    { apply commit_inv in Hc as [(e' & _ & (Hd & Hh & Ht))|(Hc & _)]; [|discriminate].
      simpl. split; [rewrite Hh, Hh1; reflexivity|].
      split; [right; split; [auto|split; [rewrite Hd, Hd1 | rewrite Ht, Ht1]; reflexivity]|].
      split; [discriminate | intros Hc; apply Hblank in Hc; contradiction]. }
    injection Hm as <- <-.
    apply user_add_vehicle_upserted in Hrun
      as (_ & Hne & _ & Hvid & Hh & Ht & Hev & Hex & _).
    simpl. split; [exact Hh|]. split.
    + left. eexists. split; [reflexivity|]. split; [|split; [exact Hne|]].
      * destruct vid_raw; try reflexivity. contradiction.
      * split; [exact Ht|]. split; [exact Hev | exact Hex].
    + split; [discriminate | intros Hc'; apply Hblank in Hc'; contradiction].
Qed.

Lemma user_add_vehicle_all_or_nothing_witness :
  let data : gmap string Py.value :=
    <["vehicle_id" := Py.VStr "   "]> (<["model" := Py.VStr "Tata Ace"]> ∅) in
  let out := serve (User_app.add_vehicle Sample.E data) Sample.db Sample.hub0 in
  status out.1.1.1 = 400 /\ out.1.1.2 = Sample.db /\ out.2 = [].
Proof.
  intros data out.
  destruct (user_add_vehicle_all_or_nothing Sample.E data Sample.db Sample.hub0
              out.1.1.1 out.1.1.2 out.1.2 out.2) as (_ & Hcases & Hblank).
  - vm_compute. reflexivity.
  - assert (H400 : status out.1.1.1 = 400).
    { apply Hblank. right. vm_compute. reflexivity. }
    split; [exact H400|].
    destruct Hcases as [(vid & Hr & _)|(_ & Hd & Ht)]; [|auto].
    rewrite Hr in H400. discriminate.
Defined.

End UserRegistration.

(* ===================================================================== *)
(** ** Three programs, one file *)
(* ===================================================================== *)

Section Schema.
Import Sqlite Runtime Props Invariants.

Lemma create_table_existing cols existing :
  existing <> [] -> create_table_if_not_exists cols existing = existing.
Proof. destruct existing; [contradiction | reflexivity]. Qed.

Lemma add_if_missing_elem c column cols :
  c ∈ Dev_app.add_if_missing column cols <-> c ∈ cols \/ c = column.
Proof.
  unfold Dev_app.add_if_missing. destruct (bool_decide (column ∈ cols)) eqn:Hc.
  - apply bool_decide_eq_true in Hc. split; [auto|]. intros [H| ->]; assumption.
  - rewrite elem_of_app, list_elem_of_singleton. reflexivity.
Qed.

Lemma add_if_missing_nonempty column cols : Dev_app.add_if_missing column cols <> [].
Proof.
  unfold Dev_app.add_if_missing. destruct (bool_decide (column ∈ cols)) eqn:Hc.
  - apply bool_decide_eq_true in Hc. intros ->. inversion Hc.
  - destruct cols; discriminate.
Qed.

Lemma add_if_missing_present column cols :
  column ∈ cols -> Dev_app.add_if_missing column cols = cols.
Proof. intros H. unfold Dev_app.add_if_missing. rewrite bool_decide_eq_true_2; auto. Qed.

Lemma dev_init_db_inv d d' :
  Dev_app.init_db d = inr d' ->
  vehicles_columns d' =
    Dev_app.add_if_missing "created_at"
      (create_table_if_not_exists
         ["id"; "vehicle_id"; "model"; "owner"; "registration"; "accident_details"]
         (vehicles_columns d)) /\
  events_columns d' =
    Dev_app.add_if_missing "meta_json"
      (Dev_app.add_if_missing "details"
         (create_table_if_not_exists ["id"; "vehicle_id"; "event_time"] (events_columns d))) /\
  vehicles d' = vehicles d /\ vehicles_seq d' = vehicles_seq d /\
  accident_events d' = accident_events d /\ events_seq d' = events_seq d.
Proof.
  unfold Dev_app.init_db. destruct (_ && _); [discriminate|].
  intros [= <-]. simpl. auto 10.
Qed.

Lemma step_events_columns d d' :
  step d d' -> events_columns d <> [] ->
  events_columns d' <> [] /\
  forall c, c <> "details" -> c <> "meta_json" ->
            (c ∈ events_columns d' <-> c ∈ events_columns d).
Proof.
  intros [d0 | E d0 | d0 d1 Hinit | d0 d1 Hreq] Hne.
  - rewrite user_init_db_file. simpl.
    rewrite create_table_existing by exact Hne. split; [exact Hne | reflexivity].
  - assert (Hcols : events_columns (Db_init.init_db E d0) = events_columns d0).
    { unfold Db_init.init_db. destruct (vehicles d0); simpl;
        apply create_table_existing; exact Hne. }
    rewrite Hcols. split; [exact Hne | reflexivity].
  - apply dev_init_db_inv in Hinit as (_ & Hev & _). rewrite Hev.
    rewrite create_table_existing by exact Hne.
    split; [apply add_if_missing_nonempty|].
    intros c H1 H2. rewrite !add_if_missing_elem. tauto.
  - apply request_writes_safe in Hreq as [(_ & Hev & _) _]. rewrite Hev.
    split; [exact Hne | reflexivity].
Qed.

Lemma events_columns_fixed d d' :
  rtc step d d' -> events_columns d <> [] ->
  forall c, c <> "details" -> c <> "meta_json" ->
            (c ∈ events_columns d' <-> c ∈ events_columns d).
Proof.
  induction 1 as [d | d d1 d2 Hstep _ IH]; intros Hne c H1 H2; [reflexivity|].
  destruct (step_events_columns _ _ Hstep Hne) as [Hne1 Hsame].
  rewrite (IH Hne1 c H1 H2). apply Hsame; assumption.
Qed.

Lemma has_columns_lacking needed table c :
  c ∈ needed -> c ∉ table -> has_columns needed table = false.
Proof.
  intros Hin Hnot. apply not_true_iff_false. intros H.
  unfold has_columns in H. rewrite forallb_forall in H.
  specialize (H c). apply list_elem_of_In in Hin. apply H in Hin.
  apply bool_decide_eq_true in Hin. contradiction.
Qed.

(** X11. Dev_app's /events cannot read an event log that User_app.py or
    db_init.py created.  The three programs open the same file, and each
    creates [accident_events] only if it is absent.  If the table is first
    created by [init_db] of User_app.py or of db_init.py, then after any
    number of later starts of the three programs and of requests to the
    writing handlers the table still has no column [event_time] (Dev_app's
    migration adds [details] and [meta_json] only), so [list_events] raises
    for every query parameter, on every connection to that file. *)
Theorem dev_events_listing_fails_on_user_app_log E0 d0 d1 d E sorter v w :
  events_columns d0 = [] ->
  d1 = (User_app.init_db d0).2 \/ d1 = Db_init.init_db E0 d0 ->
  rtc step d1 d ->
  view (conn w) = d ->
  exists e w', Dev_app.list_events E sorter v w = (inl e, w').
Proof.
  intros Hnone Hd1 Hsteps Hview.
  assert (Hcols : events_columns d1 =
                  ["id"; "vehicle_id"; "intensity"; "lat"; "lng"; "timestamp";
                   "raw_payload"; "created_at"]).
  { destruct Hd1 as [-> | ->].
    - rewrite user_init_db_file. simpl. rewrite Hnone. reflexivity.
    - unfold Db_init.init_db. destruct (vehicles d0); simpl; rewrite Hnone; reflexivity. }
  assert (Hlack : "event_time" ∉ events_columns d).
  { rewrite (events_columns_fixed _ _ Hsteps); try discriminate.
    - rewrite Hcols. apply (bool_decide_eq_false_1 _). reflexivity.
    - rewrite Hcols. discriminate. }
  assert (Hno : has_columns ["id"; "vehicle_id"; "event_time"; "details"; "meta_json"]
                            (events_columns (view (conn w))) = false).
  { rewrite Hview. apply has_columns_lacking with (c := "event_time"); [|exact Hlack].
    apply (bool_decide_eq_true_1 _). reflexivity. }
  unfold Dev_app.list_events, finally, close_db, query.
  destruct v as [v|]; [destruct (bool_decide (v = ""))|];
    destruct (faults E _); try rewrite Hno; eexists _, _; reflexivity.
Qed.

Lemma dev_events_listing_fails_on_user_app_log_witness :
  let d1 := (User_app.init_db empty_file).2 in
  let d2 := mk_database
              ["id"; "vehicle_id"; "model"; "owner"; "registration"; "accident_details";
               "created_at"]
              ["id"; "vehicle_id"; "intensity"; "lat"; "lng"; "timestamp"; "raw_payload";
               "created_at"; "details"; "meta_json"] [] 0 [] 0 in
  Dev_app.init_db d1 = inr d2 /\
  exists e w',
    Dev_app.list_events Sample.E (fun l => l) None
      (mk_world (connect d2) Sample.hub0 []) = (inl e, w').
Proof.
  intros d1 d2.
  assert (Hstart : Dev_app.init_db d1 = inr d2) by reflexivity.
  split; [exact Hstart|].
  apply (dev_events_listing_fails_on_user_app_log Sample.E empty_file d1 d2).
  - reflexivity.
  - left. reflexivity.
  - apply rtc_once. apply step_dev_init. exact Hstart.
  - reflexivity.
Defined.

End Schema.

(* ===================================================================== *)
(** ** /validateID and the event listings *)
(* ===================================================================== *)

Section Listings.
Import Sqlite Runtime Props Invariants.

Lemma dedupe_elem l x : x ∈ User_app.dedupe l -> x ∈ l.
Proof.
  revert x. induction l as [|y l IH]; intros x; simpl; [auto|].
  rewrite !elem_of_cons. intros [->|H]; [auto|].
  apply list_elem_of_filter in H as [_ H]. auto.
Qed.

Lemma dedupe_nonempty l : l <> [] -> User_app.dedupe l <> [].
Proof. destruct l; [contradiction | discriminate]. Qed.

(** What /validateID does once the resolver has found a row. *)
Lemma validate_id_found E data w vehicle used :
  quiet E ->
  let vid := Py.strip (Py.str (Py.or_ (Py.or_ (Py.get data "vehicleID")
                                              (Py.get data "vehicle_id"))
                                      (Py.VStr ""))) in
  let candidates :=
    User_app.dedupe
      ((if bool_decide (v_vehicle_id vehicle = "") then [] else [v_vehicle_id vehicle])
       ++ [Py.str (Py.VInt (v_id vehicle))]) in
  vid <> "" ->
  resolution (Py.VStr vid) (view (conn w)) = inr (Some (vehicle, used)) ->
  exists w', only_counted w w' /\
    User_app.validate_id E data w =
    (if has_columns ["id"; "vehicle_id"; "intensity"; "lat"; "lng"; "timestamp";
                     "created_at"] (events_columns (view (conn w)))
     then inr (mk_response 200
                 (JValid (v_id vehicle, v_vehicle_id vehicle, v_model vehicle,
                          v_owner vehicle, v_registration vehicle,
                          if text_truthy (v_accident_details vehicle)
                          then default "" (v_accident_details vehicle)
                          else "No recent accidents reported.")
                    (map (fun e =>
                            (e_id e, e_vehicle_id e, e_intensity e, e_lat e, e_lng e,
                             if negb (text_truthy (e_timestamp e))
                                && text_truthy (e_created_at e)
                             then e_created_at e else e_timestamp e))
                       (take 50 (order_by_created_at_desc E
                          (filter (fun e => e_vehicle_id e ∈ candidates)
                                  (accident_events (view (conn w)))))))))
     else inl OperationalError, w').
Proof.
  intros Hq vid candidates Hne Hres.
  destruct (find_vehicle_by_identifier_quiet E (Py.VStr vid) w Hq) as (w1 & Hc1 & Hrun).
  rewrite Hres in Hrun.
  unfold User_app.validate_id. fold vid.
  rewrite bool_decide_eq_false_2 by exact Hne.
  rewrite (bind_eq _ _ _ _ _ Hrun). fold candidates.
  assert (Hcand : candidates <> []).
  { apply dedupe_nonempty. destruct (bool_decide _); discriminate. }
  destruct candidates as [|c cs] eqn:Hcs; [contradiction|]. rewrite <- Hcs. clear Hcand.
  pose proof (only_counted_view _ _ Hc1) as Hview.
  eexists. split.
  2:{ unfold bind. rewrite (query_quiet E _ w1 Hq). rewrite Hview.
      destruct (has_columns _ _); reflexivity. }
  eapply only_counted_trans; [exact Hc1 | apply only_counted_stepped].
Qed.

Lemma serve_only_counted m db h r w' :
  m (mk_world (connect db) h []) = (r, w') ->
  only_counted (mk_world (connect db) h []) w' ->
  serve m db h = (match r with
                  | inr resp => resp
                  | inl _ => mk_response 500 JServerError
                  end, db, h, []).
Proof.
  intros Hm (Hd & _ & Hs & Ht). unfold serve. rewrite Hm. simpl in *.
  rewrite Hd, Hs, Ht. reflexivity.
Qed.

(** X12. What /validateID answers for a vehicle it finds.  On a file whose
    event log has the columns the query names, with a storage engine that
    fails nothing and a sorter that only reorders, a request whose
    identifier (vehicleID, else vehicle_id, trimmed) resolves to a row is
    answered 200 with that row's key, alias, model, owner and registration;
    the accidentDetails shown is the stored summary, or the fixed text [No
    recent accidents reported.] when the summary is NULL or empty; at most
    50 events are listed, each one a row of the log stored under the row's
    alias or under its key written in decimal; and nothing is written. *)
Theorem validate_id_reports_the_vehicle_and_its_events E data db h vehicle used :
  quiet E ->
  (forall l, order_by_created_at_desc E l ≡ₚ l) ->
  let vid := Py.strip (Py.str (Py.or_ (Py.or_ (Py.get data "vehicleID")
                                              (Py.get data "vehicle_id"))
                                      (Py.VStr ""))) in
  vid <> "" ->
  resolution (Py.VStr vid) db = inr (Some (vehicle, used)) ->
  has_columns ["id"; "vehicle_id"; "intensity"; "lat"; "lng"; "timestamp"; "created_at"]
              (events_columns db) = true ->
  exists details events,
    serve (User_app.validate_id E data) db h
    = (mk_response 200
         (JValid (v_id vehicle, v_vehicle_id vehicle, v_model vehicle, v_owner vehicle,
                  v_registration vehicle, details)
                 events),
       db, h, []) /\
    (text_truthy (v_accident_details vehicle) = true ->
     v_accident_details vehicle = Some details) /\
    (text_truthy (v_accident_details vehicle) = false ->
     details = "No recent accidents reported.") /\
    (length events <= 50)%nat /\
    (forall ev, ev ∈ events ->
       (ev.1.1.1.1.2 = v_vehicle_id vehicle \/
        ev.1.1.1.1.2 = Py.str (Py.VInt (v_id vehicle))) /\
       exists e, e ∈ accident_events db /\
                 e_id e = ev.1.1.1.1.1 /\ e_vehicle_id e = ev.1.1.1.1.2).
Proof.
  intros Hq Hsort vid Hne Hres Hcols.
  destruct (validate_id_found E data (mk_world (connect db) h []) vehicle used Hq Hne Hres)
    as (w' & Hc & Hrun).
  change (view (conn (mk_world (connect db) h []))) with db in Hrun.
  rewrite Hcols in Hrun.
  eexists _, _. split; [rewrite (serve_only_counted _ _ _ _ _ Hrun Hc); reflexivity|].
  split.
  { intros Ht. rewrite Ht. destruct (v_accident_details vehicle); [reflexivity|discriminate]. }
  split.
  { intros Ht. rewrite Ht. reflexivity. }
  split.
  { rewrite length_map, length_take. lia. }
  intros ev Hin. apply list_elem_of_fmap in Hin as (e & -> & Hin). simpl.
  apply elem_of_take in Hin as (i & Hin & _).
  apply list_elem_of_lookup_2 in Hin. rewrite Hsort in Hin.
  apply list_elem_of_filter in Hin as [Hcand Hin].
  split; [|exists e; auto].
  apply dedupe_elem in Hcand. apply elem_of_app in Hcand as [Hcand|Hcand].
  - left. destruct (bool_decide _); [inversion Hcand|].
    apply list_elem_of_singleton in Hcand. exact Hcand.
  - right. apply list_elem_of_singleton in Hcand. exact Hcand.
Qed.

Lemma validate_id_reports_the_vehicle_and_its_events_witness :
  let db := file_after (serve (User_app.hardware_event Sample.E
                                 (Sample.collision "VHL2023" "rear collision"))
                              Sample.db Sample.hub0) in
  let data : gmap string Py.value := <["vehicleID" := Py.VStr " VHL2023 "]> ∅ in
  exists events,
    serve (User_app.validate_id Sample.E data) db Sample.hub0
    = (mk_response 200
         (JValid (1, "VHL2023", Some "Audi A3", Some "Aravindhan", Some "TN-09-AB-0009",
                  "rear collision") events),
       db, Sample.hub0, []) /\
    (length events <= 50)%nat.
Proof.
  intros db data.
  destruct (validate_id_reports_the_vehicle_and_its_events Sample.E data db Sample.hub0
              (User_app.summarise Sample.E (Py.VStr "rear collision") Sample.demo)
              "vehicle_id")
    as (details & events & Hs & Hsome & _ & Hlen & _).
  - split; [intros n; reflexivity | reflexivity].
  - intros l. reflexivity.
  - vm_compute. discriminate.
  - vm_compute. reflexivity.
  - vm_compute. reflexivity.
  - exists events. split; [|exact Hlen].
    assert (Hd : Some "rear collision" = Some details) by (apply Hsome; reflexivity).
    injection Hd as <-. exact Hs.
Defined.

End Listings.

Section Starting.
Import Sqlite Runtime Props Invariants.

Lemma events_columns_stay d d' :
  rtc step d d' -> events_columns d <> [] -> events_columns d' <> [].
Proof.
  induction 1 as [d | d d1 d2 Hstep _ IH]; intros Hne; [exact Hne|].
  apply IH. apply (step_events_columns _ _ Hstep Hne).
Qed.

(** X13. User_app.py cannot start on an event log that Dev_app.py created.
    If [accident_events] is first created by [init_db] of Dev_app.py, it
    has the columns id, vehicle_id, event_time, details and meta_json, and
    no later start of any of the three programs and no request gives it a
    column [timestamp].  [init_db] of User_app.py, which runs when the
    module is loaded, names that column in its CREATE INDEX: on every
    later state of the file it raises OperationalError, and the event log
    it leaves has the columns it found. *)
Theorem user_app_cannot_start_on_dev_app_log d0 d1 d :
  events_columns d0 = [] ->
  Dev_app.init_db d0 = inr d1 ->
  rtc step d1 d ->
  (User_app.init_db d).1 = inl OperationalError /\
  events_columns (User_app.init_db d).2 = events_columns d.
Proof.
  intros Hnone Hinit Hsteps.
  apply dev_init_db_inv in Hinit as (_ & Hcols & _).
  rewrite Hnone in Hcols.
  change (events_columns d1 = ["id"; "vehicle_id"; "event_time"; "details"; "meta_json"])
    in Hcols.
  assert (Hne1 : events_columns d1 <> []) by (rewrite Hcols; discriminate).
  pose proof (events_columns_stay _ _ Hsteps Hne1) as Hne.
  assert (Hlack : "timestamp" ∉ events_columns d).
  { rewrite (events_columns_fixed _ _ Hsteps Hne1); try discriminate.
    rewrite Hcols. apply (bool_decide_eq_false_1 _). reflexivity. }
  assert (Hno : has_columns ["vehicle_id"; "timestamp"] (events_columns d) = false).
  { apply has_columns_lacking with (c := "timestamp"); [|exact Hlack].
    apply (bool_decide_eq_true_1 _). reflexivity. }
  split.
  - unfold User_app.init_db. cbv zeta. cbn [events_columns].
    rewrite (create_table_existing _ (events_columns d)) by exact Hne.
    rewrite Hno. reflexivity.
  - rewrite user_init_db_file. simpl. apply create_table_existing. exact Hne.
Qed.

Lemma user_app_cannot_start_on_dev_app_log_witness :
  let d1 := mk_database
              ["id"; "vehicle_id"; "model"; "owner"; "registration"; "accident_details";
               "created_at"]
              ["id"; "vehicle_id"; "event_time"; "details"; "meta_json"] [] 0 [] 0 in
  let d := file_after (serve (Dev_app.add_vehicle Sample.E
                                (Sample.register "NEW2" "Tata Ace" "reported"))
                             d1 Sample.hub0) in
  Dev_app.init_db empty_file = inr d1 /\
  map v_vehicle_id (vehicles d) = ["NEW2"] /\
  (User_app.init_db d).1 = inl OperationalError.
Proof.
  intros d1 d. split; [reflexivity|]. split; [vm_compute; reflexivity|].
  destruct (user_app_cannot_start_on_dev_app_log empty_file d1 d) as [Hraise _].
  - reflexivity.
  - reflexivity.
  - apply rtc_once. apply step_request. apply by_dev_add_vehicle.
  - exact Hraise.
Defined.

(** The table [vehicles] exists without [created_at] and has a row. *)
Lemma stale_registry_step d d' :
  step d d' ->
  vehicles_columns d <> [] /\ ("created_at" ∉ vehicles_columns d) /\ vehicles d <> [] ->
  vehicles_columns d' <> [] /\ ("created_at" ∉ vehicles_columns d') /\ vehicles d' <> [].
Proof.
  intros [d0 | E d0 | d0 d1 Hinit | d0 d1 Hreq] (Hne & Hno & Hrows).
  - rewrite user_init_db_file. simpl. rewrite create_table_existing by exact Hne. auto.
  - unfold Db_init.init_db. destruct (vehicles d0) eqn:Hv; [contradiction|].
    simpl. rewrite create_table_existing by exact Hne. auto.
  - exfalso. unfold Dev_app.init_db in Hinit.
    rewrite create_table_existing in Hinit by exact Hne.
    rewrite bool_decide_eq_false_2 in Hinit by exact Hno.
    rewrite bool_decide_eq_false_2 in Hinit by exact Hrows. discriminate.
  - apply request_writes_safe in Hreq as [(Hc & _ & [k Hk] & _) _]. rewrite Hc.
    split; [exact Hne|]. split; [exact Hno|].
    intros Hnil. unfold keys in Hk. rewrite Hnil in Hk. simpl in Hk.
    destruct (vehicles d0); [contradiction | discriminate].
Qed.

(** X14. Dev_app.py cannot start on a registry that User_app.py created
    and filled.  If the file has no [vehicles] table when User_app.py
    starts, the table is created without [created_at]; once a vehicle has
    been registered through User_app's /add_vehicle, [init_db] of
    Dev_app.py raises (SQLite refuses to add a column with a non-constant
    default to a table that has rows), and it still raises after any
    further starts of User_app.py or db_init.py and any further requests. *)
Theorem dev_app_cannot_start_after_user_app_registration
    E d0 data h resp db' h' tr msg vid d :
  vehicles_columns d0 = [] ->
  serve (User_app.add_vehicle E data) (User_app.init_db d0).2 h = (resp, db', h', tr) ->
  json_body resp = JUpserted msg vid ->
  rtc step db' d ->
  Dev_app.init_db d = inl OperationalError.
Proof.
  intros Hnone Hs Hbody Hsteps.
  assert (Hstale : vehicles_columns db' <> [] /\ ("created_at" ∉ vehicles_columns db') /\
                   vehicles db' <> []).
  { assert (Hw : request_writes (User_app.init_db d0).2 db').
    { replace db' with (file_after (serve (User_app.add_vehicle E data)
                                          (User_app.init_db d0).2 h))
        by (rewrite Hs; reflexivity).
      apply by_user_add_vehicle. }
    apply request_writes_safe in Hw as [(Hc & _) _].
    rewrite Hc. rewrite user_init_db_file. simpl. rewrite Hnone. simpl.
    split; [discriminate|]. split; [apply (bool_decide_eq_false_1 _); reflexivity|].
    apply serve_inv in Hs as (r & w' & Hm & -> & -> & -> & ->).
    destruct r as [e|[st body]]; [discriminate|]. simpl in Hbody. subst body.
    apply user_add_vehicle_upserted in Hm as (_ & _ & _ & _ & _ & _ & _ & (row & Hin & _) & _).
    intros Hnil. rewrite Hnil in Hin. inversion Hin. }
  clear Hs Hbody.
  induction Hsteps as [d | d d1 d2 Hstep _ IH].
  - destruct Hstale as (Hne & Hno & Hrows). unfold Dev_app.init_db.
    rewrite create_table_existing by exact Hne.
    rewrite bool_decide_eq_false_2 by exact Hno.
    rewrite bool_decide_eq_false_2 by exact Hrows. reflexivity.
  - apply IH. eapply stale_registry_step; eauto.
Qed.

Lemma dev_app_cannot_start_after_user_app_registration_witness :
  let out := serve (User_app.add_vehicle Sample.E (<["vehicle_id" := Py.VStr "TRK7"]> ∅))
                   (User_app.init_db empty_file).2 Sample.hub0 in
  status out.1.1.1 = 201 /\
  Dev_app.init_db (Db_init.init_db Sample.E out.1.1.2) = inl OperationalError.
Proof.
  intros out. split; [vm_compute; reflexivity|].
  apply (dev_app_cannot_start_after_user_app_registration Sample.E empty_file
           (<["vehicle_id" := Py.VStr "TRK7"]> ∅) Sample.hub0
           out.1.1.1 out.1.1.2 out.1.2 out.2 "vehicle added/updated" "TRK7").
  - reflexivity.
  - vm_compute. reflexivity.
  - vm_compute. reflexivity.
  - apply rtc_once. apply step_db_init.
Defined.

(** X15. Each [init_db] is idempotent on [vehicles] and
    [accident_events]: running it a second time, right after a run that
    succeeded, changes nothing.  For User_app.py and
    Dev_app.py this holds on every file (for Dev_app.py: whenever the first
    run did not raise, the second does not raise either); for db_init.py it
    holds whatever the two clocks show, because the demo vehicle is only
    inserted into an empty table. *)
Theorem init_db_idempotent d :
  User_app.init_db (User_app.init_db d).2 = User_app.init_db d /\
  (forall E E', Db_init.init_db E' (Db_init.init_db E d) = Db_init.init_db E d) /\
  (forall d', Dev_app.init_db d = inr d' -> Dev_app.init_db d' = inr d').
Proof.
  split; [|split].
  - rewrite user_init_db_file. unfold User_app.init_db. simpl.
    destruct (vehicles_columns d), (events_columns d); reflexivity.
  - intros E E'. unfold Db_init.init_db.
    destruct (vehicles d) eqn:Hv; simpl;
      destruct (vehicles_columns d), (events_columns d); reflexivity.
  - intros d' Hinit. apply dev_init_db_inv in Hinit as (Hvc & Hec & Hv & Hvs & He & Hes).
    unfold Dev_app.init_db.
    assert (Hc : "created_at" ∈ vehicles_columns d')
      by (rewrite Hvc; apply add_if_missing_elem; auto).
    assert (Hd : "details" ∈ events_columns d')
      by (rewrite Hec; rewrite !add_if_missing_elem; auto).
    assert (Hm : "meta_json" ∈ events_columns d')
      by (rewrite Hec; rewrite !add_if_missing_elem; auto).
    rewrite (create_table_existing _ (vehicles_columns d'))
      by (rewrite Hvc; apply add_if_missing_nonempty).
    rewrite (create_table_existing _ (events_columns d'))
      by (rewrite Hec; apply add_if_missing_nonempty).
    rewrite (bool_decide_eq_true_2 _ Hc). simpl.
    rewrite !add_if_missing_present by
      (try assumption; rewrite add_if_missing_present; assumption).
    destruct d'. reflexivity.
Qed.

End Starting.

Section VehicleEvents.
Import Sqlite Runtime Props Invariants.

(** X16. /vehicle/<vid>/events never lists the events of a registered
    vehicle.  With a storage engine that fails nothing: if the identifier
    in the path resolves to a row, the handler raises AttributeError (it
    calls [get] on the [sqlite3.Row]) and has changed nothing; if it
    resolves to no row, the handler returns at most 100 rows of the event
    log, each stored under exactly the text of the path (not trimmed),
    provided the log has the columns vehicle_id and timestamp and the
    sorter only reorders. *)
Theorem get_vehicle_events_answers E sorter vid w :
  quiet E ->
  (forall found,
     resolution (Py.VStr vid) (view (conn w)) = inr (Some found) ->
     exists w', User_app.get_vehicle_events E sorter vid w = (inl AttributeError, w') /\
                only_counted w w') /\
  (resolution (Py.VStr vid) (view (conn w)) = inr None ->
   has_columns ["vehicle_id"; "timestamp"] (events_columns (view (conn w))) = true ->
   (forall l, sorter l ≡ₚ l) ->
   exists events w',
     User_app.get_vehicle_events E sorter vid w = (inr events, w') /\
     only_counted w w' /\
     (length events <= 100)%nat /\
     forall e, e ∈ events -> e ∈ accident_events (view (conn w)) /\ e_vehicle_id e = vid).
Proof.
  intros Hq.
  destruct (find_vehicle_by_identifier_quiet E (Py.VStr vid) w Hq) as (w1 & Hc1 & Hrun).
  split.
  - intros found Hres. rewrite Hres in Hrun.
    exists w1. split; [|exact Hc1].
    unfold User_app.get_vehicle_events. rewrite (bind_eq _ _ _ _ _ Hrun). reflexivity.
  - intros Hres Hcols Hsort. rewrite Hres in Hrun.
    unfold User_app.get_vehicle_events. rewrite (bind_eq _ _ _ _ _ Hrun).
    rewrite (query_quiet E _ w1 Hq). rewrite (only_counted_view _ _ Hc1). rewrite Hcols.
    eexists _, _. split; [reflexivity|].
    split; [eapply only_counted_trans; [exact Hc1 | apply only_counted_stepped]|].
    split; [rewrite length_take; lia|].
    intros e Hin. apply elem_of_take in Hin as (i & Hin & _).
    apply list_elem_of_lookup_2 in Hin. rewrite Hsort in Hin.
    apply list_elem_of_filter in Hin as [Hcand Hin]. split; [exact Hin|].
    apply list_elem_of_singleton in Hcand. exact Hcand.
Qed.

Lemma get_vehicle_events_answers_witness :
  exists w',
    User_app.get_vehicle_events Sample.E (fun l => l) "VHL2023" Sample.w0
    = (inl AttributeError, w') /\
    only_counted Sample.w0 w'.
Proof.
  destruct (get_vehicle_events_answers Sample.E (fun l => l) "VHL2023" Sample.w0)
    as [Hfound _].
  - split; [intros n; reflexivity | reflexivity].
  - apply (Hfound (Sample.demo, "vehicle_id")). vm_compute. reflexivity.
Defined.

End VehicleEvents.

(* ===================================================================== *)
(** ** A stream session from its first frame to its last *)
(* ===================================================================== *)

Section Sessions.
Import Sqlite Runtime Props Invariants User_app.

Lemma publish_all_lookup vid arr q ps :
  NoDup arr -> q ∈ arr ->
  forall h items,
    subscribers h !! vid = Some arr -> queues h !! q = Some items ->
    subscribers (foldl (fun h p => sse_publish vid p h) h ps) = subscribers h /\
    queues (foldl (fun h p => sse_publish vid p h) h ps) !! q = Some (items ++ ps).
Proof.
  intros Hnd Hq. induction ps as [|p ps IH]; intros h items Ha Hitems; simpl.
  - rewrite app_nil_r. auto.
  - destruct (IH (sse_publish vid p h) (items ++ [p])) as [Hs Hl].
    + exact Ha.
    + unfold sse_publish. simpl. rewrite Ha. simpl.
      rewrite (foldl_append_lookup p arr Hnd). rewrite decide_True by exact Hq.
      rewrite Hitems. reflexivity.
    + split; [exact Hs|]. rewrite Hl, <- app_assoc. reflexivity.
Qed.

Lemma drain items :
  forall s h,
    running s -> queues h !! s_q s = Some items ->
    s_sent (advances (length items) s h).1 = s_sent s ++ map Data items /\
    s_q (advances (length items) s h).1 = s_q s /\
    s_vid (advances (length items) s h).1 = s_vid s /\
    running (advances (length items) s h).1 /\
    queues (advances (length items) s h).2 !! s_q s = Some [] /\
    subscribers (advances (length items) s h).2 = subscribers h.
Proof.
  induction items as [|item rest IH]; intros s h Hrun Hq; simpl.
  - rewrite app_nil_r. auto 10.
  - assert (Hadv : advance s h =
                   (mk_session (s_vid s) (s_q s)
                      (AtYield (match s_gen s with
                                | AtYield n | Sleeping n => n
                                | _ => 0%nat
                                end))
                      (s_sent s ++ [Data item]),
                    mk_hub (subscribers h) (<[s_q s := rest]> (queues h)) (next_queue h))).
    { destruct Hrun as (n & [Hg|Hg]); unfold advance, poll; rewrite Hg, Hq; reflexivity. }
    rewrite Hadv.
    match goal with
    | |- context [advances _ ?s1 ?h1] =>
        destruct (IH s1 h1) as (H1 & H2 & H3 & H4 & H5 & H6)
    end.
    + eexists. left. reflexivity.
    + simpl. apply lookup_insert_eq.
    + simpl in *. rewrite H1, <- app_assoc. auto 10.
Qed.

(** X17. A subscriber receives every event published to its key, once
    and in order.  On every hub the process can reach: open a stream for
    [vid], publish any list of events under exactly [vid], then let the
    generator run as many times as there are events plus one.  The frames
    sent are the connection acknowledgement followed by the events in the
    order they were published, nothing else; the session's queue is empty
    afterwards and the session is still registered. *)
Theorem published_events_arrive_in_order h vid ps :
  reachable h ->
  let opened := stream_vehicle vid h in
  let h2 := foldl (fun h p => sse_publish vid p h) opened.2 ps in
  let after := advances (S (length ps)) opened.1 h2 in
  s_sent after.1 = Connected vid :: map Data ps /\
  queues after.2 !! s_q opened.1 = Some [] /\
  registered after.2 vid (s_q opened.1).
Proof.
  intros Hr opened h2 after.
  pose proof (hub_wf_subscribe vid h (reachable_wf h Hr)) as (_ & Hnd & _).
  unfold stream_vehicle, sse_subscribe in opened. simpl in opened.
  set (q := next_queue h) in *.
  set (h1 := (sse_subscribe vid h).2) in *.
  assert (Ha : subscribers h1 !! vid = Some (default [] (subscribers h !! vid) ++ [q])).
  { unfold h1, sse_subscribe. simpl. apply lookup_insert_eq. }
  assert (Hq0 : queues h1 !! q = Some []).
  { unfold h1, sse_subscribe. simpl. apply lookup_insert_eq. }
  assert (Hin : q ∈ default [] (subscribers h !! vid) ++ [q]).
  { apply elem_of_app. right. apply list_elem_of_singleton. reflexivity. }
  destruct (publish_all_lookup vid _ q ps (Hnd _ _ Ha) Hin h1 [] Ha Hq0) as [Hsub Hl].
  change (subscribers h2 = subscribers h1) in Hsub.
  change (queues h2 !! q = Some ps) in Hl.
  unfold after, opened. simpl.
  change (advance (mk_session vid q Created []) h2)
    with (mk_session vid q (AtYield 0) [Connected vid], h2).
  destruct (drain ps (mk_session vid q (AtYield 0) [Connected vid]) h2)
    as (H1 & _ & _ & _ & H5 & H6).
  - exists 0%nat. left. reflexivity.
  - exact Hl.
  - simpl in H1, H5, H6 |- *. split; [exact H1|]. split; [exact H5|].
    unfold registered. rewrite H6, Hsub, Ha. exact Hin.
Qed.

Lemma published_events_arrive_in_order_witness :
  let opened := stream_vehicle "VHL2023" Sample.hub0 in
  let ps := [Sample.alert "VHL2023" "first"; Sample.alert "VHL2023" "second"] in
  let h2 := foldl (fun h p => sse_publish "VHL2023" p h) opened.2 ps in
  s_sent (advances 3 opened.1 h2).1 = Connected "VHL2023" :: map Data ps.
Proof.
  intros opened ps h2.
  destruct (published_events_arrive_in_order Sample.hub0 "VHL2023" ps) as [H _].
  - apply reach_start.
  - exact H.
Defined.

Lemma idle_polls h n :
  forall s k,
    s_gen s = AtYield k \/ s_gen s = Sleeping k ->
    (k + S n < 10)%nat ->
    default [] (queues h !! s_q s) = [] ->
    advances (S n) s h = (mk_session (s_vid s) (s_q s) (Sleeping (k + S n)) (s_sent s), h).
Proof.
  induction n as [|n IH]; intros s k Hg Hk Hq.
  - simpl. unfold advance, poll. destruct Hg as [Hg|Hg]; rewrite Hg, Hq;
      (replace (10 <=? S k)%nat with false by (symmetry; apply Nat.leb_gt; lia));
      rewrite Nat.add_1_r; reflexivity.
  - change (advances (S (S n)) s h)
      with (let '(s', h') := advance s h in advances (S n) s' h').
    assert (Hadv : advance s h = (mk_session (s_vid s) (s_q s) (Sleeping (S k)) (s_sent s), h)).
    { unfold advance, poll. destruct Hg as [Hg|Hg]; rewrite Hg, Hq;
        (replace (10 <=? S k)%nat with false by (symmetry; apply Nat.leb_gt; lia));
        reflexivity. }
    rewrite Hadv. rewrite (IH _ (S k)); simpl; auto; [|lia].
    replace (S (k + S n)) with (k + S (S n))%nat by lia. reflexivity.
Qed.

(** X18. The heartbeat.  A session whose queue stays empty sends nothing
    for nine polls (one second of sleep each) and sends the empty frame at
    the tenth, after which the idle counter is 0 again.  With the counter
    at [k] (it is not reset when an event is sent) the heartbeat comes at
    poll [10 - k], and no frame is sent at any earlier poll. *)
Theorem heartbeat_at_the_tenth_idle_poll s h k :
  s_gen s = AtYield k \/ s_gen s = Sleeping k ->
  (k < 10)%nat ->
  default [] (queues h !! s_q s) = [] ->
  (forall n, (n < 10 - k)%nat ->
     s_sent (advances n s h).1 = s_sent s /\ (advances n s h).2 = h) /\
  advances (10 - k) s h
  = (mk_session (s_vid s) (s_q s) (AtYield 0) (s_sent s ++ [Heartbeat]), h).
Proof.
  intros Hg Hk Hq.
  assert (Hlast : forall s', (s_gen s' = AtYield 9 \/ s_gen s' = Sleeping 9) ->
                    default [] (queues h !! s_q s') = [] ->
                    advance s' h
                    = (mk_session (s_vid s') (s_q s') (AtYield 0) (s_sent s' ++ [Heartbeat]), h)).
  { intros s' Hg' Hq'. unfold advance, poll.
    destruct Hg' as [Hg'|Hg']; rewrite Hg', Hq'; reflexivity. }
  split.
  - intros n Hn. destruct n as [|n]; [simpl; auto|].
    rewrite (idle_polls h n s k Hg) by (try lia; exact Hq). simpl. auto.
  - destruct (decide (k = 9%nat)) as [->|Hne].
    + simpl. rewrite (Hlast s Hg Hq). reflexivity.
    + replace (10 - k)%nat with (S (S (8 - k))) by lia.
      assert (Hsplit : forall n s0 h0,
                advances (S n) s0 h0 = advance (advances n s0 h0).1 (advances n s0 h0).2).
      { induction n as [|n IHn]; intros s0 h0.
        - simpl. destruct (advance s0 h0); reflexivity.
        - change (advances (S (S n)) s0 h0)
            with (let '(s', h') := advance s0 h0 in advances (S n) s' h').
          destruct (advance s0 h0) as [s1 h1] eqn:Ha. rewrite IHn.
          change (advances (S n) s0 h0)
            with (let '(s', h') := advance s0 h0 in advances n s' h').
          rewrite Ha. reflexivity. }
      rewrite Hsplit. rewrite (idle_polls h (8 - k) s k Hg) by (try lia; exact Hq).
      simpl fst. simpl snd. rewrite Hlast; simpl; auto.
      right. f_equal. lia.
Qed.

Lemma heartbeat_at_the_tenth_idle_poll_witness :
  let s := mk_session "VHL2023" 0 (AtYield 0) [Connected "VHL2023"] in
  let h := (sse_subscribe "VHL2023" Sample.hub0).2 in
  s_sent (advances 9 s h).1 = [Connected "VHL2023"] /\
  s_sent (advances 10 s h).1 = [Connected "VHL2023"; Heartbeat].
Proof.
  intros s h.
  destruct (heartbeat_at_the_tenth_idle_poll s h 0) as [Hquiet Hbeat].
  - left. reflexivity.
  - lia.
  - reflexivity.
  - split.
    + apply (Hquiet 9%nat). simpl. lia.
    + change (advances 10 s h) with (advances (10 - 0) s h). rewrite Hbeat. reflexivity.
Defined.

Lemma filter_all {A} (P : A -> Prop) `{forall x, Decision (P x)} (l : list A) :
  Forall P l -> filter P l = l.
Proof.
  induction 1 as [|x l Hx _ IH]; [reflexivity|].
  rewrite filter_cons_True by exact Hx. rewrite IH. reflexivity.
Qed.

Lemma remove_first_own (same : nat -> bool) q arr :
  NoDup arr -> (forall x, x ∈ arr -> same x = true <-> x = q) ->
  remove_first same arr = filter (fun x => x <> q) arr.
Proof.
  induction arr as [|x rest IH]; intros Hnd Hsame; simpl; [reflexivity|].
  apply NoDup_cons in Hnd as [Hx Hnd].
  destruct (same x) eqn:Hs.
  - apply Hsame in Hs; [|apply elem_of_cons; auto]. subst x.
    rewrite filter_cons_False by auto.
    symmetry. apply filter_all. apply Forall_forall. intros y Hy ->. contradiction.
  - assert (x <> q) as Hne.
    { intros ->. rewrite (proj2 (Hsame q ltac:(apply elem_of_cons; auto)) eq_refl) in Hs.
      discriminate. }
    rewrite filter_cons_True by exact Hne. f_equal. apply IH; [exact Hnd|].
    intros y Hy. apply Hsame. apply elem_of_cons. auto.
Qed.

(** X19. When closing a stream unsubscribes the right handle.  On a hub
    that satisfies the hub invariant, let a session be suspended at a
    [yield], registered under its key, and let no other handle registered
    under that key have a queue with the same contents as the session's.
    Then closing the stream removes exactly the session's handle from the
    list of its key (the other handles keep their order), leaves the lists
    of all other keys and all queues as they are, and events published to
    the key afterwards no longer reach the session's queue. *)
Theorem close_stream_unsubscribes_own_handle s h n arr :
  hub_wf h ->
  s_gen s = AtYield n ->
  subscribers h !! s_vid s = Some arr -> s_q s ∈ arr ->
  (forall x, x ∈ arr -> x <> s_q s -> queues h !! x <> queues h !! s_q s) ->
  let h' := (close_stream s h).2 in
  subscribers h' !! s_vid s = Some (filter (fun x => x <> s_q s) arr) /\
  ~ registered h' (s_vid s) (s_q s) /\
  (forall vid, vid <> s_vid s -> subscribers h' !! vid = subscribers h !! vid) /\
  queues h' = queues h /\
  (forall p, queues (sse_publish (s_vid s) p h') !! s_q s = queues h !! s_q s).
Proof.
  intros (_ & Hnd & _) Hg Ha Hin Hother h'.
  assert (Hsame : forall x, x ∈ arr -> same_queue h (s_q s) x = true <-> x = s_q s).
  { intros x Hx. unfold same_queue. rewrite orb_true_iff, !bool_decide_eq_true.
    split; [|auto]. intros [Heq|Heq]; [exact Heq|].
    destruct (decide (x = s_q s)) as [Hd|Hd]; [exact Hd|].
    exfalso. exact (Hother x Hx Hd Heq). }
  assert (Hex : existsb (same_queue h (s_q s)) arr = true).
  { apply existsb_exists. exists (s_q s). split; [apply list_elem_of_In; exact Hin|].
    apply Hsame; auto. }
  assert (Hne : bool_decide (arr = []) = false).
  { apply bool_decide_eq_false. intros ->. inversion Hin. }
  assert (Hh' : h' = mk_hub (<[s_vid s := filter (fun x => x <> s_q s) arr]> (subscribers h))
                            (queues h) (next_queue h)).
  { unfold h', close_stream. rewrite Hg. simpl. unfold sse_unsubscribe.
    rewrite Ha, Hne, Hex. simpl.
    rewrite (remove_first_own _ (s_q s) arr (Hnd _ _ Ha) Hsame). reflexivity. }
  rewrite Hh'. simpl.
  assert (Hgone : s_q s ∉ filter (fun x => x <> s_q s) arr).
  { intros Hq. apply list_elem_of_filter in Hq as [Hq _]. contradiction. }
  split; [apply lookup_insert_eq|].
  split; [unfold registered; simpl; rewrite lookup_insert_eq; exact Hgone|].
  split; [intros vid Hv; apply lookup_insert_ne; auto|].
  split; [reflexivity|].
  intros p. unfold sse_publish. simpl. rewrite lookup_insert_eq. simpl.
  rewrite foldl_append_lookup.
  - rewrite decide_False by exact Hgone. reflexivity.
  - apply NoDup_filter. eauto.
Qed.

Lemma close_stream_unsubscribes_own_handle_witness :
  let a := stream_vehicle "VHL2023" Sample.hub0 in
  let b := stream_vehicle "VHL2023" a.2 in
  let h := sse_publish "VHL2023" (Sample.alert "VHL2023" "rear collision") b.2 in
  let a1 := advance (advance a.1 h).1 (advance a.1 h).2 in
  let sb := mk_session "VHL2023" (s_q b.1) (AtYield 0) [Connected "VHL2023"] in
  subscribers (close_stream sb a1.2).2 !! "VHL2023" = Some [s_q a.1].
Proof.
  intros a b h a1 sb.
  destruct (close_stream_unsubscribes_own_handle sb a1.2 0 [0%nat; 1%nat]) as [H _].
  - apply reachable_wf. unfold a1. apply reach_advance, reach_advance.
    unfold h. apply reach_publish. unfold b. apply reach_subscribe.
    unfold a. apply reach_subscribe, reach_start.
  - reflexivity.
  - vm_compute. reflexivity.
  - vm_compute. apply elem_of_cons. right. apply elem_of_cons. left. reflexivity.
  - intros x Hx Hne. vm_compute in Hne.
    apply elem_of_cons in Hx as [->|Hx].
    + vm_compute. discriminate.
    + apply list_elem_of_singleton in Hx. subst x. contradiction.
  - etrans; [exact H|]. vm_compute. reflexivity.
Defined.

End Sessions.

(* ===================================================================== *)
(** ** Accounts and sessions *)
(* ===================================================================== *)

Section Accounts.
Import Sqlite Invariants Auth.

Lemma insert_user_inv now fullname username email pw_hash t t' :
  insert_user now fullname username email pw_hash t = inr t' ->
  let rowid := next_rowid (users_seq t) (map u_id (users t)) in
  rowid <= max_int64 /\
  (forall u, u ∈ users t -> u_username u <> username /\ u_email u <> email) /\
  t' = mk_table (users t ++ [mk_user rowid fullname username email pw_hash now]) rowid.
Proof.
  intros H rowid. unfold insert_user in H. fold rowid in H.
  destruct (max_int64 <? rowid) eqn:Hmax; [discriminate|].
  destruct (existsb _ _) eqn:Hex; [discriminate|].
  injection H as <-. apply Z.ltb_ge in Hmax.
  split; [exact Hmax|]. split; [|reflexivity].
  intros u Hin.
  assert (Hu : bool_decide (u_username u = username) || bool_decide (u_email u = email)
               = false).
  { destruct (_ || _) eqn:Hb; [|reflexivity].
    rewrite <- not_true_iff_false in Hex. exfalso. apply Hex.
    apply existsb_exists. exists u. split; [apply list_elem_of_In; exact Hin | exact Hb]. }
  apply orb_false_elim in Hu as [H1 H2].
  apply bool_decide_eq_false in H1, H2. auto.
Qed.

Lemma signup_inv W f now data t a t' :
  signup W f now data t = (a, t') ->
  (t' = t /\ a <> Message 201 true "Account created") \/
  (a = Message 201 true "Account created" /\
   exists fullname username email pw,
     stripped data "fullname" = Some fullname /\
     stripped data "username" = Some username /\
     stripped data "email" = Some email /\
     password_of data = Py.VStr pw /\
     bool_decide (fullname = "") || bool_decide (username = "")
       || bool_decide (email = "") || negb (Py.truthy (Py.VStr pw)) = false /\
     insert_user now fullname username email (generate_password_hash W pw) t = inr t').
Proof.
  unfold signup. intros H.
  repeat case_match; simplify_eq; try (left; split; [reflexivity | discriminate]).
  right. split; [reflexivity|]. eauto 12.
Qed.

Lemma signup_fields fullname username email pw :
  bool_decide (fullname = "") || bool_decide (username = "")
    || bool_decide (email = "") || negb (Py.truthy (Py.VStr pw)) = false ->
  fullname <> "" /\ username <> "" /\ email <> "" /\ pw <> "".
Proof.
  intros H. apply orb_false_elim in H as [H H4]. apply orb_false_elim in H as [H H3].
  apply orb_false_elim in H as [H1 H2].
  apply bool_decide_eq_false in H1, H2, H3.
  repeat split; try assumption.
  intros ->. discriminate.
Qed.

(** X20. Sign-up keeps the accounts unique and stores only complete ones.
    If ids, usernames and e-mail addresses are unique in [users], they are
    after any call of /signup, whatever the body and whichever step fails.
    Unless the answer is 201 [Account created] the table is exactly as
    before (blank or missing field: 400; taken username or e-mail: 400;
    anything else: 500).  When it is 201, exactly one row was appended: its
    fullname, username and e-mail are the posted values trimmed, none of
    them empty, and its password_hash is [generate_password_hash] of the
    posted password, which is a non-empty string and is not trimmed. *)
Theorem signup_keeps_accounts_unique W f now data t a t' :
  accounts_unique t ->
  signup W f now data t = (a, t') ->
  accounts_unique t' /\
  (a <> Message 201 true "Account created" -> t' = t) /\
  (a = Message 201 true "Account created" ->
   exists u pw,
     users t' = users t ++ [u] /\
     stripped data "fullname" = Some (u_fullname u) /\ u_fullname u <> "" /\
     stripped data "username" = Some (u_username u) /\ u_username u <> "" /\
     stripped data "email" = Some (u_email u) /\ u_email u <> "" /\
     password_of data = Py.VStr pw /\ pw <> "" /\
     u_password_hash u = generate_password_hash W pw).
Proof.
  intros (Hid & Hname & Hmail) H.
  apply signup_inv in H as [[-> Hno] | (-> & fullname & username & email & pw &
                                        Hf & Hu & He & Hp & Hfields & Hins)].
  - split; [repeat split; assumption|]. split; [reflexivity | contradiction].
  - apply signup_fields in Hfields as (Hf1 & Hu1 & He1 & Hp1).
    apply insert_user_inv in Hins as (_ & Hfree & ->).
    split; [|split; [intros Hc; contradiction|]].
    + unfold accounts_unique. simpl. rewrite !map_app. simpl.
      split; [|split]; apply NoDup_app; (split; [assumption|]);
        (split; [|apply NoDup_singleton]); intros x Hx Hx';
        apply list_elem_of_singleton in Hx'; subst x.
      * assert (next_rowid (users_seq t) (map u_id (users t))
                < next_rowid (users_seq t) (map u_id (users t)))
          by (apply next_rowid_above; exact Hx).
        lia.
      * apply list_elem_of_fmap in Hx as (u & Hu' & Hin).
        destruct (Hfree u Hin) as [Hne _]. congruence.
      * apply list_elem_of_fmap in Hx as (u & Hu' & Hin).
        destruct (Hfree u Hin) as [_ Hne]. congruence.
    + intros _. eexists _, pw. simpl. split; [reflexivity|]. auto 12.
Qed.

Lemma signup_keeps_accounts_unique_witness :
  let W := mk_werkzeug (fun p => String.append "h:" p)
                       (fun h p => bool_decide (h = String.append "h:" p)) in
  let data : gmap string Py.value :=
    <["fullname" := Py.VStr "Asha R"]>
      (<["username" := Py.VStr " asha "]>
         (<["email" := Py.VStr "asha@example.com"]>
            (<["password" := Py.VStr " s3cret "]> ∅))) in
  let first := signup W (fun _ => false) "2025-12-09 14:30:00" data (mk_table [] 0) in
  let second := signup W (fun _ => false) "2025-12-09 14:31:00" data first.2 in
  map u_username (users first.2) = ["asha"] /\
  second.1 = Message 400 false "Username or email already exists" /\
  second.2 = first.2.
Proof.
  intros W data first second.
  split; [vm_compute; reflexivity|]. split; [vm_compute; reflexivity|].
  destruct (signup_keeps_accounts_unique W (fun _ => false) "2025-12-09 14:31:00" data
              first.2 second.1 second.2) as (_ & Hsame & _).
  - vm_compute. repeat split; apply NoDup_singleton.
  - vm_compute. reflexivity.
  - apply Hsame. vm_compute. discriminate.
Defined.

Lemma find_last {A} (f : A -> bool) l x :
  (forall y, y ∈ l -> f y = false) -> f x = true -> find f (l ++ [x]) = Some x.
Proof.
  intros Hl Hx. induction l as [|y l IH]; simpl.
  - rewrite Hx. reflexivity.
  - rewrite (Hl y) by (apply elem_of_cons; auto). apply IH.
    intros z Hz. apply Hl. apply elem_of_cons. auto.
Qed.

(** X21. Who has signed up can log in.  Assume only that
    [check_password_hash] accepts the hash [generate_password_hash] made
    of the same password.  After a /signup answered 201, a /login with the
    same body (on the table the sign-up left, with a SELECT that does not
    fail) is answered 200; the session then holds the new account's id,
    its username and its fullname, both as stored (trimmed), whatever the
    session held before. *)
Theorem signup_then_login W f f' now data t t' session :
  (forall pw, check_password_hash W (generate_password_hash W pw) pw = true) ->
  signup W f now data t = (Message 201 true "Account created", t') ->
  f' 0%nat = false ->
  exists who,
    login W f' data t' session = (User 200 who, Some who) /\
    user_id who = next_rowid (users_seq t) (map u_id (users t)) /\
    stripped data "username" = Some (username who) /\
    stripped data "fullname" = Some (fullname who).
Proof.
  intros Hcheck H Hf'.
  apply signup_inv in H as [[_ Hno] | (_ & fullname & username & email & pw &
                                       Hf & Hu & He & Hp & Hfields & Hins)];
    [contradiction|].
  pose proof (signup_fields _ _ _ _ Hfields) as (Hf1 & Hu1 & He1 & Hp1).
  apply insert_user_inv in Hins as (_ & Hfree & ->).
  unfold login. rewrite Hu, Hp, Hf'. simpl users.
  rewrite (bool_decide_eq_false_2 _ Hu1).
  assert (Htruthy : Py.truthy (Py.VStr pw) = true).
  { apply orb_false_elim in Hfields as [_ Ht]. apply negb_false_iff in Ht. exact Ht. }
  rewrite Htruthy. simpl negb. simpl orb. cbv iota.
  rewrite find_last.
  - simpl. rewrite Hcheck. eexists. split; [reflexivity|]. simpl. auto.
  - intros y Hy. apply bool_decide_eq_false. apply (Hfree y Hy).
  - apply bool_decide_eq_true. reflexivity.
Qed.

Lemma signup_then_login_witness :
  let W := mk_werkzeug (fun p => String.append "h:" p)
                       (fun h p => bool_decide (h = String.append "h:" p)) in
  let data : gmap string Py.value :=
    <["fullname" := Py.VStr "Asha R"]>
      (<["username" := Py.VStr " asha "]>
         (<["email" := Py.VStr "asha@example.com"]>
            (<["password" := Py.VStr " s3cret "]> ∅))) in
  let t' := (signup W (fun _ => false) "2025-12-09 14:30:00" data (mk_table [] 0)).2 in
  exists who,
    login W (fun _ => false) data t' None = (User 200 who, Some who) /\
    stripped data "username" = Some (username who).
Proof.
  intros W data t'.
  destruct (signup_then_login W (fun _ => false) (fun _ => false) "2025-12-09 14:30:00"
              data (mk_table [] 0) t' None) as (who & Hlogin & _ & Hname & _).
  - intros pw. simpl. apply bool_decide_eq_true_2. reflexivity.
  - vm_compute. reflexivity.
  - reflexivity.
  - exists who. split; [exact Hlogin | exact Hname].
Defined.

(** X22. /login changes the session only when it authenticates.  For
    every body, table, session and failure plan, either the answer is 200
    and the session is replaced by the id, username and fullname of a
    stored account whose username is the posted one (trimmed) and whose
    stored hash [check_password_hash] accepts for the posted password; or
    the answer is 400, 401 or 500 and the session is exactly what it was.
    An unknown username and a wrong password get the same 401 answer. *)
Theorem login_changes_the_session_only_on_success W f data t session a session' :
  login W f data t session = (a, session') ->
  (exists u pw,
     a = User 200 (mk_identity (u_id u) (u_username u) (u_fullname u)) /\
     session' = Some (mk_identity (u_id u) (u_username u) (u_fullname u)) /\
     u ∈ users t /\
     stripped data "username" = Some (u_username u) /\
     password_of data = Py.VStr pw /\
     check_password_hash W (u_password_hash u) pw = true) \/
  (session' = session /\
   (a = Message 400 false "Username and password required" \/
    a = Message 401 false "Invalid username or password" \/
    a = ServerError)).
Proof.
  unfold login. intros H.
  destruct (stripped data "username") as [name|] eqn:Hname;
    [|injection H as <- <-; right; auto].
  destruct (_ || _); [injection H as <- <-; right; auto|].
  destruct (f 0%nat); [injection H as <- <-; right; auto|].
  destruct (find _ _) as [u|] eqn:Hfind; [|injection H as <- <-; right; auto].
  apply find_some in Hfind as [Hin Hu]. apply bool_decide_eq_true in Hu.
  destruct (password_of data) as [| | |pw] eqn:Hp;
    try (injection H as <- <-; right; auto).
  destruct (check_password_hash W _ pw) eqn:Hc; injection H as <- <-; [|right; auto].
  left. exists u, pw. rewrite Hu. apply list_elem_of_In in Hin. auto 10.
Qed.

Lemma login_changes_the_session_only_on_success_witness :
  let W := mk_werkzeug (fun p => String.append "h:" p)
                       (fun h p => bool_decide (h = String.append "h:" p)) in
  let t := mk_table [mk_user 1 "Demo User" "DemoUser1!" "demo@example.com"
                             "h:Demo@1234" "2025-01-01 00:00:00"] 1 in
  let data : gmap string Py.value :=
    <["username" := Py.VStr "DemoUser1!"]> (<["password" := Py.VStr "demo"]> ∅) in
  let held := Some (mk_identity 7 "asha" "Asha R") in
  let out := login W (fun _ => false) data t held in
  out.1 = Message 401 false "Invalid username or password" /\ out.2 = held.
Proof.
  intros W t data held out.
  destruct (login_changes_the_session_only_on_success W (fun _ => false) data t held
              out.1 out.2) as [(u & pw & Ha & _)|[Hs _]].
  - vm_compute. reflexivity.
  - exfalso. vm_compute in Ha. discriminate.
  - split; [vm_compute; reflexivity | exact Hs].
Defined.

End Accounts.

(* ===================================================================== *)
(** ** Dev_app's /events *)
(* ===================================================================== *)

Section DevListing.
Import Sqlite Runtime Props Invariants.

Lemma list_events_quiet E sorter v w :
  quiet E ->
  has_columns ["id"; "vehicle_id"; "event_time"; "details"; "meta_json"]
              (events_columns (view (conn w))) = true ->
  Dev_app.list_events E sorter v w =
  (inr (match v with
        | Some s =>
            if bool_decide (s = "")
            then take 500 (sorter (accident_events (view (conn w))))
            else sorter (filter (fun e => e_vehicle_id e = s)
                                (accident_events (view (conn w))))
        | None => take 500 (sorter (accident_events (view (conn w))))
        end),
   mk_world (mk_connection (disk (conn w)) None (S (executed (conn w)))) (sse w) (trace w)).
Proof.
  intros Hq Hcols. unfold Dev_app.list_events, finally.
  destruct v as [s|]; [destruct (bool_decide (s = ""))|];
    rewrite (query_quiet E _ w Hq), Hcols; reflexivity.
Qed.

(** X23. What Dev_app's /events returns.  With a storage engine that fails
    nothing, an event log that has the five columns the query names and a
    sorter that only reorders: with a non-empty vehicle_id parameter the
    answer holds every event stored under exactly that text, each once and
    with no limit on their number; without the parameter (or with an empty
    one) it holds at most 500 rows, all of them rows of the log, and the
    whole log when the log has at most 500 rows.  The request commits and
    publishes nothing. *)
Theorem list_events_answers E sorter v w :
  quiet E ->
  (forall l, sorter l ≡ₚ l) ->
  has_columns ["id"; "vehicle_id"; "event_time"; "details"; "meta_json"]
              (events_columns (view (conn w))) = true ->
  exists rows w',
    Dev_app.list_events E sorter v w = (inr rows, w') /\
    untouched w w' /\
    (forall s, v = Some s -> s <> "" ->
       rows ≡ₚ filter (fun e => e_vehicle_id e = s) (accident_events (view (conn w)))) /\
    (v = None \/ v = Some "" ->
       (length rows <= 500)%nat /\
       (forall e, e ∈ rows -> e ∈ accident_events (view (conn w))) /\
       ((length (accident_events (view (conn w))) <= 500)%nat ->
        rows ≡ₚ accident_events (view (conn w)))).
Proof.
  intros Hq Hsort Hcols. rewrite (list_events_quiet E sorter v w Hq Hcols).
  eexists _, _. split; [reflexivity|]. split; [repeat split|]. split.
  - intros s -> Hs. rewrite bool_decide_eq_false_2 by exact Hs. apply Hsort.
  - intros Hv.
    assert (Hrows : match v with
                    | Some s =>
                        if bool_decide (s = "")
                        then take 500 (sorter (accident_events (view (conn w))))
                        else sorter (filter (fun e => e_vehicle_id e = s)
                                            (accident_events (view (conn w))))
                    | None => take 500 (sorter (accident_events (view (conn w))))
                    end = take 500 (sorter (accident_events (view (conn w))))).
    { destruct Hv as [-> | ->]; reflexivity. }
    rewrite Hrows. split; [rewrite length_take; lia|]. split.
    + intros e Hin. apply elem_of_take in Hin as (i & Hin & _).
      apply list_elem_of_lookup_2 in Hin. rewrite Hsort in Hin. exact Hin.
    + intros Hlen. rewrite take_ge; [apply Hsort|].
      rewrite (Permutation_length (Hsort _)). exact Hlen.
Qed.

Lemma list_events_answers_witness :
  let d := file_after (serve (Dev_app.add_vehicle Sample.E
                                (Sample.register "NEW2" "Tata Ace" "reported"))
                             (mk_database Sample.vehicles_columns
                                ["id"; "vehicle_id"; "event_time"; "details"; "meta_json"]
                                [] 0 [] 0)
                             Sample.hub0) in
  exists rows w',
    Dev_app.list_events Sample.E (fun l => l) (Some "NEW2")
      (mk_world (connect d) Sample.hub0 []) = (inr rows, w') /\
    length rows = 1%nat.
Proof.
  intros d.
  destruct (list_events_answers Sample.E (fun l => l) (Some "NEW2")
              (mk_world (connect d) Sample.hub0 []))
    as (rows & w' & Hrun & _ & Hall & _).
  - split; [intros n; reflexivity | reflexivity].
  - intros l. reflexivity.
  - vm_compute. reflexivity.
  - exists rows, w'. split; [exact Hrun|].
    rewrite (Permutation_length (Hall "NEW2" eq_refl ltac:(discriminate))).
    vm_compute. reflexivity.
Defined.

(** X24. What Dev_app's /add_vehicle logs, /events lists.  After any
    request to /add_vehicle that reports an action for the identifier
    [vid], a listing of /events for [vid] on the resulting file (storage
    engine failing nothing, sorter only reordering, log with the five
    columns) contains the event the request appended: it has the id that
    was the next free one, is stored under [vid], and its details are the
    posted accident_details, trimmed. *)
Theorem dev_logged_event_is_listed E E' sorter req db h resp db' h' tr msg action vid :
  serve (Dev_app.add_vehicle E req) db h = (resp, db', h', tr) ->
  json_body resp = JAction msg action vid ->
  quiet E' ->
  (forall l, sorter l ≡ₚ l) ->
  has_columns ["id"; "vehicle_id"; "event_time"; "details"; "meta_json"]
              (events_columns db') = true ->
  exists rows w' e,
    Dev_app.list_events E' sorter (Some vid) (mk_world (connect db') h' []) = (inr rows, w') /\
    e ∈ rows /\
    e_id e = next_rowid (events_seq db) (map e_id (accident_events db)) /\
    e_vehicle_id e = vid /\
    dev_field (Dev_app.json req) "accident_details" = e_details e.
Proof.
  intros Hs Hbody Hq Hsort Hcols.
  apply serve_inv in Hs as (r & w1 & Hm & -> & -> & -> & ->).
  apply dev_add_vehicle_run in Hm as (resp & -> & _ & Hcases).
  destruct Hcases as [(vid' & a & ev & -> & _ & Hne & Ha & _ & Hev & Hid & Hvid & Hdet & _)
                     |(Hno & _)]; [|exfalso; eapply Hno; exact Hbody].
  simpl in Hbody. injection Hbody as _ _ <-.
  rewrite (list_events_quiet E' sorter (Some vid')
             (mk_world (connect (disk (conn w1))) (sse w1) []) Hq Hcols).
  rewrite bool_decide_eq_false_2 by exact Hne.
  eexists _, _, ev. split; [reflexivity|].
  split; [|split; [exact Hid|split; [exact Hvid|congruence]]].
  rewrite Hsort. apply list_elem_of_filter. split; [exact Hvid|].
  change (view (conn (mk_world (connect (disk (conn w1))) (sse w1) [])))
    with (disk (conn w1)).
  rewrite Hev. apply elem_of_app. right. apply list_elem_of_singleton. reflexivity.
Qed.

Lemma dev_logged_event_is_listed_witness :
  let d := mk_database Sample.vehicles_columns
             ["id"; "vehicle_id"; "event_time"; "details"; "meta_json"] [] 0 [] 0 in
  let out := serve (Dev_app.add_vehicle Sample.E
                      (Sample.register " NEW2 " "Tata Ace" " reported ")) d Sample.hub0 in
  exists rows w' e,
    Dev_app.list_events Sample.E (fun l => l) (Some "NEW2")
      (mk_world (connect out.1.1.2) out.1.2 []) = (inr rows, w') /\
    e ∈ rows /\ e_details e = Some "reported".
Proof.
  intros d out.
  destruct (dev_logged_event_is_listed Sample.E Sample.E (fun l => l)
              (Sample.register " NEW2 " "Tata Ace" " reported ") d Sample.hub0
              out.1.1.1 out.1.1.2 out.1.2 out.2 "Vehicle updated" "updated" "NEW2")
    as (rows & w' & e & Hrun & Hin & _ & _ & Hdet).
  - vm_compute. reflexivity.
  - vm_compute. reflexivity.
  - split; [intros n; reflexivity | reflexivity].
  - intros l. reflexivity.
  - vm_compute. reflexivity.
  - exists rows, w', e. split; [exact Hrun|]. split; [exact Hin|].
    rewrite <- Hdet. vm_compute. reflexivity.
Defined.

End DevListing.

(* ===================================================================== *)
(** ** From the device to the dashboard *)
(* ===================================================================== *)

Section EndToEnd.
Import Sqlite Runtime Props Invariants User_app.

Lemma find_map_cond (p : vehicle -> bool) (g : vehicle -> vehicle) l :
  (forall r, p r = true -> p (g r) = true) ->
  find p (map (fun r => if p r then g r else r) l) = option_map g (find p l).
Proof.
  intros Hg. induction l as [|r l IH]; simpl; [reflexivity|].
  destruct (p r) eqn:Hr.
  - rewrite (Hg r Hr). reflexivity.
  - rewrite Hr. exact IH.
Qed.

Lemma find_existsb {A} (p : A -> bool) l :
  existsb p l = true -> exists x, find p l = Some x /\ x ∈ l.
Proof.
  induction l as [|y l IH]; simpl; [discriminate|].
  destruct (p y) eqn:Hy.
  - intros _. exists y. split; [reflexivity | apply elem_of_cons; auto].
  - simpl. intros H. destruct (IH H) as (x & Hx & Hin).
    exists x. split; [exact Hx | apply elem_of_cons; auto].
Qed.

(** After an ingestion the identifier resolves to a row that carries the
    notes of the call. *)
Lemma registry_after_resolution E req d d' :
  Forall (fun r => fits_int64 (v_id r) = true) (vehicles d) ->
  vid req <> "" ->
  vehicles d' = registry_after E req (vehicles d) (vehicles_seq d) ->
  exists vehicle used,
    resolution (Py.VStr (vid req)) d' = inr (Some (vehicle, used)) /\
    v_accident_details vehicle = bind_text (notes req).
Proof.
  intros Hfit Hne Hreg.
  assert (Hstrip : Py.strip (Py.str (Py.VStr (vid req))) = vid req).
  { change (Py.str (Py.VStr (vid req))) with (vid req). unfold vid. apply strip_idem. }
  unfold resolution. rewrite bool_decide_eq_false_2 by discriminate.
  rewrite Hstrip. rewrite bool_decide_eq_false_2 by exact Hne.
  unfold vehicle_by_vehicle_id. rewrite Hreg. unfold registry_after. cbv zeta.
  destruct (existsb (fun r => bool_decide (v_vehicle_id r = vid req)) (vehicles d))
    eqn:Halias.
  - (* a row has the alias *)
    rewrite find_map_cond by (intros r Hr; exact Hr).
    apply find_existsb in Halias as (x & -> & _). simpl.
    eexists _, _. split; reflexivity.
  - pose proof (existsb_alias_elem _ _ Halias) as Hnone.
    assert (Hnofind : forall g (f : vehicle -> bool),
              (forall r, v_vehicle_id (g r) = v_vehicle_id r) ->
              find (fun r => bool_decide (v_vehicle_id r = vid req))
                   (map (fun r => if f r then g r else r) (vehicles d)) = None).
    { intros g f Hg. apply (by_vehicle_id_none (vid req)
                              (set_vehicles d (map (fun r => if f r then g r else r)
                                                   (vehicles d)) 0)).
      simpl. intros row Hin. apply elem_of_map_cond in Hin as (r & Hr & ->).
      destruct (f r); [rewrite Hg|]; apply Hnone; exact Hr. }
    assert (Hfresh : forall rows x,
              rows = vehicles d -> v_vehicle_id x = vid req ->
              find (fun r => bool_decide (v_vehicle_id r = vid req)) (rows ++ [x]) = Some x).
    { intros rows x -> Hx. apply find_last.
      - intros y Hy. apply bool_decide_eq_false. apply Hnone. exact Hy.
      - apply bool_decide_eq_true. exact Hx. }
    destruct (Py.int (vid req)) as [iid|] eqn:Hint.
    + destruct (existsb (fun r => bool_decide (v_id r = iid)) (vehicles d)) eqn:Hkey.
      * rewrite Hnofind by reflexivity.
        pose proof (find_existsb _ _ Hkey) as (x & Hx & Hin).
        assert (Hfits : fits_int64 iid = true).
        { rewrite Forall_forall in Hfit. specialize (Hfit x Hin).
          apply find_some in Hx as [_ Hx]. apply bool_decide_eq_true in Hx.
          rewrite <- Hx. exact Hfit. }
        unfold vehicle_by_id. rewrite Hfits. rewrite Hreg. unfold registry_after. cbv zeta.
        rewrite Halias, Hint, Hkey.
        rewrite find_map_cond by (intros r Hr; exact Hr).
        rewrite Hx. simpl. eexists _, _. split; reflexivity.
      * rewrite Hfresh by reflexivity. eexists _, _. split; reflexivity.
    + rewrite Hfresh by reflexivity. eexists _, _. split; reflexivity.
Qed.

(** X25. A reported accident is what /validateID shows next.  Let
    /hardware/event answer 201 for a non-blank identifier, on a registry
    whose keys fit 64 bits.  Then a /validateID for the same identifier
    (the trimmed text the event was logged under), served on the
    resulting file by a storage engine that fails nothing, is answered 200
    with a vehicle: the row with that alias, else the row with that key,
    else the row the ingestion created.  Its accidentDetails is the notes
    of the report as a TEXT column stores them, or [No recent accidents
    reported.] when the report had no notes. *)
Theorem reported_accident_is_shown E E' req db h resp db' h' tr data :
  serve (hardware_event E req) db h = (resp, db', h', tr) ->
  status resp = 201 ->
  Forall (fun r => fits_int64 (v_id r) = true) (vehicles db) ->
  vid req <> "" ->
  Py.strip (Py.str (Py.or_ (Py.or_ (Py.get data "vehicleID") (Py.get data "vehicle_id"))
                           (Py.VStr ""))) = vid req ->
  quiet E' ->
  has_columns ["id"; "vehicle_id"; "intensity"; "lat"; "lng"; "timestamp"; "created_at"]
              (events_columns db') = true ->
  exists vehicle events,
    serve (validate_id E' data) db' h'
    = (mk_response 200
         (JValid (v_id vehicle, v_vehicle_id vehicle, v_model vehicle, v_owner vehicle,
                  v_registration vehicle,
                  if text_truthy (bind_text (notes req))
                  then default "" (bind_text (notes req))
                  else "No recent accidents reported.")
                 events),
       db', h', []).
Proof.
  intros Hs H201 Hfit Hne Hdata Hq Hcols.
  destruct (hardware_event_created _ _ _ _ _ _ _ _ Hs H201) as (_ & (_ & _ & _ & Hreg) & _).
  destruct (registry_after_resolution E req db db' Hfit Hne Hreg)
    as (vehicle & used & Hres & Hsum).
  rewrite <- Hdata in Hres.
  destruct (validate_id_found E' data (mk_world (connect db') h' []) vehicle used Hq)
    as (w' & Hc & Hrun).
  - rewrite Hdata. exact Hne.
  - exact Hres.
  - change (view (conn (mk_world (connect db') h' []))) with db' in Hrun.
    rewrite Hcols, Hsum in Hrun.
    eexists vehicle, _. rewrite (serve_only_counted _ _ _ _ _ Hrun Hc). reflexivity.
Qed.

Lemma reported_accident_is_shown_witness :
  let out := serve (hardware_event Sample.E (Sample.collision " 2 " "side impact"))
                   Sample.db Sample.hub0 in
  let data : gmap string Py.value := <["vehicle_id" := Py.VInt 2]> ∅ in
  exists vehicle events,
    serve (validate_id Sample.E data) out.1.1.2 out.1.2
    = (mk_response 200
         (JValid (v_id vehicle, v_vehicle_id vehicle, v_model vehicle, v_owner vehicle,
                  v_registration vehicle, "side impact") events),
       out.1.1.2, out.1.2, []).
Proof.
  intros out data.
  apply (reported_accident_is_shown Sample.E Sample.E
           (Sample.collision " 2 " "side impact") Sample.db Sample.hub0
           out.1.1.1 out.1.1.2 out.1.2 out.2 data).
  - vm_compute. reflexivity.
  - vm_compute. reflexivity.
  - apply Forall_forall. intros r Hr. apply (bool_decide_unpack _).
    apply elem_of_cons in Hr as [->|Hr]; [vm_compute; exact I|].
    apply list_elem_of_singleton in Hr. subst r. vm_compute. exact I.
  - vm_compute. discriminate.
  - vm_compute. reflexivity.
  - split; [intros n; reflexivity | reflexivity].
  - vm_compute. reflexivity.
Defined.

(** X26. An ingested event reaches the streams opened for exactly its
    identifier, and no other.  On every hub the process can reach, open a
    stream for [key]; then let /hardware/event answer 201 for some
    request.  If the trimmed identifier of the request is [key], the
    session's first two frames are the acknowledgement and the published
    event; if it is any other text (such as the vehicle's numeric key when
    the stream was opened for its alias), the session has sent the
    acknowledgement only. *)
Theorem ingested_event_reaches_open_stream E req db h key resp db' h2 tr :
  reachable h ->
  serve (hardware_event E req) db (stream_vehicle key h).2 = (resp, db', h2, tr) ->
  status resp = 201 ->
  let s := (stream_vehicle key h).1 in
  (vid req = key ->
   s_sent (advances 2 s h2).1 = [Connected key; Data (published E req)]) /\
  (vid req <> key -> s_sent (advances 2 s h2).1 = [Connected key]).
Proof.
  intros Hr Hs H201 s.
  destruct (hardware_event_created _ _ _ _ _ _ _ _ Hs H201) as (_ & _ & ->).
  pose proof (hub_wf_subscribe key h (reachable_wf h Hr)) as (_ & Hnd & Hdisj).
  unfold stream_vehicle, sse_subscribe in s. simpl in s.
  set (q := next_queue h) in *.
  set (h1 := (stream_vehicle key h).2) in *.
  assert (Ha : subscribers h1 !! key = Some (default [] (subscribers h !! key) ++ [q])).
  { unfold h1, stream_vehicle, sse_subscribe. simpl. apply lookup_insert_eq. }
  assert (Hq0 : queues h1 !! q = Some []).
  { unfold h1, stream_vehicle, sse_subscribe. simpl. apply lookup_insert_eq. }
  assert (Hin : q ∈ default [] (subscribers h !! key) ++ [q]).
  { apply elem_of_app. right. apply list_elem_of_singleton. reflexivity. }
  assert (Hfirst : forall h0, advances 2 s h0
                     = advance (mk_session key q (AtYield 0) [Connected key]) h0).
  { intros h0. simpl. destruct (advance _ h0); reflexivity. }
  rewrite Hfirst. split.
  - intros Hv. rewrite Hv.
    destruct (publish_all_lookup key _ q [published E req] (Hnd _ _ Ha) Hin h1 [] Ha Hq0)
      as [_ Hl].
    simpl in Hl. unfold advance, poll. simpl. rewrite Hl. reflexivity.
  - intros Hv.
    assert (Hl : queues (sse_publish (vid req) (published E req) h1) !! q = Some []).
    { assert (Hnd' : NoDup (default [] (subscribers h1 !! vid req))).
      { destruct (subscribers h1 !! vid req) as [arr|] eqn:Harr;
          [exact (Hnd _ _ Harr) | apply NoDup_nil_2]. }
      unfold sse_publish. simpl. rewrite (foldl_append_lookup _ _ Hnd').
      rewrite decide_False; [exact Hq0|].
      intros Hq. destruct (subscribers h1 !! vid req) as [arr|] eqn:Harr; [|inversion Hq].
      apply Hv. exact (Hdisj _ _ _ _ _ Harr Ha Hq Hin). }
    unfold advance, poll. cbn [s_gen s_q s_vid s_sent]. rewrite Hl. reflexivity.
Qed.

Lemma ingested_event_reaches_open_stream_witness :
  let opened := stream_vehicle "2" Sample.hub0 in
  let out := serve (hardware_event Sample.E (Sample.collision "TRK7" "side impact"))
                   Sample.db opened.2 in
  status out.1.1.1 = 201 /\
  s_sent (advances 2 opened.1 out.1.2).1 = [Connected "2"].
Proof.
  intros opened out.
  assert (H201 : status out.1.1.1 = 201) by (vm_compute; reflexivity).
  split; [exact H201|].
  destruct (ingested_event_reaches_open_stream Sample.E
              (Sample.collision "TRK7" "side impact") Sample.db Sample.hub0 "2"
              out.1.1.1 out.1.1.2 out.1.2 out.2) as [_ Hother].
  - apply reach_start.
  - vm_compute. reflexivity.
  - exact H201.
  - apply Hother. vm_compute. discriminate.
Defined.

End EndToEnd.
